(** * search-in-newtab: the leaf lifecycle tracker and redirection engine

    A shallow embedding of the plugin class [SearchPinnedRememberPlugin]
    (the extended variant with command and view-state interception) and of
    the parts of the host workspace it talks to.

    - JavaScript values reported by the search view are the inductive
      [value]; objects keep their properties in property order, because
      [JSON.stringify] and the rest pattern [{ query, ...rest }] follow it.
    - The settings object and the plugin's WeakMap / WeakSet side tables are
      finite maps and sets keyed by leaf identity.
    - [Date.now()] is an explicit argument [now] of every handler.
    - [setTimeout] callbacks are queued in [pending]; [setInterval] handles
      live in [intervals].
    - Host promises are taken to settle before the next event is delivered,
      and host calls are taken not to throw. *)

From stdpp Require Import base option list gmap sets strings pretty.
From Stdlib Require Import ZArith Lia Ascii String.

Open Scope Z_scope.
Open Scope string_scope.

(** ** JavaScript values *)

#[local] Set Warnings "-register-all".

Module JS.

Inductive value : Type :=
  | VUndefined
  | VNull
  | VBool (b : bool)
  | VNum (n : Z)
  | VStr (s : string)
  | VObj (props : list (string * value)).

(** [!!v] *)
Definition truthy (v : value) : bool :=
  match v with
  | VUndefined | VNull => false
  | VBool b => b
  | VNum n => negb (Z.eqb n 0)
  | VStr s => negb (String.eqb s "")
  | VObj _ => true
  end.

(** [typeof v] *)
Definition typeof (v : value) : string :=
  match v with
  | VUndefined => "undefined"
  | VNull | VObj _ => "object"
  | VBool _ => "boolean"
  | VNum _ => "number"
  | VStr _ => "string"
  end.

(** Own property lookup in a property list. *)
Fixpoint assoc (k : string) (ps : list (string * value)) : option value :=
  match ps with
  | [] => None
  | (k', x) :: ps' => if String.eqb k' k then Some x else assoc k ps'
  end.

(** [v?.k]: the own property [k] of an object, [undefined] elsewhere. *)
Definition get (v : value) (k : string) : value :=
  match v with
  | VObj ps => default VUndefined (assoc k ps)
  | _ => VUndefined
  end.

(** Whether [k] is an own property of [v]. *)
Definition has_own (v : value) (k : string) : bool :=
  match v with
  | VObj ps => bool_decide (is_Some (assoc k ps))
  | _ => false
  end.

(** The properties left by the rest pattern [{ k, ...rest }]. *)
Definition omit (k : string) (ps : list (string * value)) : list (string * value) :=
  List.filter (fun p => negb (String.eqb (fst p) k)) ps.

(** Assignment [o.k = x] on a property list: an existing property keeps its
    place, a new one goes last. *)
Fixpoint assign (k : string) (x : value) (ps : list (string * value))
  : list (string * value) :=
  match ps with
  | [] => [(k, x)]
  | (k', y) :: ps' =>
      if String.eqb k' k then (k', x) :: ps' else (k', y) :: assign k x ps'
  end.

Fixpoint chars (s : string) : list ascii :=
  match s with
  | EmptyString => []
  | String c s' => c :: chars s'
  end.

(** The own enumerable properties copied by an object spread [{ ...v }]. *)
Definition spread (v : value) : list (string * value) :=
  match v with
  | VObj ps => ps
  | VStr s => imap (fun i c => (pretty i, VStr (String c EmptyString))) (chars s)
  | _ => []
  end.

(** [a || b] *)
Definition or_else (a b : value) : value := if truthy a then a else b.

(** [String(v)] on the values the plugin passes to it. *)
Definition to_string (v : value) : string :=
  match v with
  | VUndefined => "undefined"
  | VNull => "null"
  | VBool b => if b then "true" else "false"
  | VNum n => pretty n
  | VStr s => s
  | VObj _ => "[object Object]"
  end.

(** *** JSON.stringify *)

Definition dquote : string := String (ascii_of_nat 34) EmptyString.

Definition hex_digit (n : nat) : ascii :=
  ascii_of_nat (if Nat.ltb n 10 then 48 + n else 87 + n)%nat.

Definition escape_char (c : ascii) : string :=
  let n := nat_of_ascii c in
  if Nat.eqb n 34 then "\" ++ dquote
  else if Nat.eqb n 92 then "\\"
  else if Nat.eqb n 8 then "\b"
  else if Nat.eqb n 9 then "\t"
  else if Nat.eqb n 10 then "\n"
  else if Nat.eqb n 12 then "\f"
  else if Nat.eqb n 13 then "\r"
  else if Nat.ltb n 32 then
    "\u00" ++ String (hex_digit (n / 16)) (String (hex_digit (n mod 16)) EmptyString)
  else String c EmptyString.

Fixpoint escape (s : string) : string :=
  match s with
  | EmptyString => EmptyString
  | String c s' => escape_char c ++ escape s'
  end.

Definition quote (s : string) : string := dquote ++ escape s ++ dquote.

(** [JSON.stringify v]: [None] is the JavaScript [undefined] it yields for
    [undefined]; properties whose value is [undefined] are left out. *)
Fixpoint stringify (v : value) : option string :=
  match v with
  | VUndefined => None
  | VNull => Some "null"
  | VBool b => Some (if b then "true" else "false")
  | VNum n => Some (pretty n)
  | VStr s => Some (quote s)
  | VObj props =>
      let fix members (ps : list (string * value)) : list string :=
        match ps with
        | [] => []
        | (k, x) :: ps' =>
            match stringify x with
            | Some sx => (quote k ++ ":" ++ sx) :: members ps'
            | None => members ps'
            end
        end in
      Some ("{" ++ String.concat "," (members props) ++ "}")
  end.

(** Truthiness of the [string | undefined] that [JSON.stringify] and
    [WeakMap.get] return. *)
Definition truthy_str (o : option string) : bool :=
  match o with
  | Some s => negb (String.eqb s "")
  | None => false
  end.

End JS.

Import JS.

(** ** State snapshot sanitizer *)

(** [sanitizeSearchStateForPersistence(state)], with the setting
    [this.settings.rememberQuery] it reads made an argument. *)
Definition sanitizeSearchStateForPersistence (rememberQuery : bool) (state : value)
  : value :=
  if negb (truthy state) || negb (String.eqb (typeof state) "object") then state
  else if rememberQuery then state
  else match state with
       | VObj props => VObj (omit "query" props)
       | _ => state
       end.

(** ** Settings *)

Module Settings.

(** The settings object is a plain JavaScript object: a finite map from
    property names to values. *)
Definition DEFAULT_SETTINGS : gmap string value :=
  <["lastSearchState" := VNull]>
  (<["rememberQuery" := VBool false]>
  (<["openBookmarksInMainArea" := VBool true]>
  (<["clearSidebarSearchOnStartup" := VBool false]>
  (<["debugMode" := VBool false]>
  (<["autoPinSearchTab" := VBool true]> ∅))))).

(** [settings.k] *)
Definition field (s : gmap string value) (k : string) : value :=
  default VUndefined (s !! k).

Definition lastSearchState (s : gmap string value) : value :=
  field s "lastSearchState".

(** The flags are only ever tested for truthiness. *)
Definition rememberQuery (s : gmap string value) : bool :=
  truthy (field s "rememberQuery").
Definition openBookmarksInMainArea (s : gmap string value) : bool :=
  truthy (field s "openBookmarksInMainArea").
Definition clearSidebarSearchOnStartup (s : gmap string value) : bool :=
  truthy (field s "clearSidebarSearchOnStartup").
Definition debugMode (s : gmap string value) : bool :=
  truthy (field s "debugMode").
Definition autoPinSearchTab (s : gmap string value) : bool :=
  truthy (field s "autoPinSearchTab").

(** [Object.assign({}, DEFAULT_SETTINGS, data)]: a [null] source is skipped,
    the properties of an object source override the defaults. *)
Definition assign_defaults (data : option (gmap string value)) : gmap string value :=
  match data with
  | Some stored => stored ∪ DEFAULT_SETTINGS
  | None => DEFAULT_SETTINGS
  end.

(** A record of the interface [SearchPinnedRememberSettings]: every field is
    present and every flag is a boolean. *)
Definition is_flag (v : option value) : Prop := exists b, v = Some (VBool b).

Definition well_typed (s : gmap string value) : Prop :=
  is_Some (s !! "lastSearchState")
  /\ is_flag (s !! "rememberQuery")
  /\ is_flag (s !! "openBookmarksInMainArea")
  /\ is_flag (s !! "clearSidebarSearchOnStartup")
  /\ is_flag (s !! "debugMode")
  /\ is_flag (s !! "autoPinSearchTab").

End Settings.

(** ** The host workspace *)

(** Workspace items (leaves, tab groups, splits) are identified by number;
    object identity in the source is equality of these numbers. *)
Definition leaf := nat.

Record ViewState : Type := mkViewState {
  vs_type : string;
  vs_active : bool;
  vs_state : value
}.

(** What [getViewState()] reports for a leaf without a view. *)
Definition empty_view : ViewState :=
  {| vs_type := "empty"; vs_active := false; vs_state := VObj [] |}.

(** The function stored in [app.commands.executeCommand]. *)
Inductive exec_fn : Type :=
  | HostExecute      (* the host's own dispatcher *)
  | PluginHook.      (* the arrow function installed by setupCommandInterception *)

(** Callbacks handed to [setTimeout] (and to [onLayoutReady]). *)
Inductive task : Type :=
  | TRedirectionPass                        (* () => this.handleSearchCommandExecution() *)
  | TReapply (l : leaf) (vs : ViewState)    (* the double-apply of applySettingsToNewLeaf *)
  | TDetach (l : leaf)                      (* () => leaf.detach() *)
  | TFocusInput (l : leaf)                  (* focus the search input of the new tab *)
  | TStartupCleanup.                        (* () => this.performStartupCleanup() *)

(** Calls that reach the host, in the order they are made. *)
Inductive call : Type :=
  | CHide (l : leaf)                        (* containerEl.style.display = 'none' *)
  | CGetLeafTab (l : leaf)                  (* workspace.getLeaf("tab"), returning l *)
  | CSetViewState (l : leaf) (vs : ViewState) (* the host's setViewState of l *)
  | CSetPinned (l : leaf)
  | CRevealLeaf (l : leaf)
  | CDetach (l : leaf)
  | CSaveData (data : gmap string value)
  | CSetInterval (id : nat) (l : leaf)
  | CClearInterval (id : nat)
  | CExecuteCommand (commandId : string).   (* the host's own executeCommand *)

Record Host : Type := mkHost {
  leaves : list leaf;                 (* attached leaves, in document order *)
  parent : gmap nat nat;              (* item.parent *)
  rootSplit : nat;                    (* workspace.rootSplit *)
  tabGroup : nat;                     (* where getLeaf("tab") puts a new leaf *)
  nextLeaf : nat;
  viewStates : gmap leaf ViewState;   (* leaf.getViewState() *)
  activeLeaf : option leaf;           (* workspace.activeLeaf *)
  viewStateMonitored : gset leaf;     (* leaves carrying __viewStateMonitored *)
  setViewStateHooked : gset leaf;     (* leaves whose setViewState is the plugin's wrapper *)
  executeCommand : option exec_fn;    (* app.commands.executeCommand *)
  intervals : gmap nat leaf;          (* live setInterval handles and the leaf they poll *)
  nextIntervalId : nat;
  pending : list (Z * task);          (* setTimeout callbacks not yet run, with their delay *)
  storage : option (gmap string value); (* what loadData() returns *)
  calls : list call
}.

(** ** The plugin instance *)

Record Plugin : Type := mkPlugin {
  settings : gmap string value;
  processedLeaves : gset leaf;
  leafCreationTime : gmap leaf Z;
  leafWatchIntervals : gmap leaf nat;
  leafBaselineState : gmap leaf string;
  allIntervalIds : list nat;
  detectionIntervalId : option nat;
  originalExecuteCommand : option exec_fn;
  isInitialLoad : bool;
  initializationCompleteTime : Z;
  lastRedirectionTriggerTime : Z;
  leafLocationCache : gmap leaf bool;
  loaded : bool;                      (* the events and commands registered by onload are live *)
  viewStateLayoutHandler : bool       (* the layout-change handler of setupViewStateMonitoring *)
}.

Record World : Type := mkWorld { plugin : Plugin; host : Host }.

(** The instance before [onload]: the field initialisers of the class. *)
Definition new_plugin : Plugin :=
  {| settings := Settings.DEFAULT_SETTINGS;
     processedLeaves := ∅;
     leafCreationTime := ∅;
     leafWatchIntervals := ∅;
     leafBaselineState := ∅;
     allIntervalIds := [];
     detectionIntervalId := None;
     originalExecuteCommand := None;
     isInitialLoad := true;
     initializationCompleteTime := 0;
     lastRedirectionTriggerTime := 0;
     leafLocationCache := ∅;
     loaded := false;
     viewStateLayoutHandler := false |}.

(** *** Field updates *)

Definition on_plugin (f : Plugin -> Plugin) (w : World) : World :=
  {| plugin := f (plugin w); host := host w |}.
Definition on_host (f : Host -> Host) (w : World) : World :=
  {| plugin := plugin w; host := f (host w) |}.

Definition p_settings (x : gmap string value) (p : Plugin) : Plugin :=
  mkPlugin x (processedLeaves p) (leafCreationTime p) (leafWatchIntervals p)
    (leafBaselineState p) (allIntervalIds p) (detectionIntervalId p)
    (originalExecuteCommand p) (isInitialLoad p) (initializationCompleteTime p)
    (lastRedirectionTriggerTime p) (leafLocationCache p) (loaded p)
    (viewStateLayoutHandler p).
Definition p_processedLeaves (x : gset leaf) (p : Plugin) : Plugin :=
  mkPlugin (settings p) x (leafCreationTime p) (leafWatchIntervals p)
    (leafBaselineState p) (allIntervalIds p) (detectionIntervalId p)
    (originalExecuteCommand p) (isInitialLoad p) (initializationCompleteTime p)
    (lastRedirectionTriggerTime p) (leafLocationCache p) (loaded p)
    (viewStateLayoutHandler p).
Definition p_leafCreationTime (x : gmap leaf Z) (p : Plugin) : Plugin :=
  mkPlugin (settings p) (processedLeaves p) x (leafWatchIntervals p)
    (leafBaselineState p) (allIntervalIds p) (detectionIntervalId p)
    (originalExecuteCommand p) (isInitialLoad p) (initializationCompleteTime p)
    (lastRedirectionTriggerTime p) (leafLocationCache p) (loaded p)
    (viewStateLayoutHandler p).
Definition p_leafWatchIntervals (x : gmap leaf nat) (p : Plugin) : Plugin :=
  mkPlugin (settings p) (processedLeaves p) (leafCreationTime p) x
    (leafBaselineState p) (allIntervalIds p) (detectionIntervalId p)
    (originalExecuteCommand p) (isInitialLoad p) (initializationCompleteTime p)
    (lastRedirectionTriggerTime p) (leafLocationCache p) (loaded p)
    (viewStateLayoutHandler p).
Definition p_leafBaselineState (x : gmap leaf string) (p : Plugin) : Plugin :=
  mkPlugin (settings p) (processedLeaves p) (leafCreationTime p) (leafWatchIntervals p)
    x (allIntervalIds p) (detectionIntervalId p)
    (originalExecuteCommand p) (isInitialLoad p) (initializationCompleteTime p)
    (lastRedirectionTriggerTime p) (leafLocationCache p) (loaded p)
    (viewStateLayoutHandler p).
Definition p_allIntervalIds (x : list nat) (p : Plugin) : Plugin :=
  mkPlugin (settings p) (processedLeaves p) (leafCreationTime p) (leafWatchIntervals p)
    (leafBaselineState p) x (detectionIntervalId p)
    (originalExecuteCommand p) (isInitialLoad p) (initializationCompleteTime p)
    (lastRedirectionTriggerTime p) (leafLocationCache p) (loaded p)
    (viewStateLayoutHandler p).
Definition p_detectionIntervalId (x : option nat) (p : Plugin) : Plugin :=
  mkPlugin (settings p) (processedLeaves p) (leafCreationTime p) (leafWatchIntervals p)
    (leafBaselineState p) (allIntervalIds p) x
    (originalExecuteCommand p) (isInitialLoad p) (initializationCompleteTime p)
    (lastRedirectionTriggerTime p) (leafLocationCache p) (loaded p)
    (viewStateLayoutHandler p).
Definition p_originalExecuteCommand (x : option exec_fn) (p : Plugin) : Plugin :=
  mkPlugin (settings p) (processedLeaves p) (leafCreationTime p) (leafWatchIntervals p)
    (leafBaselineState p) (allIntervalIds p) (detectionIntervalId p)
    x (isInitialLoad p) (initializationCompleteTime p)
    (lastRedirectionTriggerTime p) (leafLocationCache p) (loaded p)
    (viewStateLayoutHandler p).
Definition p_isInitialLoad (x : bool) (p : Plugin) : Plugin :=
  mkPlugin (settings p) (processedLeaves p) (leafCreationTime p) (leafWatchIntervals p)
    (leafBaselineState p) (allIntervalIds p) (detectionIntervalId p)
    (originalExecuteCommand p) x (initializationCompleteTime p)
    (lastRedirectionTriggerTime p) (leafLocationCache p) (loaded p)
    (viewStateLayoutHandler p).
Definition p_initializationCompleteTime (x : Z) (p : Plugin) : Plugin :=
  mkPlugin (settings p) (processedLeaves p) (leafCreationTime p) (leafWatchIntervals p)
    (leafBaselineState p) (allIntervalIds p) (detectionIntervalId p)
    (originalExecuteCommand p) (isInitialLoad p) x
    (lastRedirectionTriggerTime p) (leafLocationCache p) (loaded p)
    (viewStateLayoutHandler p).
Definition p_lastRedirectionTriggerTime (x : Z) (p : Plugin) : Plugin :=
  mkPlugin (settings p) (processedLeaves p) (leafCreationTime p) (leafWatchIntervals p)
    (leafBaselineState p) (allIntervalIds p) (detectionIntervalId p)
    (originalExecuteCommand p) (isInitialLoad p) (initializationCompleteTime p)
    x (leafLocationCache p) (loaded p)
    (viewStateLayoutHandler p).
Definition p_leafLocationCache (x : gmap leaf bool) (p : Plugin) : Plugin :=
  mkPlugin (settings p) (processedLeaves p) (leafCreationTime p) (leafWatchIntervals p)
    (leafBaselineState p) (allIntervalIds p) (detectionIntervalId p)
    (originalExecuteCommand p) (isInitialLoad p) (initializationCompleteTime p)
    (lastRedirectionTriggerTime p) x (loaded p)
    (viewStateLayoutHandler p).
Definition p_loaded (x : bool) (p : Plugin) : Plugin :=
  mkPlugin (settings p) (processedLeaves p) (leafCreationTime p) (leafWatchIntervals p)
    (leafBaselineState p) (allIntervalIds p) (detectionIntervalId p)
    (originalExecuteCommand p) (isInitialLoad p) (initializationCompleteTime p)
    (lastRedirectionTriggerTime p) (leafLocationCache p) x
    (viewStateLayoutHandler p).
Definition p_viewStateLayoutHandler (x : bool) (p : Plugin) : Plugin :=
  mkPlugin (settings p) (processedLeaves p) (leafCreationTime p) (leafWatchIntervals p)
    (leafBaselineState p) (allIntervalIds p) (detectionIntervalId p)
    (originalExecuteCommand p) (isInitialLoad p) (initializationCompleteTime p)
    (lastRedirectionTriggerTime p) (leafLocationCache p) (loaded p)
    x.

Definition h_leaves (x : list leaf) (h : Host) : Host :=
  mkHost x (parent h) (rootSplit h) (tabGroup h) (nextLeaf h) (viewStates h)
    (activeLeaf h) (viewStateMonitored h) (setViewStateHooked h) (executeCommand h)
    (intervals h) (nextIntervalId h) (pending h) (storage h) (calls h).
Definition h_parent (x : gmap nat nat) (h : Host) : Host :=
  mkHost (leaves h) x (rootSplit h) (tabGroup h) (nextLeaf h) (viewStates h)
    (activeLeaf h) (viewStateMonitored h) (setViewStateHooked h) (executeCommand h)
    (intervals h) (nextIntervalId h) (pending h) (storage h) (calls h).
Definition h_nextLeaf (x : nat) (h : Host) : Host :=
  mkHost (leaves h) (parent h) (rootSplit h) (tabGroup h) x (viewStates h)
    (activeLeaf h) (viewStateMonitored h) (setViewStateHooked h) (executeCommand h)
    (intervals h) (nextIntervalId h) (pending h) (storage h) (calls h).
Definition h_viewStates (x : gmap leaf ViewState) (h : Host) : Host :=
  mkHost (leaves h) (parent h) (rootSplit h) (tabGroup h) (nextLeaf h) x
    (activeLeaf h) (viewStateMonitored h) (setViewStateHooked h) (executeCommand h)
    (intervals h) (nextIntervalId h) (pending h) (storage h) (calls h).
Definition h_activeLeaf (x : option leaf) (h : Host) : Host :=
  mkHost (leaves h) (parent h) (rootSplit h) (tabGroup h) (nextLeaf h) (viewStates h)
    x (viewStateMonitored h) (setViewStateHooked h) (executeCommand h)
    (intervals h) (nextIntervalId h) (pending h) (storage h) (calls h).
Definition h_viewStateMonitored (x : gset leaf) (h : Host) : Host :=
  mkHost (leaves h) (parent h) (rootSplit h) (tabGroup h) (nextLeaf h) (viewStates h)
    (activeLeaf h) x (setViewStateHooked h) (executeCommand h)
    (intervals h) (nextIntervalId h) (pending h) (storage h) (calls h).
Definition h_setViewStateHooked (x : gset leaf) (h : Host) : Host :=
  mkHost (leaves h) (parent h) (rootSplit h) (tabGroup h) (nextLeaf h) (viewStates h)
    (activeLeaf h) (viewStateMonitored h) x (executeCommand h)
    (intervals h) (nextIntervalId h) (pending h) (storage h) (calls h).
Definition h_executeCommand (x : option exec_fn) (h : Host) : Host :=
  mkHost (leaves h) (parent h) (rootSplit h) (tabGroup h) (nextLeaf h) (viewStates h)
    (activeLeaf h) (viewStateMonitored h) (setViewStateHooked h) x
    (intervals h) (nextIntervalId h) (pending h) (storage h) (calls h).
Definition h_intervals (x : gmap nat leaf) (h : Host) : Host :=
  mkHost (leaves h) (parent h) (rootSplit h) (tabGroup h) (nextLeaf h) (viewStates h)
    (activeLeaf h) (viewStateMonitored h) (setViewStateHooked h) (executeCommand h)
    x (nextIntervalId h) (pending h) (storage h) (calls h).
Definition h_nextIntervalId (x : nat) (h : Host) : Host :=
  mkHost (leaves h) (parent h) (rootSplit h) (tabGroup h) (nextLeaf h) (viewStates h)
    (activeLeaf h) (viewStateMonitored h) (setViewStateHooked h) (executeCommand h)
    (intervals h) x (pending h) (storage h) (calls h).
Definition h_pending (x : list (Z * task)) (h : Host) : Host :=
  mkHost (leaves h) (parent h) (rootSplit h) (tabGroup h) (nextLeaf h) (viewStates h)
    (activeLeaf h) (viewStateMonitored h) (setViewStateHooked h) (executeCommand h)
    (intervals h) (nextIntervalId h) x (storage h) (calls h).
Definition h_storage (x : option (gmap string value)) (h : Host) : Host :=
  mkHost (leaves h) (parent h) (rootSplit h) (tabGroup h) (nextLeaf h) (viewStates h)
    (activeLeaf h) (viewStateMonitored h) (setViewStateHooked h) (executeCommand h)
    (intervals h) (nextIntervalId h) (pending h) x (calls h).
Definition h_calls (x : list call) (h : Host) : Host :=
  mkHost (leaves h) (parent h) (rootSplit h) (tabGroup h) (nextLeaf h) (viewStates h)
    (activeLeaf h) (viewStateMonitored h) (setViewStateHooked h) (executeCommand h)
    (intervals h) (nextIntervalId h) (pending h) (storage h) x.

(** ** Host API *)

Definition log (c : call) (w : World) : World :=
  on_host (fun h => h_calls (calls h ++ [c]) h) w.

Definition setTimeout (t : task) (delay : Z) (w : World) : World :=
  on_host (fun h => h_pending (pending h ++ [(delay, t)]) h) w.

Definition getViewState (w : World) (l : leaf) : ViewState :=
  default empty_view (viewStates (host w) !! l).

(** [leaf.view?.getViewType?.()] *)
Definition getViewType (w : World) (l : leaf) : string :=
  vs_type (getViewState w l).

Definition getLeavesOfType (ty : string) (w : World) : list leaf :=
  List.filter (fun l => String.eqb (getViewType w l) ty) (leaves (host w)).

(** The host's own [setViewState]. *)
Definition host_setViewState (l : leaf) (vs : ViewState) (w : World) : World :=
  log (CSetViewState l vs)
    (on_host (fun h => h_viewStates (<[l := vs]> (viewStates h)) h) w).

(** [workspace.getLeaf("tab")]: a new empty leaf in the main tab group. *)
Definition host_getLeafTab (w : World) : leaf * World :=
  let n := nextLeaf (host w) in
  (n, log (CGetLeafTab n)
        (on_host (fun h =>
           h_nextLeaf (S n)
             (h_viewStates (<[n := empty_view]> (viewStates h))
               (h_parent (<[n := tabGroup h]> (parent h))
                 (h_leaves (leaves h ++ [n]) h)))) w)).

Definition host_setPinned (l : leaf) (w : World) : World := log (CSetPinned l) w.

Definition host_revealLeaf (l : leaf) (w : World) : World :=
  log (CRevealLeaf l) (on_host (h_activeLeaf (Some l)) w).

Definition host_detach (l : leaf) (w : World) : World :=
  log (CDetach l)
    (on_host (fun h =>
       h_parent (delete l (parent h))
         (h_leaves (List.filter (fun l' => negb (Nat.eqb l' l)) (leaves h)) h)) w).

Definition host_setInterval (l : leaf) (w : World) : nat * World :=
  let id := nextIntervalId (host w) in
  (id, log (CSetInterval id l)
         (on_host (fun h => h_nextIntervalId (S id) (h_intervals (<[id := l]> (intervals h)) h)) w)).

Definition host_clearInterval (id : nat) (w : World) : World :=
  log (CClearInterval id) (on_host (fun h => h_intervals (delete id (intervals h)) h) w).

(** ** Plugin methods *)

Definition the_settings (w : World) : gmap string value := settings (plugin w).

(** *** Persistence gateway *)

Definition loadSettings (w : World) : World :=
  on_plugin (p_settings (Settings.assign_defaults (storage (host w)))) w.

Definition saveSettings (w : World) : World :=
  log (CSaveData (the_settings w))
    (on_host (h_storage (Some (the_settings w))) w).

(** *** Leaf location classifier *)

(** The loop of [isInMainArea]: [fuel] is what is left of the bound
    [depth < 10]; the result carries the final [depth]. *)
Fixpoint walk (h : Host) (fuel : nat) (p : option nat) (depth : nat) : bool * nat :=
  match fuel with
  | O => (false, depth)
  | S fuel' =>
      match p with
      | None => (false, depth)
      | Some item =>
          if Nat.eqb item (rootSplit h) then (true, depth)
          else walk h fuel' (parent h !! item) (S depth)
      end
  end.

Definition depth_bound : nat := 10.

Definition isInMainArea (l : leaf) (w : World) : bool * World :=
  match leafLocationCache (plugin w) !! l with
  | Some cachedResult => (cachedResult, w)
  | None =>
      let r := fst (walk (host w) depth_bound (parent (host w) !! l) 0) in
      (r, on_plugin (fun p => p_leafLocationCache (<[l := r]> (leafLocationCache p)) p) w)
  end.

Definition clearLocationCache (w : World) : World :=
  on_plugin (p_leafLocationCache ∅) w.

(** [ls.filter(leaf => !this.isInMainArea(leaf))], with the cache threaded
    through the calls. *)
Fixpoint sidebarOnly (ls : list leaf) (w : World) : list leaf * World :=
  match ls with
  | [] => ([], w)
  | l :: ls' =>
      let '(inMain, w1) := isInMainArea l w in
      let '(rest, w2) := sidebarOnly ls' w1 in
      (if inMain then rest else l :: rest, w2)
  end.

(** *** Time windows *)

Definition isInInitializationGracePeriod (now : Z) (w : World) : bool :=
  if isInitialLoad (plugin w) then true
  else
    let timeSinceInit := now - initializationCompleteTime (plugin w) in
    let gracePeriod := 2000 in
    Z.ltb timeSinceInit gracePeriod.

Definition shouldPreventDuplicateRedirection (now : Z) (w : World) : bool :=
  let timeSinceLastTrigger := now - lastRedirectionTriggerTime (plugin w) in
  let duplicatePreventionWindow := 500 in
  Z.ltb timeSinceLastTrigger duplicatePreventionWindow.

Definition triggerRedirection (now : Z) (w : World) : World :=
  if shouldPreventDuplicateRedirection now w then w
  else
    setTimeout TRedirectionPass 10
      (on_plugin (p_lastRedirectionTriggerTime now) w).

(** *** Snapshot *)

(** [x ?? null] *)
Definition nullish_to_null (v : value) : value :=
  match v with
  | VUndefined => VNull
  | _ => v
  end.

Definition getAnySearchState (w : World) : value :=
  let ls := getLeavesOfType "search" w in
  match ls with
  | [] => VNull
  | first :: _ =>
      let l :=
        match activeLeaf (host w) with
        | Some a => if String.eqb (getViewType w a) "search" then a else first
        | None => first
        end in
      nullish_to_null (vs_state (getViewState w l))
  end.

Definition sanitize (w : World) (state : value) : value :=
  sanitizeSearchStateForPersistence (Settings.rememberQuery (the_settings w)) state.

Definition set_lastSearchState (v : value) (w : World) : World :=
  on_plugin (fun p => p_settings (<["lastSearchState" := v]> (settings p)) p) w.

(** *** Redirection engine *)

(** [createSearchTabInMainArea(query, searchState)]: a new main-area tab
    showing a search with that query and state. *)
Definition createSearchTabInMainArea (query : string) (searchState : value) (w : World)
  : World :=
  let '(l, w1) := host_getLeafTab w in
  let finalState := or_else searchState (VObj []) in
  (* finalState.query = query: a write to a property of a primitive throws
     in a module, which the surrounding try/catch swallows *)
  let assigned : option value :=
    if String.eqb query "" then Some finalState
    else match finalState with
         | VObj ps => Some (VObj (assign "query" (VStr query) ps))
         | _ => None
         end in
  match assigned with
  | None => w1
  | Some st =>
      let viewState := {| vs_type := "search"; vs_active := true; vs_state := st |} in
      (* the new leaf is a main-area leaf that was never wrapped *)
      let w2 := host_setViewState l viewState w1 in
      let w3 := if Settings.autoPinSearchTab (the_settings w2) then host_setPinned l w2 else w2 in
      let w4 := host_revealLeaf l w3 in
      setTimeout (TFocusInput l) 50 w4
  end.

Definition redirectSidebarSearchToMainArea (l : leaf) (w : World) : World :=
  let w1 := on_plugin (fun p => p_processedLeaves ({[l]} ∪ processedLeaves p) p) w in
  let w2 := log (CHide l) w1 in
  let viewState := getViewState w2 l in
  let searchState := vs_state viewState in
  let searchQuery := or_else (get searchState "query") (VStr "") in
  let w3 := createSearchTabInMainArea (to_string searchQuery) searchState w2 in
  setTimeout (TDetach l) 10 w3.

Definition handleSearchCommandExecution (w : World) : World :=
  let allSearchLeaves := getLeavesOfType "search" w in
  (* the logging pass over allSearchLeaves makes the same isInMainArea calls
     as the filter and leaves the same cache *)
  let '(sidebarSearchViews, w1) := sidebarOnly allSearchLeaves w in
  match sidebarSearchViews with
  | targetView :: _ => redirectSidebarSearchToMainArea targetView w1
  | [] => w1
  end.

(** *** View-state interception *)

(** The wrapper installed by [monitorLeafViewState]. *)
Definition setViewStateHook (now : Z) (l : leaf) (viewState : ViewState) (w : World)
  : World :=
  (* the argument of the first debugLog already evaluates isInMainArea *)
  let '(inMain, w1) := isInMainArea l w in
  if String.eqb (vs_type viewState) "search" && negb inMain
     && negb (isInInitializationGracePeriod now w1)
     && Settings.openBookmarksInMainArea (the_settings w1)
  then
    let searchState := or_else (vs_state viewState) (VObj []) in
    let searchQuery := or_else (get searchState "query") (VStr "") in
    createSearchTabInMainArea (to_string searchQuery) searchState w1
  else host_setViewState l viewState w1.

(** [leaf.setViewState(viewState)], whoever calls it. *)
Definition setViewState (now : Z) (l : leaf) (viewState : ViewState) (w : World) : World :=
  if bool_decide (l ∈ setViewStateHooked (host w))
  then setViewStateHook now l viewState w
  else host_setViewState l viewState w.

Definition monitorLeafViewState (l : leaf) (w : World) : World :=
  if bool_decide (l ∈ viewStateMonitored (host w)) then w
  else
    on_host (fun h =>
      h_setViewStateHooked ({[l]} ∪ setViewStateHooked h)
        (h_viewStateMonitored ({[l]} ∪ viewStateMonitored h) h)) w.

(** [iterateAllLeaves(leaf => { if (!this.isInMainArea(leaf)) this.monitorLeafViewState(leaf) })] *)
Definition monitorSidebarLeaves (w : World) : World :=
  fold_left
    (fun w l =>
       let '(inMain, w1) := isInMainArea l w in
       if inMain then w1 else monitorLeafViewState l w1)
    (leaves (host w)) w.

Definition setupViewStateMonitoring (w : World) : World :=
  on_plugin (p_viewStateLayoutHandler true) (monitorSidebarLeaves w).

(** The layout-change handler registered by [setupViewStateMonitoring]. *)
Definition viewStateLayoutChange (w : World) : World :=
  monitorSidebarLeaves (clearLocationCache w).

(** *** Leaf lifecycle tracker *)

(** [this.leafBaselineState.set(leaf, str)]; storing [undefined] reads back
    like a missing entry. *)
Definition set_baseline (l : leaf) (str : option string) (w : World) : World :=
  on_plugin (fun p =>
    p_leafBaselineState
      (match str with
       | Some s => <[l := s]> (leafBaselineState p)
       | None => delete l (leafBaselineState p)
       end) p) w.

Definition applySettingsToNewLeaf (now : Z) (l : leaf) (w : World) : World :=
  let current := getViewState w l in
  let last := Settings.lastSearchState (the_settings w) in
  let desiredState :=
    if Settings.rememberQuery (the_settings w)
    then VObj (spread last)
    else VObj (assign "query" (or_else (get (vs_state current) "query") (VStr ""))
                 (spread last)) in
  let newState :=
    {| vs_type := vs_type current; vs_active := vs_active current;
       vs_state := desiredState |} in
  let w1 := setViewState now l newState w in
  let w2 := set_baseline l (stringify (sanitize w1 desiredState)) w1 in
  setTimeout (TReapply l newState) 100 w2.

Definition startIntelligentMonitoring (l : leaf) (w : World) : World :=
  if bool_decide (is_Some (leafWatchIntervals (plugin w) !! l)) then w
  else
    let '(id, w1) := host_setInterval l w in
    on_plugin (fun p =>
      p_allIntervalIds (allIntervalIds p ++ [id])
        (p_leafWatchIntervals (<[l := id]> (leafWatchIntervals p)) p)) w1.

(** [ids.splice(ids.indexOf(id), 1)] when [id] occurs in [ids]. *)
Fixpoint remove_first (id : nat) (ids : list nat) : list nat :=
  match ids with
  | [] => []
  | x :: ids' => if Nat.eqb x id then ids' else x :: remove_first id ids'
  end.

Definition cleanupLeafTracking (l : leaf) (w : World) : World :=
  let w1 :=
    match leafWatchIntervals (plugin w) !! l with
    | Some id =>
        on_plugin (fun p =>
          p_allIntervalIds (remove_first id (allIntervalIds p))
            (p_leafWatchIntervals (delete l (leafWatchIntervals p)) p))
          (host_clearInterval id w)
    | None => w
    end in
  on_plugin (fun p =>
    p_leafBaselineState (delete l (leafBaselineState p))
      (p_leafCreationTime (delete l (leafCreationTime p)) p)) w1.

(** One run of the [monitor] closure of [startIntelligentMonitoring]. *)
Definition monitor (now : Z) (l : leaf) (w : World) : World :=
  if negb (String.eqb (getViewType w l) "search") then cleanupLeafTracking l w
  else
    let creationTime := default 0 (leafCreationTime (plugin w) !! l) in
    let timeSinceCreation := now - creationTime in
    if Z.ltb timeSinceCreation 2000 then w
    else
      let currentState := nullish_to_null (vs_state (getViewState w l)) in
      if truthy currentState then
        let currentStr := stringify (sanitize w currentState) in
        let baselineStr := leafBaselineState (plugin w) !! l in
        if negb (bool_decide (currentStr = baselineStr)) && truthy_str baselineStr then
          let w1 := set_lastSearchState (sanitize w currentState) w in
          let w2 := saveSettings w1 in
          set_baseline l currentStr w2
        else w
      else w.

Definition processNewSearchLeaf (now : Z) (l : leaf) (w : World) : World :=
  let w1 := on_plugin (fun p => p_processedLeaves ({[l]} ∪ processedLeaves p) p) w in
  let w2 := on_plugin (fun p => p_leafCreationTime (<[l := now]> (leafCreationTime p)) p) w1 in
  let continue (w : World) : World :=
    let w' :=
      if truthy (Settings.lastSearchState (the_settings w))
      then applySettingsToNewLeaf now l w else w in
    startIntelligentMonitoring l w' in
  if isInInitializationGracePeriod now w2 then continue w2
  else
    (* either the redirection test or the else-if after it calls isInMainArea *)
    let '(inMain, w3) := isInMainArea l w2 in
    if Settings.openBookmarksInMainArea (the_settings w3) && negb inMain
    then triggerRedirection now w3
    else continue w3.

(** The loop of [handleLayoutChanges] over the search leaves. *)
Definition processUnseen (now : Z) (ls : list leaf) (w : World) : World :=
  fold_left
    (fun w l =>
       if bool_decide (l ∈ processedLeaves (plugin w)) then w
       else processNewSearchLeaf now l w)
    ls w.

Definition handleLayoutChanges (now : Z) (w : World) : World :=
  let w1 := clearLocationCache w in
  if negb (Settings.openBookmarksInMainArea (the_settings w1)) then w1
  else
    (* with no search leaf the loop does nothing: the early exit *)
    processUnseen now (getLeavesOfType "search" w1) w1.

Definition handleExistingSearchLeafActivation (now : Z) (l : leaf) (w : World) : World :=
  if isInInitializationGracePeriod now w then w
  else
    let '(inMain, w1) := isInMainArea l w in
    if Settings.openBookmarksInMainArea (the_settings w1) && negb inMain
    then triggerRedirection now w1
    else w1.

Definition handleActiveLeafChanges (now : Z) (w : World) : World :=
  match activeLeaf (host w) with
  | None => w
  | Some a =>
      if negb (String.eqb (getViewType w a) "search")
         || negb (Settings.openBookmarksInMainArea (the_settings w))
      then w
      else
        let '(inMain, w1) := isInMainArea a w in
        if negb inMain && bool_decide (a ∈ processedLeaves (plugin w1))
        then handleExistingSearchLeafActivation now a w1
        else w1
  end.

(** *** Command interception *)

Definition isSearchCommand (commandId : string) : bool :=
  existsb (String.eqb commandId)
    ["global-search:open"; "search-current-file"; "search:toggle"; "search:open"].

Definition setupCommandInterception (w : World) : World :=
  match executeCommand (host w) with
  | None => w
  | Some f =>
      on_host (h_executeCommand (Some PluginHook))
        (on_plugin (p_originalExecuteCommand (Some f)) w)
  end.

(** The arrow function stored in [commands.executeCommand].  It calls
    [this.originalExecuteCommand] as that field is at the time of the call:
    when the field holds the hook itself the call never returns normally,
    and when it holds [null] the call throws. *)
Definition executeCommandHook (commandId : string) (w : World) : World :=
  match originalExecuteCommand (plugin w) with
  | Some HostExecute =>
      let w1 := log (CExecuteCommand commandId) w in
      if negb (String.eqb commandId "") && isSearchCommand commandId then
        let '(currentSidebarSearchViews, w2) :=
          sidebarOnly (getLeavesOfType "search" w1) w1 in
        let w3 :=
          on_plugin (fun p =>
            p_processedLeaves
              (processedLeaves p ∖ list_to_set currentSidebarSearchViews) p) w2 in
        setTimeout TRedirectionPass 0 w3
      else w1
  | _ => w
  end.

(** [app.commands.executeCommand(commandId)] *)
Definition dispatchCommand (commandId : string) (w : World) : World :=
  match executeCommand (host w) with
  | Some HostExecute => log (CExecuteCommand commandId) w
  | Some PluginHook => executeCommandHook commandId w
  | None => w
  end.

(** *** Startup cleanup *)

Definition performStartupCleanup (w : World) : World :=
  let '(sidebarSearchLeaves, w1) := sidebarOnly (getLeavesOfType "search" w) w in
  fold_left (fun w l => host_detach l w) sidebarSearchLeaves w1.

(** [onLayoutReady(cb)] runs [cb] once the layout is ready. *)
Definition setupStartupCleanup (w : World) : World := setTimeout TStartupCleanup 0 w.

(** *** Commands of the plugin *)

Definition openPinnedSearchWithLastState (w : World) : World :=
  let '(l, w1) := host_getLeafTab w in
  let last :=
    match Settings.lastSearchState (the_settings w1) with
    | VNull | VUndefined => VObj []
    | v => v
    end in
  let viewState :=
    {| vs_type := "search"; vs_active := true;
       vs_state := if Settings.rememberQuery (the_settings w1) then last
                   else VObj (assign "query" (VStr "") (spread last)) |} in
  (* the new leaf is a main-area leaf that was never wrapped *)
  let w2 := host_setViewState l viewState w1 in
  let w3 := if Settings.autoPinSearchTab (the_settings w2) then host_setPinned l w2 else w2 in
  let w4 := host_revealLeaf l w3 in
  setTimeout (TFocusInput l) 50 w4.

Definition saveCurrentSearchState (w : World) : World :=
  let st := getAnySearchState w in
  if truthy st then saveSettings (set_lastSearchState (sanitize w st) w) else w.

Definition clearSavedSearchState (w : World) : World :=
  saveSettings (set_lastSearchState VNull w).

(** A toggle of the settings tab. *)
Definition toggleSetting (k : string) (b : bool) (w : World) : World :=
  let w1 := saveSettings (on_plugin (fun p => p_settings (<[k := VBool b]> (settings p)) p) w) in
  if String.eqb k "openBookmarksInMainArea" && b then setupCommandInterception w1 else w1.

(** *** Plugin lifecycle *)

Definition onload (now : Z) (w : World) : World :=
  let w1 := loadSettings w in
  let w2 := on_plugin (p_loaded true) w1 in
  let w3 := handleLayoutChanges now w2 in
  let w4 := if Settings.openBookmarksInMainArea (the_settings w3)
            then setupViewStateMonitoring w3 else w3 in
  let w5 := if Settings.openBookmarksInMainArea (the_settings w4)
            then setupCommandInterception w4 else w4 in
  let w6 := if Settings.clearSidebarSearchOnStartup (the_settings w5)
            then setupStartupCleanup w5 else w5 in
  on_plugin (fun p => p_initializationCompleteTime now (p_isInitialLoad false p)) w6.

Definition onunload (w : World) : World :=
  let w1 := fold_left (fun w id => host_clearInterval id w) (allIntervalIds (plugin w)) w in
  let w2 :=
    on_plugin (fun p =>
      p_leafBaselineState ∅
        (p_leafWatchIntervals ∅
          (p_leafCreationTime ∅
            (p_processedLeaves ∅
              (p_allIntervalIds [] p))))) w1 in
  let w3 :=
    match detectionIntervalId (plugin w2) with
    | Some id =>
        if Nat.eqb id 0 then w2
        else on_plugin (p_detectionIntervalId None) (host_clearInterval id w2)
    | None => w2
    end in
  let w4 :=
    match originalExecuteCommand (plugin w3), executeCommand (host w3) with
    | Some f, Some _ =>
        on_plugin (p_originalExecuteCommand None) (on_host (h_executeCommand (Some f)) w3)
    | _, _ => w3
    end in
  (* events auto-unregistered by registerEvent() *)
  on_plugin (fun p => p_viewStateLayoutHandler false (p_loaded false p)) w4.

(** ** Events *)

(** What the user and the host do to the workspace on their own. *)
Inductive host_op : Type :=
  | HEditState (l : leaf) (st : value)               (* the view of l now reports state st *)
  | HOpenView (l : leaf) (p : nat) (vs : ViewState)  (* l is attached under p showing vs *)
  | HMove (l : leaf) (p : nat)                       (* l is dragged under p *)
  | HActivate (l : leaf).                            (* l becomes the active leaf *)

Definition host_step (op : host_op) (w : World) : World :=
  match op with
  | HEditState l st =>
      let vs := getViewState w l in
      on_host (fun h =>
        h_viewStates
          (<[l := {| vs_type := vs_type vs; vs_active := vs_active vs; vs_state := st |}]>
             (viewStates h)) h) w
  | HOpenView l p vs =>
      on_host (fun h =>
        h_viewStates (<[l := vs]> (viewStates h))
          (h_parent (<[l := p]> (parent h))
            (h_leaves (if bool_decide (l ∈ leaves h) then leaves h else leaves h ++ [l]) h))) w
  | HMove l p => on_host (fun h => h_parent (<[l := p]> (parent h)) h) w
  | HActivate l => on_host (h_activeLeaf (Some l)) w
  end.

Inductive event : Type :=
  | EvLoad                                        (* the host loads the plugin *)
  | EvUnload                                      (* the host unloads the plugin *)
  | EvLayoutChange                                (* workspace event "layout-change" *)
  | EvActiveLeafChange                            (* workspace event "active-leaf-change" *)
  | EvTick (id : nat)                             (* interval id fires *)
  | EvTimeout (i : nat)                           (* the i-th queued timeout fires *)
  | EvExecuteCommand (commandId : string)         (* commands.executeCommand(commandId) *)
  | EvSetViewState (l : leaf) (vs : ViewState)    (* someone calls l.setViewState(vs) *)
  | EvOpenPinned                                  (* command open-search-pinned-remember *)
  | EvSaveCurrent                                 (* command save-current-search-state *)
  | EvClearSaved                                  (* command clear-saved-search-state *)
  | EvToggle (k : string) (b : bool)              (* a toggle of the settings tab *)
  | EvHost (op : host_op).

Definition run_task (now : Z) (t : task) (w : World) : World :=
  match t with
  | TRedirectionPass => handleSearchCommandExecution w
  | TReapply l vs => setViewState now l vs w
  | TDetach l => host_detach l w
  | TFocusInput _ => w
  | TStartupCleanup => performStartupCleanup w
  end.

Definition step (now : Z) (e : event) (w : World) : World :=
  match e with
  | EvLoad => onload now w
  | EvUnload => onunload w
  | EvLayoutChange =>
      if loaded (plugin w) then
        let w1 := handleLayoutChanges now w in
        if viewStateLayoutHandler (plugin w1) then viewStateLayoutChange w1 else w1
      else w
  | EvActiveLeafChange =>
      if loaded (plugin w) then handleActiveLeafChanges now w else w
  | EvTick id =>
      match intervals (host w) !! id with
      | Some l => monitor now l w
      | None => w
      end
  | EvTimeout i =>
      match pending (host w) !! i with
      | Some (_, t) =>
          run_task now t (on_host (fun h => h_pending (delete i (pending h)) h) w)
      | None => w
      end
  | EvExecuteCommand commandId => dispatchCommand commandId w
  | EvSetViewState l vs => setViewState now l vs w
  | EvOpenPinned => if loaded (plugin w) then openPinnedSearchWithLastState w else w
  | EvSaveCurrent => if loaded (plugin w) then saveCurrentSearchState w else w
  | EvClearSaved => if loaded (plugin w) then clearSavedSearchState w else w
  | EvToggle k b => if loaded (plugin w) then toggleSetting k b w else w
  | EvHost op => host_step op w
  end.

(** A run: events with the clock reading at which each is delivered. *)
Definition run (evs : list (Z * event)) (w : World) : World :=
  fold_left (fun w '(now, e) => step now e w) evs w.

(** ** A small workspace used by the examples

    Item 1 is the root split with the main tab group 2 under it; item 3 is
    the left sidebar split with tab group 4 under it, outside the root.
    Leaf 10 is a search view in the sidebar, leaf 11 a note in the main
    area. *)
Module Example.

Definition search_view (st : value) : ViewState :=
  {| vs_type := "search"; vs_active := true; vs_state := st |}.

Definition base_host : Host :=
  {| leaves := [10%nat; 11%nat];
     parent := <[10%nat := 4%nat]> (<[11%nat := 2%nat]>
                 (<[4%nat := 3%nat]> (<[2%nat := 1%nat]> ∅)));
     rootSplit := 1%nat;
     tabGroup := 2%nat;
     nextLeaf := 20%nat;
     viewStates :=
       <[10%nat := search_view (VObj [("query", VStr "todo"); ("sort", VStr "alpha")])]>
         (<[11%nat := {| vs_type := "markdown"; vs_active := false;
                         vs_state := VObj [("file", VStr "notes.md")] |}]> ∅);
     activeLeaf := None;
     viewStateMonitored := ∅;
     setViewStateHooked := ∅;
     executeCommand := Some HostExecute;
     intervals := ∅;
     nextIntervalId := 1%nat;
     pending := [];
     storage := None;
     calls := [] |}.

Definition start : World := {| plugin := new_plugin; host := base_host |}.

(** The same workspace with a second search view, leaf 12, in the right
    sidebar (split 5, tab group 6). *)
Definition two_sidebars : World :=
  host_step
    (HOpenView 12%nat 6%nat
       (search_view (VObj [("query", VStr "urgent"); ("sort", VStr "alpha")])))
    (on_host (fun h => h_parent (<[6%nat := 5%nat]> (parent h)) h) start).

(** The plugin loaded at clock reading 1000000. *)
Definition loaded_world : World := onload 1000000 start.

End Example.

(** ** Vocabulary of the statements *)

(** The own properties of a state, as a lookup. *)
Definition own (v : value) (k : string) : option value :=
  match v with
  | VObj ps => assoc k ps
  | _ => None
  end.

(** The [k]-th ancestor of an item: [ancestor h l 1] is [l.parent]. *)
Definition ancestor (h : Host) (l : nat) (k : nat) : option nat :=
  Nat.iter k (fun o => o ≫= (fun item => parent h !! item)) (Some l).

(** The root split is one of the first ten ancestors of [l]. *)
Definition reaches_root (h : Host) (l : leaf) : Prop :=
  exists k, (1 <= k <= 10)%nat /\ ancestor h l k = Some (rootSplit h).

(** A plugin instance that has not run [onload] yet, in a given host. *)
Definition fresh_instance (h : Host) : World := {| plugin := new_plugin; host := h |}.

(** One step up the parent chain. *)
Definition up (h : Host) (o : option nat) : option nat :=
  o ≫= (fun item => parent h !! item).

(** *** Frames: what a handler leaves alone *)

(** The settings and the start-up flags are the same in both worlds. *)
Record stable (w w' : World) : Prop := mkStable {
  stable_settings : settings (plugin w') = settings (plugin w);
  stable_isInitialLoad : isInitialLoad (plugin w') = isInitialLoad (plugin w);
  stable_initTime :
    initializationCompleteTime (plugin w') = initializationCompleteTime (plugin w)
}.

(** The second world has the host calls of the first, followed by calls
    that all satisfy [Q]. *)
Definition emits (Q : call -> Prop) (w w' : World) : Prop :=
  exists cs, calls (host w') = (calls (host w) ++ cs)%list /\ Forall Q cs.

(** The second world has the queued timeouts of the first, followed by
    timeouts that all satisfy [P]. *)
Definition queues (P : task -> Prop) (w w' : World) : Prop :=
  exists ts, pending (host w') = (pending (host w) ++ ts)%list /\ Forall (fun dt => P (snd dt)) ts.

(** A call that is part of a redirection: hiding or detaching a leaf, or
    asking for a new main-area tab. *)
Definition redirect_call (c : call) : bool :=
  match c with
  | CHide _ | CGetLeafTab _ | CDetach _ => true
  | _ => false
  end.

(** A timeout that is part of a redirection: the redirection pass, or the
    detaching of the original leaf. *)
Definition redirect_task (t : task) : bool :=
  match t with
  | TRedirectionPass | TDetach _ => true
  | _ => false
  end.

(** No redirection was performed or scheduled between the two worlds. *)
Definition redirection_free (w w' : World) : Prop :=
  emits (fun c => redirect_call c = false) w w'
  /\ queues (fun t => redirect_task t = false) w w'.

(** The baseline table is the same in both worlds. *)
Definition baseline_same (w w' : World) : Prop :=
  leafBaselineState (plugin w') = leafBaselineState (plugin w).

(** Every leaf marked processed in the first world is still marked in the
    second. *)
Definition marks_kept (w w' : World) : Prop :=
  processedLeaves (plugin w) ⊆ processedLeaves (plugin w').

(** The time of the last accepted redirection trigger is the same in both
    worlds. *)
Definition trigger_same (w w' : World) : Prop :=
  lastRedirectionTriggerTime (plugin w') = lastRedirectionTriggerTime (plugin w).

(** Between the two worlds no trigger was accepted and no redirection pass
    was queued. *)
Definition no_pass (w w' : World) : Prop :=
  trigger_same w w' /\ queues (fun t => t <> TRedirectionPass) w w'.

(** ** Runs used as examples *)
Module Scenario.

(** Two search commands five milliseconds apart, each followed by the
    redirection pass it queued, three seconds after start-up. *)
Definition two_commands : World :=
  run [(1003000, EvExecuteCommand "global-search:open");
       (1003000, EvTimeout 0%nat);
       (1003005, EvExecuteCommand "global-search:open");
       (1003005, EvTimeout 2%nat)]
      Example.loaded_world.

(** A search command 100 ms after start-up has completed, the redirection
    pass it queued, and the detach timeout of that pass. *)
Definition command_in_grace : World :=
  run [(1000100, EvExecuteCommand "global-search:open");
       (1000100, EvTimeout 0%nat);
       (1000110, EvTimeout 1%nat)]
      Example.loaded_world.

(** The user clicks into the sidebar search three seconds after start-up;
    the redirection pass queued by the activation handler then runs. *)
Definition activation_after_grace : World :=
  run [(1003000, EvHost (HActivate 10%nat));
       (1003000, EvActiveLeafChange);
       (1003010, EvTimeout 0%nat)]
      Example.loaded_world.

(** The plugin is unloaded five seconds after start-up; then a bookmark
    click asks the sidebar leaf 10 to show a search. *)
Definition set_after_unload : World :=
  run [(1005000, EvUnload);
       (1005000, EvSetViewState 10%nat (Example.search_view (VObj [("query", VStr "tag:#x")])))]
      Example.loaded_world.

(** Both sidebar search leaves are processed while the plugin loads with
    nothing remembered.  Inside the grace period the user saves the current
    state and runs a search command; the pass redirects leaf 10 only, and the
    next layout change processes leaf 12 again; the focus and double-apply
    timeouts run.  Later the user changes the sort order in leaf 12, and its
    monitor ticks. *)
Definition first_processed : World := onload 1000000 Example.two_sidebars.

Definition reprocessed_in_grace : World :=
  run [(1000100, EvSaveCurrent);
       (1000200, EvExecuteCommand "global-search:open");
       (1000200, EvTimeout 0%nat);
       (1000210, EvTimeout 1%nat);
       (1000220, EvLayoutChange);
       (1000250, EvTimeout 0%nat);
       (1000320, EvTimeout 0%nat);
       (1000320, EvTimeout 0%nat);
       (1002300, EvHost (HEditState 12%nat
                           (VObj [("query", VStr "urgent"); ("sort", VStr "byModified")])))]
      first_processed.

Definition ticked_after_edit : World := step 1003000 (EvTick 2%nat) reprocessed_in_grace.

(** A search tab, leaf 13, is opened in the main area three seconds after
    start-up, with nothing remembered. *)
Definition main_search_opened : World :=
  host_step
    (HOpenView 13%nat 2%nat
       (Example.search_view (VObj [("query", VStr "draft"); ("sort", VStr "alpha")])))
    Example.loaded_world.

(** The user then changes the sort order, the monitor of leaf 13 ticks, and
    the layout changes. *)
Definition edits_after_immunity : list (Z * event) :=
  [(1005500, EvHost (HEditState 13%nat
                       (VObj [("query", VStr "draft"); ("sort", VStr "byModified")])));
   (1005800, EvTick 2%nat);
   (1006000, EvLayoutChange)].

(** The redirection setting is switched off and on again in the settings
    tab, which runs [setupCommandInterception] a second time; then the
    plugin is unloaded. *)
Definition toggled_twice_then_unloaded : World :=
  run [(1004000, EvToggle "openBookmarksInMainArea" false);
       (1004500, EvToggle "openBookmarksInMainArea" true);
       (1005000, EvUnload)]
      Example.loaded_world.

End Scenario.

(** Neither the host calls nor the queued timeouts differ. *)
Definition silent (w w' : World) : Prop :=
  calls (host w') = calls (host w) /\ pending (host w') = pending (host w).

(** The baseline of leaf [l] is the same in both worlds. *)
Definition baseline_at (l : leaf) (w w' : World) : Prop :=
  leafBaselineState (plugin w') !! l = leafBaselineState (plugin w) !! l.

(** The same leaves carry the plugin's [setViewState] wrapper. *)
Definition hooks_same (w w' : World) : Prop :=
  setViewStateHooked (host w') = setViewStateHooked (host w)
  /\ viewStateMonitored (host w') = viewStateMonitored (host w).

(** Leaf [l] is marked processed before each event of the run and at its
    end. *)
Fixpoint marked_throughout (l : leaf) (evs : list (Z * event)) (w : World) : Prop :=
  l ∈ processedLeaves (plugin w)
  /\ match evs with
     | [] => True
     | (now, e) :: evs' => marked_throughout l evs' (step now e w)
     end.

(** Leaf [l] is marked processed and has no baseline. *)
Definition unbaselined (l : leaf) (w : World) : Prop :=
  l ∈ processedLeaves (plugin w) /\ leafBaselineState (plugin w) !! l = None.

(** If leaf [l] is marked and without baseline in the first world, it is
    so in the second. *)
Definition keeps_unbaselined (l : leaf) (w w' : World) : Prop :=
  unbaselined l w -> unbaselined l w'.

(** ** Vocabulary of the further properties *)

(** The answer of [isInMainArea] for a leaf in a world. *)
Definition classify (l : leaf) (w : World) : bool := fst (isInMainArea l w).

(** The leaves of a list that are classified as peripheral. *)
Definition peripheral (w : World) (ls : list leaf) : list leaf :=
  List.filter (fun l => negb (classify l w)) ls.

(** The second world differs from the first in the location cache only, and
    classifies every leaf as the first does. *)
Definition cache_only (w w' : World) : Prop :=
  host w' = host w
  /\ (exists c, plugin w' = p_leafLocationCache c (plugin w))
  /\ (forall l, classify l w' = classify l w).

(** A host call that neither hides nor detaches a leaf, stores nothing and
    touches no timer. *)
Definition quiet_call (c : call) : Prop :=
  match c with
  | CHide _ | CDetach _ | CSaveData _ | CSetInterval _ _ | CClearInterval _ => False
  | _ => True
  end.

(** ** Further worlds used by the examples *)
Module Scenario2.

(** The sidebar leaf 10 of the loaded example workspace now shows another
    view than search. *)
Definition view_replaced : World :=
  host_step
    (HOpenView 10%nat 4%nat
       {| vs_type := "bookmarks"; vs_active := true; vs_state := VObj [] |})
    Example.loaded_world.

(** The example workspace loaded with redirection switched off in the
    stored data. *)
Definition stored_off : gmap string value :=
  <["openBookmarksInMainArea" := VBool false]> Settings.DEFAULT_SETTINGS.

Definition loaded_off : World :=
  onload 1000000 (on_host (h_storage (Some stored_off)) Example.start).

(** The note in leaf 11 is classified while it is in the main area; then
    the user drags the leaf into the left sidebar (tab group 4), and no
    layout change has been handled yet. *)
Definition moved_after_classification : World :=
  host_step (HMove 11%nat 4%nat) (snd (isInMainArea 11%nat Example.start)).

End Scenario2.

(** ** Invariants of runs *)

(** [P] holds in the second world if it holds in the first. *)
Definition keeps (P : World -> Prop) (w w' : World) : Prop := P w -> P w'.

(** Every live interval timer is one the plugin has in [allIntervalIds]. *)
Definition timers_tracked (w : World) : Prop :=
  forall id, is_Some (intervals (host w) !! id) -> id ∈ allIntervalIds (plugin w).

(** Neither the settings in memory nor the stored data differ. *)
Definition settings_same (w w' : World) : Prop :=
  settings (plugin w') = settings (plugin w) /\ storage (host w') = storage (host w).

(** The settings object has every field of [DEFAULT_SETTINGS]. *)
Definition complete (s : gmap string value) : Prop :=
  forall k, is_Some (Settings.DEFAULT_SETTINGS !! k) -> is_Some (s !! k).

(** The settings in memory are what [loadSettings] would read back. *)
Definition synced (w : World) : Prop :=
  complete (the_settings w)
  /\ the_settings w = Settings.assign_defaults (storage (host w)).

(** [rememberQuery] is off and the remembered state has no [query]. *)
Definition query_free (s : gmap string value) : Prop :=
  Settings.rememberQuery s = false
  /\ has_own (Settings.lastSearchState s) "query" = false.

(** No query is remembered, in memory or in the stored data. *)
Definition query_private (w : World) : Prop :=
  query_free (the_settings w)
  /\ forall s, storage (host w) = Some s -> query_free (Settings.assign_defaults (Some s)).

(** Redirection is switched off, in memory and in the stored data. *)
Definition redirection_off (w : World) : Prop :=
  Settings.openBookmarksInMainArea (the_settings w) = false
  /\ exists s, storage (host w) = Some s
               /\ Settings.openBookmarksInMainArea (Settings.assign_defaults (Some s)) = false.

(** No interval timer is live. *)
Definition no_timer (w : World) : Prop := intervals (host w) = ∅.

(** * The first version of the plugin ([src/main.ts])

    The first version only remembers: it has no redirection, no grace
    period and no location cache.  Its instance has the settings object and
    three side tables; the host is the one of the extended version, and the
    host API is used through [in_app]. *)

(** The host seen as a world of its own, for the host API. *)
Definition at_host (h : Host) : World := {| plugin := new_plugin; host := h |}.
Definition in_app (f : World -> World) (h : Host) : Host := host (f (at_host h)).
Definition in_app2 {A} (f : World -> A * World) (h : Host) : A * Host :=
  let '(a, w) := f (at_host h) in (a, host w).

Module Simple.

Definition DEFAULT_SETTINGS : gmap string value :=
  <["lastSearchState" := VNull]> (<["rememberQuery" := VBool false]> ∅).

Record Plugin : Type := mkPlugin {
  settings : gmap string value;
  initializedSearchLeaves : gset leaf;        (* WeakSet<WorkspaceLeaf> *)
  leafWatchIntervals : gmap leaf nat;         (* WeakMap<WorkspaceLeaf, number> *)
  leafLastStateStr : gmap leaf string         (* WeakMap<WorkspaceLeaf, string> *)
}.

Record World : Type := mkWorld { plugin : Plugin; app : Host }.

Definition new_plugin : Plugin :=
  {| settings := DEFAULT_SETTINGS; initializedSearchLeaves := ∅;
     leafWatchIntervals := ∅; leafLastStateStr := ∅ |}.

Definition on_plugin (f : Plugin -> Plugin) (w : World) : World :=
  {| plugin := f (plugin w); app := app w |}.
Definition on_app (f : Host -> Host) (w : World) : World :=
  {| plugin := plugin w; app := f (app w) |}.

Definition p_settings (x : gmap string value) (p : Plugin) : Plugin :=
  mkPlugin x (initializedSearchLeaves p) (leafWatchIntervals p) (leafLastStateStr p).
Definition p_initializedSearchLeaves (x : gset leaf) (p : Plugin) : Plugin :=
  mkPlugin (settings p) x (leafWatchIntervals p) (leafLastStateStr p).
Definition p_leafWatchIntervals (x : gmap leaf nat) (p : Plugin) : Plugin :=
  mkPlugin (settings p) (initializedSearchLeaves p) x (leafLastStateStr p).
Definition p_leafLastStateStr (x : gmap leaf string) (p : Plugin) : Plugin :=
  mkPlugin (settings p) (initializedSearchLeaves p) (leafWatchIntervals p) x.

Definition the_settings (w : World) : gmap string value := settings (plugin w).

Definition loadSettings (w : World) : World :=
  on_plugin
    (p_settings
       (match storage (app w) with
        | Some stored => stored ∪ DEFAULT_SETTINGS
        | None => DEFAULT_SETTINGS
        end)) w.

Definition saveSettings (w : World) : World :=
  on_app (fun h => in_app (log (CSaveData (the_settings w)))
                     (h_storage (Some (the_settings w)) h)) w.

Definition getAnySearchState (w : World) : value := getAnySearchState (at_host (app w)).

Definition sanitize (w : World) (state : value) : value :=
  sanitizeSearchStateForPersistence (Settings.rememberQuery (the_settings w)) state.

Definition set_lastSearchState (v : value) (w : World) : World :=
  on_plugin (fun p => p_settings (<["lastSearchState" := v]> (settings p)) p) w.

Definition snapshotSearchState (w : World) : World :=
  let st := getAnySearchState w in
  if truthy st then saveSettings (set_lastSearchState (sanitize w st) w) else w.

(** One run of the [poll] closure of [ensureWatchingLeaf]. *)
Definition poll (l : leaf) (w : World) : World :=
  if negb (String.eqb (getViewType (at_host (app w)) l) "search") then
    let w1 :=
      match leafWatchIntervals (plugin w) !! l with
      | Some id =>
          on_plugin (fun p => p_leafWatchIntervals (delete l (leafWatchIntervals p)) p)
            (on_app (in_app (host_clearInterval id)) w)
      | None => w
      end in
    on_plugin (fun p => p_leafLastStateStr (delete l (leafLastStateStr p)) p) w1
  else
    let currentState := nullish_to_null (vs_state (getViewState (at_host (app w)) l)) in
    let sanitizedState := sanitize w currentState in
    let currentStr := stringify sanitizedState in
    let prevStr := leafLastStateStr (plugin w) !! l in
    if truthy_str currentStr && negb (bool_decide (currentStr = prevStr)) then
      let w1 :=
        on_plugin (fun p =>
          p_leafLastStateStr
            (match currentStr with
             | Some s => <[l := s]> (leafLastStateStr p)
             | None => delete l (leafLastStateStr p)
             end) p) w in
      saveSettings (set_lastSearchState sanitizedState w1)
    else w.

Definition ensureWatchingLeaf (l : leaf) (w : World) : World :=
  if bool_decide (is_Some (leafWatchIntervals (plugin w) !! l)) then w
  else
    let '(id, h1) := in_app2 (host_setInterval l) (app w) in
    {| plugin := p_leafWatchIntervals (<[l := id]> (leafWatchIntervals (plugin w))) (plugin w);
       app := h1 |}.

(** The body of the loop of [tryInitializeNewSearchLeaves]. *)
Definition initializeLeaf (w : World) (l : leaf) : World :=
  if bool_decide (l ∈ initializedSearchLeaves (plugin w)) then w
  else
    let w1 :=
      on_plugin (fun p =>
        p_initializedSearchLeaves ({[l]} ∪ initializedSearchLeaves p) p) w in
    let w2 :=
      if truthy (Settings.lastSearchState (the_settings w1)) then
        let current := getViewState (at_host (app w1)) l in
        let last := Settings.lastSearchState (the_settings w1) in
        let viewState :=
          {| vs_type := vs_type current; vs_active := vs_active current;
             vs_state := if Settings.rememberQuery (the_settings w1)
                         then VObj (spread last)
                         else VObj (assign "query" (VStr "") (spread last)) |} in
        on_app (in_app (host_setViewState l viewState)) w1
      else w1 in
    ensureWatchingLeaf l w2.

Definition tryInitializeNewSearchLeaves (w : World) : World :=
  fold_left initializeLeaf (getLeavesOfType "search" (at_host (app w))) w.

Definition openPinnedSearchWithLastState (w : World) : World :=
  let '(l, h1) := in_app2 host_getLeafTab (app w) in
  let last :=
    match Settings.lastSearchState (the_settings w) with
    | VNull | VUndefined => VObj []
    | v => v
    end in
  let viewState :=
    {| vs_type := "search"; vs_active := true;
       vs_state := if Settings.rememberQuery (the_settings w) then last
                   else VObj (assign "query" (VStr "") (spread last)) |} in
  let w2 := {| plugin := plugin w; app := in_app (host_setViewState l viewState) h1 |} in
  let w3 := on_app (in_app (host_setPinned l)) w2 in
  let w4 := ensureWatchingLeaf l w3 in
  let w5 := on_app (in_app (host_revealLeaf l)) w4 in
  on_app (in_app (setTimeout (TFocusInput l) 50)) w5.

Definition onload (w : World) : World :=
  tryInitializeNewSearchLeaves (loadSettings w).

(** What a [layout-change] or an [active-leaf-change] event runs: the two
    handlers registered for it, in the order of their registration. *)
Definition workspaceEvent (w : World) : World :=
  tryInitializeNewSearchLeaves (snapshotSearchState w).

End Simple.

(** A workspace of the first version: the example host with the sidebar
    search leaf 10 active, and a sort order remembered. *)
Module SimpleExample.

Definition remembering : Simple.World :=
  {| Simple.plugin :=
       Simple.p_settings
         (<["lastSearchState" := VObj [("sort", VStr "byModified")]]> Simple.DEFAULT_SETTINGS)
         Simple.new_plugin;
     Simple.app := h_activeLeaf (Some 10%nat) Example.base_host |}.

End SimpleExample.

(** ** Helpers of the redirection engine that nothing calls *)

Definition shouldRedirectSearchView (l : leaf) (w : World) : bool * World :=
  let '(inMain, w1) := isInMainArea l w in
  if inMain then (false, w1)
  else if bool_decide (l ∈ processedLeaves (plugin w1)) then (false, w1)
  else (true, w1).

Definition findRecentSidebarSearchView (w : World) : option leaf * World :=
  let searchLeaves := getLeavesOfType "search" w in
  let '(sidebarSearchLeaves, w1) := sidebarOnly searchLeaves w in
  (List.find (fun l => negb (bool_decide (l ∈ processedLeaves (plugin w1))))
     sidebarSearchLeaves, w1).

(** Leaf [l] is tracked since [now]: it is marked processed, its creation
    time is [now], and it has a live polling timer of its own. *)
Definition watched (now : Z) (l : leaf) (w : World) : Prop :=
  l ∈ processedLeaves (plugin w)
  /\ leafCreationTime (plugin w) !! l = Some now
  /\ exists id, leafWatchIntervals (plugin w) !! l = Some id
                /\ intervals (host w) !! id = Some l
                /\ (id < nextIntervalId (host w))%nat.

(** * Properties *)

(** ** Sanitizer *)

Lemma assoc_omit (q k : string) (ps : list (string * value)) :
  assoc k (omit q ps) = if String.eqb k q then None else assoc k ps.
Proof.
  induction ps as [|[k' x] ps IH]; simpl.
  - by destruct (String.eqb k q).
  - destruct (String.eqb k' q) eqn:Hq; simpl.
    + apply String.eqb_eq in Hq as ->.
      rewrite IH. rewrite (String.eqb_sym q k).
      by destruct (String.eqb k q).
    + destruct (String.eqb k' k) eqn:Hk; [|done].
      apply String.eqb_eq in Hk as ->. by rewrite Hq.
Qed.

Lemma omit_idemp (q : string) (ps : list (string * value)) :
  omit q (omit q ps) = omit q ps.
Proof.
  induction ps as [|[k x] ps IH]; simpl; [done|].
  destruct (String.eqb k q) eqn:Hq; simpl; [done|].
  by rewrite Hq, IH.
Qed.

Lemma sanitize_object (rq : bool) (ps : list (string * value)) :
  sanitizeSearchStateForPersistence rq (VObj ps)
  = if rq then VObj ps else VObj (omit "query" ps).
Proof. by destruct rq. Qed.

Lemma sanitize_not_object (rq : bool) (S : value) :
  (forall ps, S <> VObj ps) -> sanitizeSearchStateForPersistence rq S = S.
Proof.
  intros Hno. destruct S as [| | | | |props]; [..|by destruct (Hno props)].
  all: unfold sanitizeSearchStateForPersistence; simpl; by repeat case_match.
Qed.

(** C5: with [rememberQuery] on, the sanitizer returns the state as it is;
    with it off, the result has every own property of the state except
    [query], with the same values and in the same order (a state that is not
    an object has no properties and comes back unchanged). *)
Theorem sanitize_contract (S : value) :
  sanitizeSearchStateForPersistence true S = S
  /\ (forall k, own (sanitizeSearchStateForPersistence false S) k
                = if String.eqb k "query" then None else own S k)
  /\ match S with
     | VObj props =>
         sanitizeSearchStateForPersistence false S
         = VObj (List.filter (fun p => negb (String.eqb (fst p) "query")) props)
     | _ => sanitizeSearchStateForPersistence false S = S
     end.
Proof.
  split; [unfold sanitizeSearchStateForPersistence; by repeat case_match|]. split.
  - intros k. destruct S as [| | | | |props].
    6: { rewrite sanitize_object. simpl. apply assoc_omit. }
    all: rewrite sanitize_not_object by done; simpl; by destruct (String.eqb k "query").
  - destruct S as [| | | | |props]; [..|by rewrite sanitize_object].
    all: by rewrite sanitize_not_object.
Qed.

(** C9: removing [query] with [rememberQuery] off is idempotent. *)
Theorem sanitize_idempotent (S : value) :
  sanitizeSearchStateForPersistence false (sanitizeSearchStateForPersistence false S)
  = sanitizeSearchStateForPersistence false S.
Proof.
  destruct S as [| | | | |props]; [..|by rewrite !sanitize_object, omit_idemp].
  all: match goal with
       | |- context [sanitizeSearchStateForPersistence false ?v] =>
           assert (sanitizeSearchStateForPersistence false v = v) as E
             by (by apply sanitize_not_object);
           by rewrite !E
       end.
Qed.

(** ** Persistence gateway *)

Lemma loadSettings_lookup (w : World) (k : string) :
  the_settings (loadSettings w) !! k
  = match storage (host w) ≫= (fun stored => stored !! k) with
    | Some v => Some v
    | None => Settings.DEFAULT_SETTINGS !! k
    end.
Proof.
  unfold loadSettings, the_settings, Settings.assign_defaults. simpl.
  destruct (storage (host w)) as [stored|]; simpl.
  - rewrite lookup_union. by destruct (stored !! k), (Settings.DEFAULT_SETTINGS !! k).
  - by destruct (Settings.DEFAULT_SETTINGS !! k).
Qed.

Lemma default_settings_keys (k : string) :
  is_Some (Settings.DEFAULT_SETTINGS !! k) ->
  k ∈ ["lastSearchState"; "rememberQuery"; "openBookmarksInMainArea";
       "clearSidebarSearchOnStartup"; "debugMode"; "autoPinSearchTab"].
Proof.
  unfold Settings.DEFAULT_SETTINGS. intros [v Hv].
  repeat (rewrite lookup_insert in Hv; case_decide; [subst; set_solver|]).
  by rewrite lookup_empty in Hv.
Qed.

Lemma well_typed_covers_defaults (s : gmap string value) (k : string) :
  Settings.well_typed s -> is_Some (Settings.DEFAULT_SETTINGS !! k) -> is_Some (s !! k).
Proof.
  intros (H1 & H2 & H3 & H4 & H5 & H6) Hk%default_settings_keys.
  repeat (apply elem_of_cons in Hk as [->|Hk];
          [first [done | by match goal with H : Settings.is_flag _ |- _ =>
                                destruct H as [b ->] end]|]).
  by apply elem_of_nil in Hk.
Qed.

(** C8: a settings record saved with [saveSettings] and loaded by a fresh
    instance with [loadSettings] comes back as it was, with the same
    [lastSearchState] and the same flags; a field that storage does not hold
    is read from the defaults. *)
Theorem settings_roundtrip (w : World) :
  Settings.well_typed (the_settings w) ->
  let reloaded := loadSettings (fresh_instance (host (saveSettings w))) in
  the_settings reloaded = the_settings w
  /\ Settings.lastSearchState (the_settings reloaded)
     = Settings.lastSearchState (the_settings w)
  /\ Settings.rememberQuery (the_settings reloaded)
     = Settings.rememberQuery (the_settings w)
  /\ Settings.openBookmarksInMainArea (the_settings reloaded)
     = Settings.openBookmarksInMainArea (the_settings w)
  /\ Settings.clearSidebarSearchOnStartup (the_settings reloaded)
     = Settings.clearSidebarSearchOnStartup (the_settings w)
  /\ Settings.debugMode (the_settings reloaded) = Settings.debugMode (the_settings w)
  /\ Settings.autoPinSearchTab (the_settings reloaded)
     = Settings.autoPinSearchTab (the_settings w)
  /\ (forall (h : Host) (k : string),
        storage h ≫= (fun stored => stored !! k) = None ->
        the_settings (loadSettings (fresh_instance h)) !! k
        = Settings.DEFAULT_SETTINGS !! k).
Proof.
  intros Hty reloaded.
  assert (the_settings reloaded = the_settings w) as E.
  { apply map_eq. intros k. unfold reloaded. rewrite loadSettings_lookup. simpl.
    destruct (the_settings w !! k) eqn:Hk; [done|].
    destruct (Settings.DEFAULT_SETTINGS !! k) eqn:Hd; [|done].
    destruct (well_typed_covers_defaults _ k Hty) as [v' Hv]; [by eexists|].
    unfold the_settings in *. congruence. }
  rewrite E. repeat split.
  intros h k Hk. rewrite loadSettings_lookup. simpl. by rewrite Hk.
Qed.

Lemma settings_roundtrip_witness :
  the_settings
    (loadSettings
       (fresh_instance (host (saveSettings (saveCurrentSearchState Example.loaded_world)))))
  = the_settings (saveCurrentSearchState Example.loaded_world).
Proof.
  apply (settings_roundtrip (saveCurrentSearchState Example.loaded_world)).
  unfold Settings.well_typed, Settings.is_flag.
  repeat split; try (eexists; vm_compute; reflexivity).
Defined.

(** ** Leaf location classifier *)

Section Classifier.
Variable h : Host.

Lemma iter_up_none (j : nat) : Nat.iter j (up h) None = None.
Proof. induction j as [|j IH]; simpl; [done|]. by rewrite IH. Qed.

Lemma ancestor_succ (l : nat) (j : nat) :
  ancestor h l (S j) = Nat.iter j (up h) (parent h !! l).
Proof. unfold ancestor. fold (up h). by rewrite Nat.iter_succ_r. Qed.

(** The loop never runs more often than its bound allows. *)
Lemma walk_depth (fuel : nat) (p : option nat) (d : nat) :
  (d <= snd (walk h fuel p d) <= d + fuel)%nat.
Proof.
  revert p d. induction fuel as [|fuel IH]; intros p d; simpl; [lia|].
  destruct p as [item|]; simpl; [|lia].
  destruct (Nat.eqb item (rootSplit h)); simpl; [lia|].
  specialize (IH (parent h !! item) (S d)). lia.
Qed.

(** The loop answers [true] exactly when the root split is one of the
    first [fuel] items of the chain that starts at [p]. *)
Lemma walk_true (fuel : nat) (p : option nat) (d : nat) :
  fst (walk h fuel p d) = true
  <-> exists j, (j < fuel)%nat /\ Nat.iter j (up h) p = Some (rootSplit h).
Proof.
  revert p d. induction fuel as [|fuel IH]; intros p d; simpl.
  - split; [done|]. intros (j & Hj & _). lia.
  - destruct p as [item|]; simpl.
    + destruct (Nat.eqb item (rootSplit h)) eqn:Hroot; simpl.
      * apply Nat.eqb_eq in Hroot as ->. split; [|done].
        intros _. exists 0%nat. split; [lia|done].
      * apply Nat.eqb_neq in Hroot. rewrite IH. split.
        -- intros (j & Hj & Hit). exists (S j). split; [lia|].
           by rewrite Nat.iter_succ_r.
        -- intros ([|j] & Hj & Hit).
           ++ simpl in Hit. congruence.
           ++ exists j. split; [lia|]. by rewrite Nat.iter_succ_r in Hit.
    + split; [done|]. intros (j & _ & Hit). by rewrite iter_up_none in Hit.
Qed.

Lemma walk_reaches_root (l : leaf) :
  fst (walk h depth_bound (parent h !! l) 0) = true <-> reaches_root h l.
Proof.
  rewrite walk_true. unfold reaches_root, depth_bound. split.
  - intros (j & Hj & Hit). exists (S j). split; [lia|]. by rewrite ancestor_succ.
  - intros ([|k] & Hk & Hit); [lia|]. exists k. split; [lia|].
    by rewrite ancestor_succ in Hit.
Qed.
End Classifier.

Lemma isInMainArea_cached (w : World) (l : leaf) (b : bool) :
  leafLocationCache (plugin w) !! l = Some b -> isInMainArea l w = (b, w).
Proof. intros Hc. unfold isInMainArea. by rewrite Hc. Qed.

Lemma isInMainArea_host (w : World) (l : leaf) : host (snd (isInMainArea l w)) = host w.
Proof. unfold isInMainArea. by destruct (leafLocationCache (plugin w) !! l). Qed.

(** What a cache miss computes. *)
Lemma isInMainArea_miss (w : World) (l : leaf) :
  leafLocationCache (plugin w) !! l = None ->
  isInMainArea l w
  = (fst (walk (host w) depth_bound (parent (host w) !! l) 0),
     on_plugin (fun p =>
       p_leafLocationCache
         (<[l := fst (walk (host w) depth_bound (parent (host w) !! l) 0)]>
            (leafLocationCache p)) p) w).
Proof. intros Hmiss. unfold isInMainArea. by rewrite Hmiss. Qed.

(** C6: the classifier answers by the walk only for a leaf whose location
    is not cached.  For such a leaf [isInMainArea] walks the parent chain;
    the walk is a structural recursion on what is left of the bound of 10,
    so it always ends, after at most 10 steps; the answer is main-area
    exactly when the root split is one of the first 10 ancestors, and
    peripheral in every other case, a chain longer than the bound included;
    the answer is stored in the cache. *)
Theorem isInMainArea_classifies (w : World) (l : leaf) :
  leafLocationCache (plugin w) !! l = None ->
  (fst (isInMainArea l w) = true <-> reaches_root (host w) l)
  /\ (fst (isInMainArea l w) = false <-> ~ reaches_root (host w) l)
  /\ (snd (walk (host w) depth_bound (parent (host w) !! l) 0) <= 10)%nat
  /\ leafLocationCache (plugin (snd (isInMainArea l w))) !! l
     = Some (fst (isInMainArea l w)).
Proof.
  intros Hmiss. rewrite (isInMainArea_miss w l Hmiss). cbn [fst snd].
  pose proof (walk_reaches_root (host w) l) as Hw.
  split; [done|]. split; [|split].
  - rewrite <- Hw. by destruct (fst (walk _ _ _ _)).
  - pose proof (walk_depth (host w) depth_bound (parent (host w) !! l) 0) as Hd.
    unfold depth_bound in *. lia.
  - cbn -[walk]. by rewrite lookup_insert_eq.
Qed.

(** In the example workspace the note in leaf 11 has the root split as its
    second ancestor and is classified as main-area; the search view in
    leaf 10 hangs under the left sidebar and is classified as peripheral. *)
Lemma isInMainArea_classifies_witness :
  (reaches_root (host Example.start) 11%nat
   /\ fst (isInMainArea 11%nat Example.start) = true)
  /\ (~ reaches_root (host Example.start) 10%nat
      /\ fst (isInMainArea 10%nat Example.start) = false).
Proof.
  assert (leafLocationCache (plugin Example.start) !! 11%nat = None) as H11
    by reflexivity.
  assert (leafLocationCache (plugin Example.start) !! 10%nat = None) as H10
    by reflexivity.
  assert (reaches_root (host Example.start) 11%nat) as Hr.
  { exists 2%nat. split; [lia|]. vm_compute. reflexivity. }
  assert (fst (isInMainArea 10%nat Example.start) = false) as Hf
    by (vm_compute; reflexivity).
  split.
  - split; [exact Hr|].
    exact (proj2 (proj1 (isInMainArea_classifies Example.start 11%nat H11)) Hr).
  - split; [|exact Hf].
    exact (proj1 (proj1 (proj2 (isInMainArea_classifies Example.start 10%nat H10))) Hf).
Defined.

(** A cached answer is returned without a walk: leaf 11 was classified in
    the main area and then dragged into the left sidebar; until the cache is
    cleared the classifier still answers main-area, although the root split
    is not among the ancestors of the leaf any more. *)
Lemma cached_leaf_is_not_walked :
  leafLocationCache (plugin Scenario2.moved_after_classification) !! 11%nat = Some true
  /\ fst (isInMainArea 11%nat Scenario2.moved_after_classification) = true
  /\ ~ reaches_root (host Scenario2.moved_after_classification) 11%nat.
Proof.
  split; [vm_compute; reflexivity|]. split; [vm_compute; reflexivity|].
  intros Hr. apply walk_reaches_root in Hr. vm_compute in Hr. discriminate Hr.
Qed.

(** Right after a layout change has emptied the cache, the classifier
    answers by the walk for every leaf. *)
Lemma isInMainArea_after_invalidation (w : World) (l : leaf) :
  fst (isInMainArea l (clearLocationCache w)) = true <-> reaches_root (host w) l.
Proof.
  rewrite isInMainArea_miss by apply lookup_empty. cbn [fst].
  apply (walk_reaches_root (host w) l).
Qed.

(** A chain of twelve items below the root: the leaf at the bottom is
    classified as peripheral although the root is among its ancestors. *)
Example isInMainArea_deep_chain :
  let h := h_parent (list_to_map (map (fun i => (S i, i)) (seq 1 12))) Example.base_host in
  ancestor h 13%nat 12 = Some (rootSplit h)
  /\ fst (isInMainArea 13%nat (fresh_instance h)) = false.
Proof. split; vm_compute; reflexivity. Qed.

(** ** Frame lemmas *)

#[local] Instance stable_refl : Reflexive stable.
Proof. by intros w. Qed.

#[local] Instance stable_trans : Transitive stable.
Proof. intros w1 w2 w3 [] []. split; congruence. Qed.

#[local] Instance emits_refl Q : Reflexive (emits Q).
Proof. intros w. exists []. by rewrite app_nil_r. Qed.

#[local] Instance emits_trans Q : Transitive (emits Q).
Proof.
  intros w1 w2 w3 (cs1 & E1 & F1) (cs2 & E2 & F2). exists (cs1 ++ cs2)%list.
  split; [by rewrite E2, E1, app_assoc|by apply Forall_app].
Qed.

#[local] Instance queues_refl P : Reflexive (queues P).
Proof. intros w. exists []. by rewrite app_nil_r. Qed.

#[local] Instance queues_trans P : Transitive (queues P).
Proof.
  intros w1 w2 w3 (ts1 & E1 & F1) (ts2 & E2 & F2). exists (ts1 ++ ts2)%list.
  split; [by rewrite E2, E1, app_assoc|by apply Forall_app].
Qed.

#[local] Instance redirection_free_refl : Reflexive redirection_free.
Proof. by intros w. Qed.

#[local] Instance redirection_free_trans : Transitive redirection_free.
Proof. intros w1 w2 w3 [] []. split; by etrans. Qed.

Lemma emits_weaken (Q Q' : call -> Prop) (w w' : World) :
  (forall c, Q c -> Q' c) -> emits Q w w' -> emits Q' w w'.
Proof. intros HQ (cs & E & F). exists cs. split; [done|]. by eapply Forall_impl. Qed.

Create HintDb frames discriminated.

(** Splits the head of the produced world until a frame lemma applies. *)
Ltac frame_step :=
  match goal with
  | |- _ ?w ?w => reflexivity
  | |- _ => solve [eauto 4 with frames]
  | |- _ _ (match ?x with _ => _ end) => destruct x eqn:?
  | |- _ ?w (_ ?w') => transitivity w'; [|solve [eauto 4 with frames]]
  | E : _ ?w0 = (_, ?w') |- _ _ ?w' => transitivity w0; [|solve [eauto 4 with frames]]
  end.

Ltac frame := intros; repeat (cbv beta zeta; frame_step).
Lemma emits_same (Q : call -> Prop) (w w' : World) :
  calls (host w') = calls (host w) -> emits Q w w'.
Proof. intros E. exists []. by rewrite app_nil_r. Qed.

Lemma queues_same (P : task -> Prop) (w w' : World) :
  pending (host w') = pending (host w) -> queues P w w'.
Proof. intros E. exists []. by rewrite app_nil_r. Qed.

Lemma emits_log (Q : call -> Prop) (c : call) (w : World) : Q c -> emits Q w (log c w).
Proof. intros HQ. exists [c]. split; [done|]. by constructor. Qed.

Lemma queues_setTimeout (P : task -> Prop) (t : task) (d : Z) (w : World) :
  P t -> queues P w (setTimeout t d w).
Proof. intros HP. exists [(d, t)]. split; [done|]. by constructor. Qed.

(** The primitive updates. *)
#[local] Hint Extern 1 (stable ?w (on_plugin _ ?w)) => (split; reflexivity) : frames.
#[local] Hint Extern 1 (stable ?w (on_host _ ?w)) => (split; reflexivity) : frames.
#[local] Hint Extern 1 (stable ?w (log _ ?w)) => (split; reflexivity) : frames.
#[local] Hint Extern 1 (stable ?w (setTimeout _ _ ?w)) => (split; reflexivity) : frames.
#[local] Hint Extern 1 (stable ?w (set_baseline _ _ ?w)) => (split; reflexivity) : frames.
#[local] Hint Extern 1 (emits _ ?w (on_plugin _ ?w)) => (apply emits_same; reflexivity) : frames.
#[local] Hint Extern 1 (emits _ ?w (on_host _ ?w)) => (apply emits_same; reflexivity) : frames.
#[local] Hint Extern 1 (emits _ ?w (setTimeout _ _ ?w)) => (apply emits_same; reflexivity) : frames.
#[local] Hint Extern 1 (emits _ ?w (set_baseline _ _ ?w)) => (apply emits_same; reflexivity) : frames.
#[local] Hint Extern 1 (emits _ ?w (log _ ?w)) => (apply emits_log; done) : frames.
#[local] Hint Extern 1 (queues _ ?w (on_plugin _ ?w)) => (apply queues_same; reflexivity) : frames.
#[local] Hint Extern 1 (queues _ ?w (on_host _ ?w)) => (apply queues_same; reflexivity) : frames.
#[local] Hint Extern 1 (queues _ ?w (log _ ?w)) => (apply queues_same; reflexivity) : frames.
#[local] Hint Extern 1 (queues _ ?w (set_baseline _ _ ?w)) => (apply queues_same; reflexivity) : frames.
#[local] Hint Extern 1 (queues _ ?w (setTimeout _ _ ?w)) => (apply queues_setTimeout; done) : frames.

Section HostFrames.
Context (Q : call -> Prop) (P : task -> Prop).

Lemma host_setViewState_stable l vs w : stable w (host_setViewState l vs w).
Proof. unfold host_setViewState. frame. Qed.
Lemma host_setViewState_emits l vs w :
  Q (CSetViewState l vs) -> emits Q w (host_setViewState l vs w).
Proof. unfold host_setViewState. frame. Qed.
Lemma host_setViewState_queues l vs w : queues P w (host_setViewState l vs w).
Proof. unfold host_setViewState. frame. Qed.

Lemma host_getLeafTab_stable w n w' : host_getLeafTab w = (n, w') -> stable w w'.
Proof. unfold host_getLeafTab. intros [= <- <-]. frame. Qed.
Lemma host_getLeafTab_emits w n w' :
  Q (CGetLeafTab (nextLeaf (host w))) -> host_getLeafTab w = (n, w') -> emits Q w w'.
Proof. unfold host_getLeafTab. intros HQ [= <- <-]. frame. Qed.
Lemma host_getLeafTab_queues w n w' : host_getLeafTab w = (n, w') -> queues P w w'.
Proof. unfold host_getLeafTab. intros [= <- <-]. frame. Qed.

Lemma host_setPinned_stable l w : stable w (host_setPinned l w).
Proof. unfold host_setPinned. frame. Qed.
Lemma host_setPinned_emits l w : Q (CSetPinned l) -> emits Q w (host_setPinned l w).
Proof. unfold host_setPinned. frame. Qed.
Lemma host_setPinned_queues l w : queues P w (host_setPinned l w).
Proof. unfold host_setPinned. frame. Qed.

Lemma host_revealLeaf_stable l w : stable w (host_revealLeaf l w).
Proof. unfold host_revealLeaf. frame. Qed.
Lemma host_revealLeaf_emits l w : Q (CRevealLeaf l) -> emits Q w (host_revealLeaf l w).
Proof. unfold host_revealLeaf. frame. Qed.
Lemma host_revealLeaf_queues l w : queues P w (host_revealLeaf l w).
Proof. unfold host_revealLeaf. frame. Qed.

Lemma host_detach_stable l w : stable w (host_detach l w).
Proof. unfold host_detach. frame. Qed.
Lemma host_detach_emits l w : Q (CDetach l) -> emits Q w (host_detach l w).
Proof. unfold host_detach. frame. Qed.

Lemma host_setInterval_stable l w id w' : host_setInterval l w = (id, w') -> stable w w'.
Proof. unfold host_setInterval. intros [= <- <-]. frame. Qed.
Lemma host_setInterval_emits l w id w' :
  Q (CSetInterval (nextIntervalId (host w)) l) ->
  host_setInterval l w = (id, w') -> emits Q w w'.
Proof. unfold host_setInterval. intros HQ [= <- <-]. frame. Qed.
Lemma host_setInterval_queues l w id w' :
  host_setInterval l w = (id, w') -> queues P w w'.
Proof. unfold host_setInterval. intros [= <- <-]. frame. Qed.

Lemma host_clearInterval_stable id w : stable w (host_clearInterval id w).
Proof. unfold host_clearInterval. frame. Qed.
Lemma host_clearInterval_emits id w :
  Q (CClearInterval id) -> emits Q w (host_clearInterval id w).
Proof. unfold host_clearInterval. frame. Qed.
End HostFrames.

#[local] Hint Resolve host_setViewState_stable host_getLeafTab_stable host_setPinned_stable
  host_revealLeaf_stable host_detach_stable host_setInterval_stable
  host_clearInterval_stable : frames.
#[local] Hint Resolve host_setViewState_queues host_getLeafTab_queues host_setPinned_queues
  host_revealLeaf_queues host_setInterval_queues : frames.
#[local] Hint Extern 2 (emits _ ?w (host_setViewState _ _ ?w)) =>
  (apply host_setViewState_emits; done) : frames.
#[local] Hint Extern 2 (emits _ ?w (host_setPinned _ ?w)) =>
  (apply host_setPinned_emits; done) : frames.
#[local] Hint Extern 2 (emits _ ?w (host_revealLeaf _ ?w)) =>
  (apply host_revealLeaf_emits; done) : frames.
#[local] Hint Extern 2 (emits _ ?w (host_detach _ ?w)) =>
  (apply host_detach_emits; done) : frames.
#[local] Hint Extern 2 (emits _ ?w (host_clearInterval _ ?w)) =>
  (apply host_clearInterval_emits; done) : frames.
#[local] Hint Extern 2 (emits _ ?w ?w') =>
  match goal with
  | E : host_getLeafTab w = (_, w') |- _ => eapply host_getLeafTab_emits; [done|exact E]
  | E : host_setInterval _ w = (_, w') |- _ => eapply host_setInterval_emits; [done|exact E]
  end : frames.

(** *** The classifier only fills its cache *)

Lemma isInMainArea_stable l w b w' : isInMainArea l w = (b, w') -> stable w w'.
Proof. unfold isInMainArea. case_match; intros [= <- <-]; frame. Qed.
Lemma isInMainArea_emits Q l w b w' : isInMainArea l w = (b, w') -> emits Q w w'.
Proof. unfold isInMainArea. case_match; intros [= <- <-]; frame. Qed.
Lemma isInMainArea_queues P l w b w' : isInMainArea l w = (b, w') -> queues P w w'.
Proof. unfold isInMainArea. case_match; intros [= <- <-]; frame. Qed.
#[local] Hint Resolve isInMainArea_stable isInMainArea_emits isInMainArea_queues : frames.

Lemma createSearchTabInMainArea_stable q s w : stable w (createSearchTabInMainArea q s w).
Proof. unfold createSearchTabInMainArea. frame. Qed.
Lemma createSearchTabInMainArea_emits q s w :
  emits (fun _ => True) w (createSearchTabInMainArea q s w).
Proof. unfold createSearchTabInMainArea. frame. Qed.
Lemma createSearchTabInMainArea_queues q s w :
  queues (fun t => t <> TRedirectionPass) w (createSearchTabInMainArea q s w).
Proof. unfold createSearchTabInMainArea. frame. Qed.
#[local] Hint Resolve createSearchTabInMainArea_stable createSearchTabInMainArea_emits
  createSearchTabInMainArea_queues : frames.

Lemma sidebarOnly_stable ls : forall w r w', sidebarOnly ls w = (r, w') -> stable w w'.
Proof.
  induction ls as [|l ls IH]; simpl; intros w r w'; [by intros [= <- <-]|].
  destruct (isInMainArea l w) as [b w1] eqn:E1.
  destruct (sidebarOnly ls w1) as [r2 w2] eqn:E2. intros [= <- <-]. transitivity w1; eauto with frames.
Qed.
Lemma sidebarOnly_emits Q ls : forall w r w', sidebarOnly ls w = (r, w') -> emits Q w w'.
Proof.
  induction ls as [|l ls IH]; simpl; intros w r w'; [by intros [= <- <-]|].
  destruct (isInMainArea l w) as [b w1] eqn:E1.
  destruct (sidebarOnly ls w1) as [r2 w2] eqn:E2. intros [= <- <-]. transitivity w1; eauto with frames.
Qed.
Lemma sidebarOnly_queues P ls : forall w r w', sidebarOnly ls w = (r, w') -> queues P w w'.
Proof.
  induction ls as [|l ls IH]; simpl; intros w r w'; [by intros [= <- <-]|].
  destruct (isInMainArea l w) as [b w1] eqn:E1.
  destruct (sidebarOnly ls w1) as [r2 w2] eqn:E2. intros [= <- <-]. transitivity w1; eauto with frames.
Qed.
#[local] Hint Resolve sidebarOnly_stable sidebarOnly_emits sidebarOnly_queues : frames.

Lemma clearLocationCache_stable w : stable w (clearLocationCache w).
Proof. unfold clearLocationCache. frame. Qed.
Lemma clearLocationCache_emits Q w : emits Q w (clearLocationCache w).
Proof. unfold clearLocationCache. frame. Qed.
Lemma clearLocationCache_queues P w : queues P w (clearLocationCache w).
Proof. unfold clearLocationCache. frame. Qed.
#[local] Hint Resolve clearLocationCache_stable clearLocationCache_emits
  clearLocationCache_queues : frames.

Lemma triggerRedirection_stable now w : stable w (triggerRedirection now w).
Proof. unfold triggerRedirection. frame. Qed.
Lemma triggerRedirection_emits Q now w : emits Q w (triggerRedirection now w).
Proof. unfold triggerRedirection. frame. Qed.
#[local] Hint Resolve triggerRedirection_stable triggerRedirection_emits : frames.

Lemma redirectSidebarSearchToMainArea_stable l w :
  stable w (redirectSidebarSearchToMainArea l w).
Proof. unfold redirectSidebarSearchToMainArea. frame. Qed.
Lemma redirectSidebarSearchToMainArea_emits l w :
  emits (fun _ => True) w (redirectSidebarSearchToMainArea l w).
Proof. unfold redirectSidebarSearchToMainArea. frame. Qed.
#[local] Hint Resolve redirectSidebarSearchToMainArea_stable
  redirectSidebarSearchToMainArea_emits : frames.

Lemma handleSearchCommandExecution_stable w : stable w (handleSearchCommandExecution w).
Proof. unfold handleSearchCommandExecution. frame. Qed.
Lemma handleSearchCommandExecution_emits w :
  emits (fun _ => True) w (handleSearchCommandExecution w).
Proof. unfold handleSearchCommandExecution. frame. Qed.
#[local] Hint Resolve handleSearchCommandExecution_stable
  handleSearchCommandExecution_emits : frames.

Lemma setViewStateHook_stable now l vs w : stable w (setViewStateHook now l vs w).
Proof. unfold setViewStateHook. frame. Qed.
Lemma setViewStateHook_emits now l vs w :
  emits (fun _ => True) w (setViewStateHook now l vs w).
Proof. unfold setViewStateHook. frame. Qed.
#[local] Hint Resolve setViewStateHook_stable setViewStateHook_emits : frames.

Lemma setViewState_stable now l vs w : stable w (setViewState now l vs w).
Proof. unfold setViewState. frame. Qed.
Lemma setViewState_emits now l vs w : emits (fun _ => True) w (setViewState now l vs w).
Proof. unfold setViewState. frame. Qed.
Lemma setViewState_queues now l vs w :
  queues (fun t => t <> TRedirectionPass) w (setViewState now l vs w).
Proof. unfold setViewState, setViewStateHook. frame. Qed.
#[local] Hint Resolve setViewState_stable setViewState_emits setViewState_queues : frames.

Lemma applySettingsToNewLeaf_stable now l w : stable w (applySettingsToNewLeaf now l w).
Proof. unfold applySettingsToNewLeaf. frame. Qed.
Lemma applySettingsToNewLeaf_emits now l w :
  emits (fun _ => True) w (applySettingsToNewLeaf now l w).
Proof. unfold applySettingsToNewLeaf. frame. Qed.
Lemma applySettingsToNewLeaf_queues now l w :
  queues (fun t => t <> TRedirectionPass) w (applySettingsToNewLeaf now l w).
Proof. unfold applySettingsToNewLeaf. frame. Qed.
#[local] Hint Resolve applySettingsToNewLeaf_stable applySettingsToNewLeaf_emits
  applySettingsToNewLeaf_queues : frames.

Lemma startIntelligentMonitoring_stable l w : stable w (startIntelligentMonitoring l w).
Proof. unfold startIntelligentMonitoring. frame. Qed.
Lemma startIntelligentMonitoring_emits Q l w :
  (forall id, Q (CSetInterval id l)) -> emits Q w (startIntelligentMonitoring l w).
Proof. unfold startIntelligentMonitoring. frame. Qed.
Lemma startIntelligentMonitoring_queues P l w : queues P w (startIntelligentMonitoring l w).
Proof. unfold startIntelligentMonitoring. frame. Qed.
#[local] Hint Resolve startIntelligentMonitoring_stable
  startIntelligentMonitoring_queues : frames.
#[local] Hint Extern 2 (emits _ ?w (startIntelligentMonitoring _ ?w)) =>
  (apply startIntelligentMonitoring_emits; done) : frames.

Lemma processNewSearchLeaf_stable now l w : stable w (processNewSearchLeaf now l w).
Proof. unfold processNewSearchLeaf. frame. Qed.
Lemma processNewSearchLeaf_emits now l w :
  emits (fun _ => True) w (processNewSearchLeaf now l w).
Proof. unfold processNewSearchLeaf. frame. Qed.
#[local] Hint Resolve processNewSearchLeaf_stable processNewSearchLeaf_emits : frames.

(** *** The baseline table and the processed marks *)

#[local] Instance baseline_same_refl : Reflexive baseline_same.
Proof. by intros w. Qed.
#[local] Instance baseline_same_trans : Transitive baseline_same.
Proof. unfold baseline_same. intros w1 w2 w3 E1 E2. congruence. Qed.
#[local] Instance marks_kept_refl : Reflexive marks_kept.
Proof. intros w. unfold marks_kept. set_solver. Qed.
#[local] Instance marks_kept_trans : Transitive marks_kept.
Proof. unfold marks_kept. intros w1 w2 w3 E1 E2. set_solver. Qed.

#[local] Hint Extern 1 (baseline_same ?w (on_plugin _ ?w)) => reflexivity : frames.
#[local] Hint Extern 1 (baseline_same ?w (on_host _ ?w)) => reflexivity : frames.
#[local] Hint Extern 1 (baseline_same ?w (log _ ?w)) => reflexivity : frames.
#[local] Hint Extern 1 (baseline_same ?w (setTimeout _ _ ?w)) => reflexivity : frames.
#[local] Hint Extern 1 (marks_kept ?w (on_plugin _ ?w)) =>
  (unfold marks_kept; cbn; set_solver) : frames.
#[local] Hint Extern 1 (marks_kept ?w (on_host _ ?w)) =>
  (unfold marks_kept; cbn; set_solver) : frames.
#[local] Hint Extern 1 (marks_kept ?w (log _ ?w)) =>
  (unfold marks_kept; cbn; set_solver) : frames.
#[local] Hint Extern 1 (marks_kept ?w (setTimeout _ _ ?w)) =>
  (unfold marks_kept; cbn; set_solver) : frames.
#[local] Hint Extern 1 (marks_kept ?w (set_baseline _ _ ?w)) =>
  (unfold marks_kept; cbn; set_solver) : frames.

Lemma host_getLeafTab_baseline w n w' : host_getLeafTab w = (n, w') -> baseline_same w w'.
Proof. unfold host_getLeafTab. intros [= <- <-]. frame. Qed.
Lemma host_getLeafTab_marks w n w' : host_getLeafTab w = (n, w') -> marks_kept w w'.
Proof. unfold host_getLeafTab. intros [= <- <-]. frame. Qed.
Lemma host_setInterval_baseline l w id w' :
  host_setInterval l w = (id, w') -> baseline_same w w'.
Proof. unfold host_setInterval. intros [= <- <-]. frame. Qed.
Lemma host_setInterval_marks l w id w' :
  host_setInterval l w = (id, w') -> marks_kept w w'.
Proof. unfold host_setInterval. intros [= <- <-]. frame. Qed.
Lemma isInMainArea_baseline l w b w' : isInMainArea l w = (b, w') -> baseline_same w w'.
Proof. unfold isInMainArea. case_match; intros [= <- <-]; frame. Qed.
Lemma isInMainArea_marks l w b w' : isInMainArea l w = (b, w') -> marks_kept w w'.
Proof. unfold isInMainArea. case_match; intros [= <- <-]; frame. Qed.
#[local] Hint Resolve host_getLeafTab_baseline host_getLeafTab_marks host_setInterval_baseline
  host_setInterval_marks isInMainArea_baseline isInMainArea_marks : frames.

Lemma sidebarOnly_baseline ls :
  forall w r w', sidebarOnly ls w = (r, w') -> baseline_same w w'.
Proof.
  induction ls as [|l ls IH]; simpl; intros w r w'; [by intros [= <- <-]|].
  destruct (isInMainArea l w) as [b w1] eqn:E1.
  destruct (sidebarOnly ls w1) as [r2 w2] eqn:E2. intros [= <- <-].
  transitivity w1; eauto with frames.
Qed.
Lemma sidebarOnly_marks ls : forall w r w', sidebarOnly ls w = (r, w') -> marks_kept w w'.
Proof.
  induction ls as [|l ls IH]; simpl; intros w r w'; [by intros [= <- <-]|].
  destruct (isInMainArea l w) as [b w1] eqn:E1.
  destruct (sidebarOnly ls w1) as [r2 w2] eqn:E2. intros [= <- <-].
  transitivity w1; eauto with frames.
Qed.
#[local] Hint Resolve sidebarOnly_baseline sidebarOnly_marks : frames.

(** A loop satisfies a frame that its body satisfies. *)
Lemma fold_left_frame {A} (R : relation World) `{!Reflexive R} `{!Transitive R}
    (f : World -> A -> World) (xs : list A) :
  (forall w x, R w (f w x)) -> forall w, R w (fold_left f xs w).
Proof.
  intros Hf. induction xs as [|x xs IH]; intros w; simpl; [done|].
  transitivity (f w x); [apply Hf|apply IH].
Qed.

Lemma host_setViewState_baseline l vs w : baseline_same w (host_setViewState l vs w).
Proof. unfold host_setViewState. frame. Qed.
Lemma host_setViewState_marks l vs w : marks_kept w (host_setViewState l vs w).
Proof. unfold host_setViewState. frame. Qed.
#[local] Hint Resolve host_setViewState_baseline host_setViewState_marks : frames.

Lemma host_setPinned_baseline l w : baseline_same w (host_setPinned l w).
Proof. unfold host_setPinned. frame. Qed.
Lemma host_setPinned_marks l w : marks_kept w (host_setPinned l w).
Proof. unfold host_setPinned. frame. Qed.
#[local] Hint Resolve host_setPinned_baseline host_setPinned_marks : frames.

Lemma host_revealLeaf_baseline l w : baseline_same w (host_revealLeaf l w).
Proof. unfold host_revealLeaf. frame. Qed.
Lemma host_revealLeaf_marks l w : marks_kept w (host_revealLeaf l w).
Proof. unfold host_revealLeaf. frame. Qed.
#[local] Hint Resolve host_revealLeaf_baseline host_revealLeaf_marks : frames.

Lemma host_detach_baseline l w : baseline_same w (host_detach l w).
Proof. unfold host_detach. frame. Qed.
Lemma host_detach_marks l w : marks_kept w (host_detach l w).
Proof. unfold host_detach. frame. Qed.
#[local] Hint Resolve host_detach_baseline host_detach_marks : frames.

Lemma host_clearInterval_baseline id w : baseline_same w (host_clearInterval id w).
Proof. unfold host_clearInterval. frame. Qed.
Lemma host_clearInterval_marks id w : marks_kept w (host_clearInterval id w).
Proof. unfold host_clearInterval. frame. Qed.
#[local] Hint Resolve host_clearInterval_baseline host_clearInterval_marks : frames.

Lemma clearLocationCache_baseline w : baseline_same w (clearLocationCache w).
Proof. unfold clearLocationCache. frame. Qed.
Lemma clearLocationCache_marks w : marks_kept w (clearLocationCache w).
Proof. unfold clearLocationCache. frame. Qed.
#[local] Hint Resolve clearLocationCache_baseline clearLocationCache_marks : frames.

Lemma triggerRedirection_baseline now w : baseline_same w (triggerRedirection now w).
Proof. unfold triggerRedirection. frame. Qed.
Lemma triggerRedirection_marks now w : marks_kept w (triggerRedirection now w).
Proof. unfold triggerRedirection. frame. Qed.
#[local] Hint Resolve triggerRedirection_baseline triggerRedirection_marks : frames.

Lemma createSearchTabInMainArea_baseline q s w : baseline_same w (createSearchTabInMainArea q s w).
Proof. unfold createSearchTabInMainArea. frame. Qed.
Lemma createSearchTabInMainArea_marks q s w : marks_kept w (createSearchTabInMainArea q s w).
Proof. unfold createSearchTabInMainArea. frame. Qed.
#[local] Hint Resolve createSearchTabInMainArea_baseline createSearchTabInMainArea_marks : frames.

Lemma redirectSidebarSearchToMainArea_baseline l w : baseline_same w (redirectSidebarSearchToMainArea l w).
Proof. unfold redirectSidebarSearchToMainArea. frame. Qed.
Lemma redirectSidebarSearchToMainArea_marks l w : marks_kept w (redirectSidebarSearchToMainArea l w).
Proof. unfold redirectSidebarSearchToMainArea. frame. Qed.
#[local] Hint Resolve redirectSidebarSearchToMainArea_baseline redirectSidebarSearchToMainArea_marks : frames.

Lemma handleSearchCommandExecution_baseline w : baseline_same w (handleSearchCommandExecution w).
Proof. unfold handleSearchCommandExecution. frame. Qed.
Lemma handleSearchCommandExecution_marks w : marks_kept w (handleSearchCommandExecution w).
Proof. unfold handleSearchCommandExecution. frame. Qed.
#[local] Hint Resolve handleSearchCommandExecution_baseline handleSearchCommandExecution_marks : frames.

Lemma setViewStateHook_baseline now l vs w : baseline_same w (setViewStateHook now l vs w).
Proof. unfold setViewStateHook. frame. Qed.
Lemma setViewStateHook_marks now l vs w : marks_kept w (setViewStateHook now l vs w).
Proof. unfold setViewStateHook. frame. Qed.
#[local] Hint Resolve setViewStateHook_baseline setViewStateHook_marks : frames.

Lemma setViewState_baseline now l vs w : baseline_same w (setViewState now l vs w).
Proof. unfold setViewState. frame. Qed.
Lemma setViewState_marks now l vs w : marks_kept w (setViewState now l vs w).
Proof. unfold setViewState. frame. Qed.
#[local] Hint Resolve setViewState_baseline setViewState_marks : frames.

Lemma set_lastSearchState_emits v w : emits (fun _ => True) w (set_lastSearchState v w).
Proof. unfold set_lastSearchState. frame. Qed.
Lemma set_lastSearchState_baseline v w : baseline_same w (set_lastSearchState v w).
Proof. unfold set_lastSearchState. frame. Qed.
Lemma set_lastSearchState_marks v w : marks_kept w (set_lastSearchState v w).
Proof. unfold set_lastSearchState. frame. Qed.
#[local] Hint Resolve set_lastSearchState_emits set_lastSearchState_baseline set_lastSearchState_marks : frames.

Lemma saveSettings_stable w : stable w (saveSettings w).
Proof. unfold saveSettings. frame. Qed.
Lemma saveSettings_emits w : emits (fun _ => True) w (saveSettings w).
Proof. unfold saveSettings. frame. Qed.
Lemma saveSettings_baseline w : baseline_same w (saveSettings w).
Proof. unfold saveSettings. frame. Qed.
Lemma saveSettings_marks w : marks_kept w (saveSettings w).
Proof. unfold saveSettings. frame. Qed.
#[local] Hint Resolve saveSettings_stable saveSettings_emits saveSettings_baseline saveSettings_marks : frames.

Lemma loadSettings_emits w : emits (fun _ => True) w (loadSettings w).
Proof. unfold loadSettings. frame. Qed.
Lemma loadSettings_baseline w : baseline_same w (loadSettings w).
Proof. unfold loadSettings. frame. Qed.
Lemma loadSettings_marks w : marks_kept w (loadSettings w).
Proof. unfold loadSettings. frame. Qed.
#[local] Hint Resolve loadSettings_emits loadSettings_baseline loadSettings_marks : frames.

Lemma applySettingsToNewLeaf_marks now l w : marks_kept w (applySettingsToNewLeaf now l w).
Proof. unfold applySettingsToNewLeaf. frame. Qed.
#[local] Hint Resolve applySettingsToNewLeaf_marks : frames.

Lemma startIntelligentMonitoring_baseline l w : baseline_same w (startIntelligentMonitoring l w).
Proof. unfold startIntelligentMonitoring. frame. Qed.
Lemma startIntelligentMonitoring_marks l w : marks_kept w (startIntelligentMonitoring l w).
Proof. unfold startIntelligentMonitoring. frame. Qed.
#[local] Hint Resolve startIntelligentMonitoring_baseline startIntelligentMonitoring_marks : frames.

Lemma cleanupLeafTracking_stable l w : stable w (cleanupLeafTracking l w).
Proof. unfold cleanupLeafTracking. frame. Qed.
Lemma cleanupLeafTracking_emits l w : emits (fun _ => True) w (cleanupLeafTracking l w).
Proof. unfold cleanupLeafTracking. frame. Qed.
Lemma cleanupLeafTracking_marks l w : marks_kept w (cleanupLeafTracking l w).
Proof. unfold cleanupLeafTracking. frame. Qed.
#[local] Hint Resolve cleanupLeafTracking_stable cleanupLeafTracking_emits cleanupLeafTracking_marks : frames.

Lemma monitor_emits now l w : emits (fun _ => True) w (monitor now l w).
Proof. unfold monitor. frame. Qed.
Lemma monitor_marks now l w : marks_kept w (monitor now l w).
Proof. unfold monitor. frame. Qed.
#[local] Hint Resolve monitor_emits monitor_marks : frames.

Lemma processNewSearchLeaf_marks now l w : marks_kept w (processNewSearchLeaf now l w).
Proof. unfold processNewSearchLeaf. frame. Qed.
#[local] Hint Resolve processNewSearchLeaf_marks : frames.

Lemma handleExistingSearchLeafActivation_stable now l w : stable w (handleExistingSearchLeafActivation now l w).
Proof. unfold handleExistingSearchLeafActivation. frame. Qed.
Lemma handleExistingSearchLeafActivation_emits now l w : emits (fun _ => True) w (handleExistingSearchLeafActivation now l w).
Proof. unfold handleExistingSearchLeafActivation. frame. Qed.
Lemma handleExistingSearchLeafActivation_baseline now l w : baseline_same w (handleExistingSearchLeafActivation now l w).
Proof. unfold handleExistingSearchLeafActivation. frame. Qed.
Lemma handleExistingSearchLeafActivation_marks now l w : marks_kept w (handleExistingSearchLeafActivation now l w).
Proof. unfold handleExistingSearchLeafActivation. frame. Qed.
#[local] Hint Resolve handleExistingSearchLeafActivation_stable handleExistingSearchLeafActivation_emits handleExistingSearchLeafActivation_baseline handleExistingSearchLeafActivation_marks : frames.

Lemma handleActiveLeafChanges_stable now w : stable w (handleActiveLeafChanges now w).
Proof. unfold handleActiveLeafChanges. frame. Qed.
Lemma handleActiveLeafChanges_emits now w : emits (fun _ => True) w (handleActiveLeafChanges now w).
Proof. unfold handleActiveLeafChanges. frame. Qed.
Lemma handleActiveLeafChanges_baseline now w : baseline_same w (handleActiveLeafChanges now w).
Proof. unfold handleActiveLeafChanges. frame. Qed.
Lemma handleActiveLeafChanges_marks now w : marks_kept w (handleActiveLeafChanges now w).
Proof. unfold handleActiveLeafChanges. frame. Qed.
#[local] Hint Resolve handleActiveLeafChanges_stable handleActiveLeafChanges_emits handleActiveLeafChanges_baseline handleActiveLeafChanges_marks : frames.

Lemma monitorLeafViewState_stable l w : stable w (monitorLeafViewState l w).
Proof. unfold monitorLeafViewState. frame. Qed.
Lemma monitorLeafViewState_emits l w : emits (fun _ => True) w (monitorLeafViewState l w).
Proof. unfold monitorLeafViewState. frame. Qed.
Lemma monitorLeafViewState_baseline l w : baseline_same w (monitorLeafViewState l w).
Proof. unfold monitorLeafViewState. frame. Qed.
Lemma monitorLeafViewState_marks l w : marks_kept w (monitorLeafViewState l w).
Proof. unfold monitorLeafViewState. frame. Qed.
#[local] Hint Resolve monitorLeafViewState_stable monitorLeafViewState_emits monitorLeafViewState_baseline monitorLeafViewState_marks : frames.
Lemma processUnseen_stable now ls w : stable w (processUnseen now ls w).
Proof. unfold processUnseen. apply fold_left_frame; [apply _..|]. frame. Qed.
#[local] Hint Resolve processUnseen_stable : frames.
Lemma handleLayoutChanges_stable now w : stable w (handleLayoutChanges now w).
Proof. unfold handleLayoutChanges. frame. Qed.
Lemma processUnseen_emits now ls w : emits (fun _ => True) w (processUnseen now ls w).
Proof. unfold processUnseen. apply fold_left_frame; [apply _..|]. frame. Qed.
#[local] Hint Resolve processUnseen_emits : frames.
Lemma handleLayoutChanges_emits now w : emits (fun _ => True) w (handleLayoutChanges now w).
Proof. unfold handleLayoutChanges. frame. Qed.
Lemma processUnseen_marks now ls w : marks_kept w (processUnseen now ls w).
Proof. unfold processUnseen. apply fold_left_frame; [apply _..|]. frame. Qed.
#[local] Hint Resolve processUnseen_marks : frames.
Lemma handleLayoutChanges_marks now w : marks_kept w (handleLayoutChanges now w).
Proof. unfold handleLayoutChanges. frame. Qed.
#[local] Hint Resolve handleLayoutChanges_stable handleLayoutChanges_emits
  handleLayoutChanges_marks : frames.

Lemma monitorSidebarLeaves_stable w : stable w (monitorSidebarLeaves w).
Proof. unfold monitorSidebarLeaves. apply fold_left_frame; [apply _..|]. frame. Qed.
Lemma monitorSidebarLeaves_emits w : emits (fun _ => True) w (monitorSidebarLeaves w).
Proof. unfold monitorSidebarLeaves. apply fold_left_frame; [apply _..|]. frame. Qed.
Lemma monitorSidebarLeaves_baseline w : baseline_same w (monitorSidebarLeaves w).
Proof. unfold monitorSidebarLeaves. apply fold_left_frame; [apply _..|]. frame. Qed.
Lemma monitorSidebarLeaves_marks w : marks_kept w (monitorSidebarLeaves w).
Proof. unfold monitorSidebarLeaves. apply fold_left_frame; [apply _..|]. frame. Qed.
#[local] Hint Resolve monitorSidebarLeaves_stable monitorSidebarLeaves_emits
  monitorSidebarLeaves_baseline monitorSidebarLeaves_marks : frames.

Lemma performStartupCleanup_stable w : stable w (performStartupCleanup w).
Proof.
  unfold performStartupCleanup. destruct (sidebarOnly _ _) as [ls w1] eqn:E.
  transitivity w1; [eauto with frames|]. apply fold_left_frame; [apply _..|]. frame.
Qed.
Lemma performStartupCleanup_emits w : emits (fun _ => True) w (performStartupCleanup w).
Proof.
  unfold performStartupCleanup. destruct (sidebarOnly _ _) as [ls w1] eqn:E.
  transitivity w1; [eauto with frames|]. apply fold_left_frame; [apply _..|]. frame.
Qed.
Lemma performStartupCleanup_baseline w : baseline_same w (performStartupCleanup w).
Proof.
  unfold performStartupCleanup. destruct (sidebarOnly _ _) as [ls w1] eqn:E.
  transitivity w1; [eauto with frames|]. apply fold_left_frame; [apply _..|]. frame.
Qed.
Lemma performStartupCleanup_marks w : marks_kept w (performStartupCleanup w).
Proof.
  unfold performStartupCleanup. destruct (sidebarOnly _ _) as [ls w1] eqn:E.
  transitivity w1; [eauto with frames|]. apply fold_left_frame; [apply _..|]. frame.
Qed.
#[local] Hint Resolve performStartupCleanup_stable performStartupCleanup_emits
  performStartupCleanup_baseline performStartupCleanup_marks : frames.

Lemma setupViewStateMonitoring_stable w : stable w (setupViewStateMonitoring w).
Proof. unfold setupViewStateMonitoring. frame. Qed.
Lemma setupViewStateMonitoring_emits w : emits (fun _ => True) w (setupViewStateMonitoring w).
Proof. unfold setupViewStateMonitoring. frame. Qed.
Lemma setupViewStateMonitoring_baseline w : baseline_same w (setupViewStateMonitoring w).
Proof. unfold setupViewStateMonitoring. frame. Qed.
Lemma setupViewStateMonitoring_marks w : marks_kept w (setupViewStateMonitoring w).
Proof. unfold setupViewStateMonitoring. frame. Qed.
#[local] Hint Resolve setupViewStateMonitoring_stable setupViewStateMonitoring_emits setupViewStateMonitoring_baseline setupViewStateMonitoring_marks : frames.

Lemma viewStateLayoutChange_stable w : stable w (viewStateLayoutChange w).
Proof. unfold viewStateLayoutChange. frame. Qed.
Lemma viewStateLayoutChange_emits w : emits (fun _ => True) w (viewStateLayoutChange w).
Proof. unfold viewStateLayoutChange. frame. Qed.
Lemma viewStateLayoutChange_baseline w : baseline_same w (viewStateLayoutChange w).
Proof. unfold viewStateLayoutChange. frame. Qed.
Lemma viewStateLayoutChange_marks w : marks_kept w (viewStateLayoutChange w).
Proof. unfold viewStateLayoutChange. frame. Qed.
#[local] Hint Resolve viewStateLayoutChange_stable viewStateLayoutChange_emits viewStateLayoutChange_baseline viewStateLayoutChange_marks : frames.

Lemma setupCommandInterception_stable w : stable w (setupCommandInterception w).
Proof. unfold setupCommandInterception. frame. Qed.
Lemma setupCommandInterception_emits w : emits (fun _ => True) w (setupCommandInterception w).
Proof. unfold setupCommandInterception. frame. Qed.
Lemma setupCommandInterception_baseline w : baseline_same w (setupCommandInterception w).
Proof. unfold setupCommandInterception. frame. Qed.
Lemma setupCommandInterception_marks w : marks_kept w (setupCommandInterception w).
Proof. unfold setupCommandInterception. frame. Qed.
#[local] Hint Resolve setupCommandInterception_stable setupCommandInterception_emits setupCommandInterception_baseline setupCommandInterception_marks : frames.

Lemma executeCommandHook_stable commandId w : stable w (executeCommandHook commandId w).
Proof. unfold executeCommandHook. frame. Qed.
Lemma executeCommandHook_emits commandId w : emits (fun _ => True) w (executeCommandHook commandId w).
Proof. unfold executeCommandHook. frame. Qed.
Lemma executeCommandHook_baseline commandId w : baseline_same w (executeCommandHook commandId w).
Proof. unfold executeCommandHook. frame. Qed.
#[local] Hint Resolve executeCommandHook_stable executeCommandHook_emits executeCommandHook_baseline : frames.

Lemma dispatchCommand_stable commandId w : stable w (dispatchCommand commandId w).
Proof. unfold dispatchCommand. frame. Qed.
Lemma dispatchCommand_emits commandId w : emits (fun _ => True) w (dispatchCommand commandId w).
Proof. unfold dispatchCommand. frame. Qed.
Lemma dispatchCommand_baseline commandId w : baseline_same w (dispatchCommand commandId w).
Proof. unfold dispatchCommand. frame. Qed.
#[local] Hint Resolve dispatchCommand_stable dispatchCommand_emits dispatchCommand_baseline : frames.

Lemma setupStartupCleanup_stable w : stable w (setupStartupCleanup w).
Proof. unfold setupStartupCleanup. frame. Qed.
Lemma setupStartupCleanup_emits w : emits (fun _ => True) w (setupStartupCleanup w).
Proof. unfold setupStartupCleanup. frame. Qed.
Lemma setupStartupCleanup_baseline w : baseline_same w (setupStartupCleanup w).
Proof. unfold setupStartupCleanup. frame. Qed.
Lemma setupStartupCleanup_marks w : marks_kept w (setupStartupCleanup w).
Proof. unfold setupStartupCleanup. frame. Qed.
#[local] Hint Resolve setupStartupCleanup_stable setupStartupCleanup_emits setupStartupCleanup_baseline setupStartupCleanup_marks : frames.

Lemma openPinnedSearchWithLastState_stable w : stable w (openPinnedSearchWithLastState w).
Proof. unfold openPinnedSearchWithLastState. frame. Qed.
Lemma openPinnedSearchWithLastState_emits w : emits (fun _ => True) w (openPinnedSearchWithLastState w).
Proof. unfold openPinnedSearchWithLastState. frame. Qed.
Lemma openPinnedSearchWithLastState_baseline w : baseline_same w (openPinnedSearchWithLastState w).
Proof. unfold openPinnedSearchWithLastState. frame. Qed.
Lemma openPinnedSearchWithLastState_marks w : marks_kept w (openPinnedSearchWithLastState w).
Proof. unfold openPinnedSearchWithLastState. frame. Qed.
#[local] Hint Resolve openPinnedSearchWithLastState_stable openPinnedSearchWithLastState_emits openPinnedSearchWithLastState_baseline openPinnedSearchWithLastState_marks : frames.

Lemma saveCurrentSearchState_emits w : emits (fun _ => True) w (saveCurrentSearchState w).
Proof. unfold saveCurrentSearchState. frame. Qed.
Lemma saveCurrentSearchState_baseline w : baseline_same w (saveCurrentSearchState w).
Proof. unfold saveCurrentSearchState. frame. Qed.
Lemma saveCurrentSearchState_marks w : marks_kept w (saveCurrentSearchState w).
Proof. unfold saveCurrentSearchState. frame. Qed.
#[local] Hint Resolve saveCurrentSearchState_emits saveCurrentSearchState_baseline saveCurrentSearchState_marks : frames.

Lemma clearSavedSearchState_emits w : emits (fun _ => True) w (clearSavedSearchState w).
Proof. unfold clearSavedSearchState. frame. Qed.
Lemma clearSavedSearchState_baseline w : baseline_same w (clearSavedSearchState w).
Proof. unfold clearSavedSearchState. frame. Qed.
Lemma clearSavedSearchState_marks w : marks_kept w (clearSavedSearchState w).
Proof. unfold clearSavedSearchState. frame. Qed.
#[local] Hint Resolve clearSavedSearchState_emits clearSavedSearchState_baseline clearSavedSearchState_marks : frames.

Lemma toggleSetting_emits k b w : emits (fun _ => True) w (toggleSetting k b w).
Proof. unfold toggleSetting. frame. Qed.
Lemma toggleSetting_baseline k b w : baseline_same w (toggleSetting k b w).
Proof. unfold toggleSetting. frame. Qed.
Lemma toggleSetting_marks k b w : marks_kept w (toggleSetting k b w).
Proof. unfold toggleSetting. frame. Qed.
#[local] Hint Resolve toggleSetting_emits toggleSetting_baseline toggleSetting_marks : frames.

Lemma host_step_stable op w : stable w (host_step op w).
Proof. unfold host_step. destruct op; frame. Qed.
Lemma host_step_emits op w : emits (fun _ => True) w (host_step op w).
Proof. unfold host_step. destruct op; frame. Qed.
Lemma host_step_baseline op w : baseline_same w (host_step op w).
Proof. unfold host_step. destruct op; frame. Qed.
Lemma host_step_marks op w : marks_kept w (host_step op w).
Proof. unfold host_step. destruct op; frame. Qed.
#[local] Hint Resolve host_step_stable host_step_emits host_step_baseline host_step_marks : frames.
Lemma run_task_stable now t w : stable w (run_task now t w).
Proof. unfold run_task. destruct t; frame. Qed.
Lemma run_task_emits now t w : emits (fun _ => True) w (run_task now t w).
Proof. unfold run_task. destruct t; frame. Qed.
Lemma run_task_baseline now t w : baseline_same w (run_task now t w).
Proof. unfold run_task. destruct t; frame. Qed.
Lemma run_task_marks now t w : marks_kept w (run_task now t w).
Proof. unfold run_task. destruct t; frame. Qed.
#[local] Hint Resolve run_task_stable run_task_emits run_task_baseline run_task_marks : frames.

Lemma onload_emits now w : emits (fun _ => True) w (onload now w).
Proof. unfold onload. frame. Qed.
Lemma onload_marks now w : marks_kept w (onload now w).
Proof. unfold onload. frame. Qed.

Lemma onunload_emits w : emits (fun _ => True) w (onunload w).
Proof.
  unfold onunload. cbv zeta.
  set (w1 := fold_left _ _ w).
  assert (emits (fun _ => True) w w1) as H1
    by (apply fold_left_frame; [apply _..|]; frame).
  clearbody w1. frame.
Qed.
#[local] Hint Resolve onload_emits onload_marks onunload_emits : frames.

(** Every event only adds to the record of host calls. *)
Lemma step_emits now e w : emits (fun _ => True) w (step now e w).
Proof. unfold step. destruct e; frame. Qed.

Lemma run_emits evs : forall w, emits (fun _ => True) w (run evs w).
Proof.
  unfold run. apply fold_left_frame; [apply _..|]. intros w [now e]. apply step_emits.
Qed.
(** ** Redirection engine *)

Lemma assoc_assign (k k' : string) (x : value) (ps : list (string * value)) :
  assoc k' (assign k x ps) = if String.eqb k' k then Some x else assoc k' ps.
Proof.
  induction ps as [|[k0 y] ps IH]; simpl.
  - rewrite (String.eqb_sym k k'). by destruct (String.eqb k' k).
  - destruct (String.eqb k0 k) eqn:E0; simpl.
    + apply String.eqb_eq in E0 as ->. rewrite (String.eqb_sym k k').
      by destruct (String.eqb k' k).
    + destruct (String.eqb k0 k') eqn:E1; [|done].
      apply String.eqb_eq in E1 as ->. by rewrite E0.
Qed.

Lemma get_or_else_empty (st : value) (k : string) : get (or_else st (VObj [])) k = get st k.
Proof. unfold or_else. by destruct st; simpl; repeat case_match. Qed.

(** The view state that [createSearchTabInMainArea] asks the new tab to
    show, for a query string and a state. *)
Lemma createSearchTabInMainArea_calls (q : string) (st : value) (w : World) :
  (q <> "" -> exists ps, or_else st (VObj []) = VObj ps) ->
  let n := nextLeaf (host w) in
  let w1 := createSearchTabInMainArea q st w in
  exists vs rest,
    calls (host w1)
    = (calls (host w) ++ CGetLeafTab n :: CSetViewState n vs :: rest)%list
    /\ vs_type vs = "search"
    /\ (forall k, get (vs_state vs) k
                  = if String.eqb k "query" && negb (String.eqb q "")
                    then VStr q else get st k)
    /\ Forall (fun c => c = CSetPinned n \/ c = CRevealLeaf n) rest
    /\ pending (host w1) = (pending (host w) ++ [(50, TFocusInput n)])%list
    /\ plugin w1 = plugin w.
Proof.
  intros Hobj n w1. unfold w1, createSearchTabInMainArea, host_getLeafTab. cbv zeta.
  fold n.
  destruct (String.eqb q "") eqn:Hq.
  - destruct (Settings.autoPinSearchTab _);
      eexists _, _; cbn; rewrite <- ?app_assoc; cbn;
      (split; [reflexivity|]); (split; [done|]); (split; [|split; [|done]]).
    1,3: intros k; rewrite andb_false_r; apply get_or_else_empty.
    all: repeat (apply Forall_cons; split; [by auto|]); by apply Forall_nil.
  - apply String.eqb_neq in Hq. destruct (Hobj Hq) as [ps Hps]. rewrite Hps.
    destruct (Settings.autoPinSearchTab _);
      eexists _, _; cbn; rewrite <- ?app_assoc; cbn;
      (split; [reflexivity|]); (split; [done|]); (split; [|split; [|done]]).
    1,3: intros k; cbn; rewrite assoc_assign, andb_true_r;
      destruct (String.eqb k "query"); [done|];
      by rewrite <- (get_or_else_empty st k), Hps.
    all: repeat (apply Forall_cons; split; [by auto|]); by apply Forall_nil.
Qed.

Lemma redirect_query_is_own (st : value) :
  to_string (or_else (get st "query") (VStr "")) <> "" ->
  exists ps, or_else st (VObj []) = VObj ps.
Proof.
  destruct st as [| | | | |ps]; simpl; try done. intros _. by exists ps.
Qed.

(** C7: in every run of [redirectSidebarSearchToMainArea] the request for
    the replacement tab ([getLeaf("tab")], then [setViewState] of type
    search with the query and state of the original) is made before the
    original leaf is detached: the redirection itself makes no [detach]
    call, it only queues one, and whatever happens before that timeout
    fires, its [detach] comes after the request in the record of host
    calls. *)
Theorem replacement_requested_before_detach
    (w : World) (l : leaf) (evs : list (Z * event)) (now : Z) :
  let n := nextLeaf (host w) in
  let st := vs_state (getViewState w l) in
  let q := to_string (or_else (get st "query") (VStr "")) in
  let w1 := redirectSidebarSearchToMainArea l w in
  exists vs rest later,
    calls (host w1)
    = (calls (host w) ++ CHide l :: CGetLeafTab n :: CSetViewState n vs :: rest)%list
    /\ vs_type vs = "search"
    /\ (forall k, get (vs_state vs) k
                  = if String.eqb k "query" && negb (String.eqb q "")
                    then VStr q else get st k)
    /\ Forall (fun c => c = CSetPinned n \/ c = CRevealLeaf n) rest
    /\ pending (host w1)
       = (pending (host w) ++ [(50, TFocusInput n); (10, TDetach l)])%list
    /\ calls (host (run_task now (TDetach l) (run evs w1)))
       = (calls (host w1) ++ later ++ [CDetach l])%list.
Proof.
  intros n st q w1.
  set (w0 := log (CHide l)
               (on_plugin (fun p => p_processedLeaves ({[l]} ∪ processedLeaves p) p) w)).
  assert (w1 = setTimeout (TDetach l) 10 (createSearchTabInMainArea q st w0)) as Hw1
    by reflexivity.
  destruct (createSearchTabInMainArea_calls q st w0 (redirect_query_is_own st))
    as (vs & rest & Hc & Hty & Hst & Hrest & Hp & _).
  destruct (run_emits evs w1) as (later & Hlater & _).
  assert (calls (host w1)
          = (calls (host w) ++ CHide l :: CGetLeafTab n :: CSetViewState n vs :: rest)%list)
    as Hc1.
  { rewrite Hw1. cbn -[createSearchTabInMainArea]. rewrite Hc. cbn.
    by rewrite <- app_assoc. }
  exists vs, rest, later. repeat split; try done.
  - rewrite Hw1. cbn -[createSearchTabInMainArea]. rewrite Hp. cbn.
    by rewrite <- app_assoc.
  - cbn. rewrite Hlater. by rewrite <- app_assoc.
Qed.


(** ** Duplicate-redirection suppression *)

#[local] Instance trigger_same_refl : Reflexive trigger_same.
Proof. by intros w. Qed.
#[local] Instance trigger_same_trans : Transitive trigger_same.
Proof. unfold trigger_same. intros w1 w2 w3 E1 E2. congruence. Qed.
#[local] Instance no_pass_refl : Reflexive no_pass.
Proof. by intros w. Qed.
#[local] Instance no_pass_trans : Transitive no_pass.
Proof. intros w1 w2 w3 [] []. split; by etrans. Qed.

#[local] Hint Extern 1 (trigger_same ?w (on_plugin _ ?w)) => reflexivity : frames.
#[local] Hint Extern 1 (trigger_same ?w (on_host _ ?w)) => reflexivity : frames.
#[local] Hint Extern 1 (trigger_same ?w (log _ ?w)) => reflexivity : frames.
#[local] Hint Extern 1 (trigger_same ?w (setTimeout _ _ ?w)) => reflexivity : frames.
#[local] Hint Extern 1 (trigger_same ?w (set_baseline _ _ ?w)) => reflexivity : frames.
#[local] Hint Extern 1 (trigger_same ?w (host_setViewState _ _ ?w)) => reflexivity : frames.
#[local] Hint Extern 1 (trigger_same ?w (host_setPinned _ ?w)) => reflexivity : frames.
#[local] Hint Extern 1 (trigger_same ?w (host_revealLeaf _ ?w)) => reflexivity : frames.

Lemma host_getLeafTab_trigger w n w' : host_getLeafTab w = (n, w') -> trigger_same w w'.
Proof. unfold host_getLeafTab. by intros [= <- <-]. Qed.
Lemma host_setInterval_trigger l w id w' :
  host_setInterval l w = (id, w') -> trigger_same w w'.
Proof. unfold host_setInterval. by intros [= <- <-]. Qed.
Lemma isInMainArea_trigger l w b w' : isInMainArea l w = (b, w') -> trigger_same w w'.
Proof. unfold isInMainArea. by case_match; intros [= <- <-]. Qed.
#[local] Hint Resolve host_getLeafTab_trigger host_setInterval_trigger
  isInMainArea_trigger : frames.

Lemma createSearchTabInMainArea_trigger q s w :
  trigger_same w (createSearchTabInMainArea q s w).
Proof. unfold createSearchTabInMainArea. frame. Qed.
#[local] Hint Resolve createSearchTabInMainArea_trigger : frames.
Lemma setViewState_trigger now l vs w : trigger_same w (setViewState now l vs w).
Proof. unfold setViewState, setViewStateHook. frame. Qed.
#[local] Hint Resolve setViewState_trigger : frames.
Lemma applySettingsToNewLeaf_trigger now l w :
  trigger_same w (applySettingsToNewLeaf now l w).
Proof. unfold applySettingsToNewLeaf. frame. Qed.
Lemma startIntelligentMonitoring_trigger l w :
  trigger_same w (startIntelligentMonitoring l w).
Proof. unfold startIntelligentMonitoring. frame. Qed.
#[local] Hint Resolve applySettingsToNewLeaf_trigger startIntelligentMonitoring_trigger : frames.

Lemma shouldPrevent_trigger_same now w w' :
  trigger_same w w' ->
  shouldPreventDuplicateRedirection now w' = shouldPreventDuplicateRedirection now w.
Proof. unfold shouldPreventDuplicateRedirection, trigger_same. by intros ->. Qed.

(** A trigger inside the window changes nothing. *)
Lemma triggerRedirection_dropped now w :
  shouldPreventDuplicateRedirection now w = true -> triggerRedirection now w = w.
Proof. unfold triggerRedirection. by intros ->. Qed.

(** A trigger outside the window is accepted: it stamps the time and queues
    one redirection pass. *)
Lemma triggerRedirection_accepted now w :
  shouldPreventDuplicateRedirection now w = false ->
  triggerRedirection now w
  = setTimeout TRedirectionPass 10 (on_plugin (p_lastRedirectionTriggerTime now) w).
Proof. unfold triggerRedirection. by intros ->. Qed.

Lemma processNewSearchLeaf_no_pass now l w :
  shouldPreventDuplicateRedirection now w = true ->
  no_pass w (processNewSearchLeaf now l w).
Proof.
  intros Hdup. unfold processNewSearchLeaf. cbv beta zeta.
  set (w2 := on_plugin _ (on_plugin _ w)).
  assert (no_pass w w2) as H2 by (split; [reflexivity|apply queues_same; reflexivity]).
  assert (forall w0, no_pass w w0 ->
            no_pass w (startIntelligentMonitoring l
                         (if truthy (Settings.lastSearchState (the_settings w0))
                          then applySettingsToNewLeaf now l w0 else w0))) as Hcont.
  { intros w0 H0. transitivity w0; [done|]. split; frame. }
  destruct (isInInitializationGracePeriod now w2); [by apply Hcont|].
  destruct (isInMainArea l w2) as [inMain w3] eqn:E.
  assert (no_pass w w3) as H3.
  { transitivity w2; [done|]. split; eauto with frames. }
  destruct (_ && _); [|by apply Hcont].
  rewrite triggerRedirection_dropped; [done|].
  destruct H3 as [H3 _]. by rewrite (shouldPrevent_trigger_same now w w3).
Qed.

Lemma handleLayoutChanges_no_pass now w :
  shouldPreventDuplicateRedirection now w = true ->
  no_pass w (handleLayoutChanges now w).
Proof.
  intros Hdup. unfold handleLayoutChanges. cbv zeta.
  assert (no_pass w (clearLocationCache w)) as H1
    by (split; [reflexivity|apply queues_same; reflexivity]).
  destruct (negb _); [done|]. unfold processUnseen.
  generalize (getLeavesOfType "search" (clearLocationCache w)). intros ls.
  revert H1. generalize (clearLocationCache w). induction ls as [|x ls IH]; intros w0 H0.
  - done.
  - simpl. apply IH. destruct (bool_decide _); [done|].
    transitivity w0; [done|]. apply processNewSearchLeaf_no_pass.
    destruct H0 as [H0 _]. by rewrite (shouldPrevent_trigger_same now w w0).
Qed.

Lemma handleExistingSearchLeafActivation_no_pass now l w :
  shouldPreventDuplicateRedirection now w = true ->
  no_pass w (handleExistingSearchLeafActivation now l w).
Proof.
  intros Hdup. unfold handleExistingSearchLeafActivation.
  destruct (isInInitializationGracePeriod now w); [done|].
  destruct (isInMainArea l w) as [inMain w1] eqn:E.
  assert (no_pass w w1) as H1 by (split; eauto with frames).
  destruct (_ && _); [|done].
  rewrite triggerRedirection_dropped; [done|].
  destruct H1 as [H1 _]. by rewrite (shouldPrevent_trigger_same now w w1).
Qed.

Lemma handleActiveLeafChanges_no_pass now w :
  shouldPreventDuplicateRedirection now w = true ->
  no_pass w (handleActiveLeafChanges now w).
Proof.
  intros Hdup. unfold handleActiveLeafChanges.
  destruct (activeLeaf (host w)) as [a|]; [|done].
  destruct (_ || _); [done|].
  destruct (isInMainArea a w) as [inMain w1] eqn:E.
  assert (no_pass w w1) as H1 by (split; eauto with frames).
  destruct (_ && _); [|done].
  transitivity w1; [done|]. apply handleExistingSearchLeafActivation_no_pass.
  destruct H1 as [H1 _]. by rewrite (shouldPrevent_trigger_same now w w1).
Qed.

(** C3, as the code has it: when a trigger raised through
    [triggerRedirection] (the path of the lifecycle events and of leaf
    activation) is accepted at [t1], a trigger on that path at [t2] with
    [t2 - t1 < 500] is dropped before the redirection pass: the state does
    not change, and neither handler queues a pass. *)
Theorem duplicate_trigger_dropped (w : World) (t1 t2 : Z) :
  shouldPreventDuplicateRedirection t1 w = false ->
  t2 - t1 < 500 ->
  let w1 := triggerRedirection t1 w in
  pending (host w1) = (pending (host w) ++ [(10, TRedirectionPass)])%list
  /\ lastRedirectionTriggerTime (plugin w1) = t1
  /\ triggerRedirection t2 w1 = w1
  /\ no_pass w1 (handleLayoutChanges t2 w1)
  /\ no_pass w1 (handleActiveLeafChanges t2 w1).
Proof.
  intros Hacc Hlt w1. unfold w1. rewrite (triggerRedirection_accepted t1 w Hacc).
  assert (shouldPreventDuplicateRedirection t2
            (setTimeout TRedirectionPass 10 (on_plugin (p_lastRedirectionTriggerTime t1) w))
          = true) as Hdup.
  { unfold shouldPreventDuplicateRedirection. cbn. apply Z.ltb_lt. lia. }
  repeat split; try done.
  - by apply triggerRedirection_dropped.
  - by apply handleLayoutChanges_no_pass.
  - by apply handleLayoutChanges_no_pass.
  - by apply handleActiveLeafChanges_no_pass.
  - by apply handleActiveLeafChanges_no_pass.
Qed.


Lemma duplicate_trigger_dropped_witness :
  shouldPreventDuplicateRedirection 1003000 Example.loaded_world = false
  /\ 1003100 - 1003000 < 500
  /\ triggerRedirection 1003100 (triggerRedirection 1003000 Example.loaded_world)
     = triggerRedirection 1003000 Example.loaded_world.
Proof.
  split; [reflexivity|]. split; [lia|].
  pose proof (duplicate_trigger_dropped Example.loaded_world 1003000 1003100
                eq_refl ltac:(lia)) as H.
  cbv zeta in H. apply H.
Defined.

(** Two triggers on the command path, 5 ms apart: both reach the
    redirection engine, which hides leaf 10 and asks for a replacement tab
    twice. *)
Lemma command_triggers_both_proceed :
  1003005 - 1003000 < 500
  /\ calls (host Scenario.two_commands)
     = [CSetInterval 1 10%nat;
        CExecuteCommand "global-search:open";
        CHide 10%nat; CGetLeafTab 20%nat;
        CSetViewState 20%nat
          (Example.search_view (VObj [("query", VStr "todo"); ("sort", VStr "alpha")]));
        CSetPinned 20%nat; CRevealLeaf 20%nat;
        CExecuteCommand "global-search:open";
        CHide 10%nat; CGetLeafTab 21%nat;
        CSetViewState 21%nat
          (Example.search_view (VObj [("query", VStr "todo"); ("sort", VStr "alpha")]));
        CSetPinned 21%nat; CRevealLeaf 21%nat].
Proof. split; [lia|]. vm_compute. reflexivity. Qed.

(** ** Start-up grace period *)

#[local] Instance silent_refl : Reflexive silent.
Proof. by intros w. Qed.
#[local] Instance silent_trans : Transitive silent.
Proof. unfold silent. intros w1 w2 w3 [] []. split; congruence. Qed.

Lemma silent_redirection_free w w' : silent w w' -> redirection_free w w'.
Proof. intros [Hc Hp]. split; [by apply emits_same|by apply queues_same]. Qed.

#[local] Hint Extern 1 (silent ?w (on_plugin _ ?w)) => (split; reflexivity) : frames.
#[local] Hint Extern 1 (silent ?w (monitorLeafViewState _ ?w)) =>
  (unfold monitorLeafViewState; case_match; split; reflexivity) : frames.

Lemma isInMainArea_silent l w b w' : isInMainArea l w = (b, w') -> silent w w'.
Proof. unfold isInMainArea. by case_match; intros [= <- <-]. Qed.
#[local] Hint Resolve isInMainArea_silent : frames.

Lemma viewStateLayoutChange_silent w : silent w (viewStateLayoutChange w).
Proof.
  unfold viewStateLayoutChange, monitorSidebarLeaves.
  transitivity (clearLocationCache w); [by split|].
  apply fold_left_frame; [apply _..|]. frame.
Qed.

Lemma grace_stable now w w' :
  stable w w' ->
  isInInitializationGracePeriod now w' = isInInitializationGracePeriod now w.
Proof. intros [_ H1 H2]. unfold isInInitializationGracePeriod. by rewrite H1, H2. Qed.

Section Grace.
Variables (now : Z).

Lemma setViewState_grace l vs w :
  isInInitializationGracePeriod now w = true ->
  redirection_free w (setViewState now l vs w).
Proof.
  intros Hg. unfold setViewState. case_match; [|split; frame].
  unfold setViewStateHook. destruct (isInMainArea l w) as [inMain w1] eqn:E.
  rewrite (grace_stable now w w1), Hg by eauto with frames.
  rewrite andb_false_r. simpl. split; frame.
Qed.

Lemma applySettingsToNewLeaf_grace l w :
  isInInitializationGracePeriod now w = true ->
  redirection_free w (applySettingsToNewLeaf now l w).
Proof.
  intros Hg. unfold applySettingsToNewLeaf. cbv zeta.
  match goal with
  | |- context [setViewState now l ?vs w] =>
      pose proof (setViewState_grace l vs w Hg) as H1;
      generalize dependent (setViewState now l vs w)
  end.
  intros w1 [H1 H2]. split; frame.
Qed.

Lemma processNewSearchLeaf_grace l w :
  isInInitializationGracePeriod now w = true ->
  redirection_free w (processNewSearchLeaf now l w).
Proof.
  intros Hg. unfold processNewSearchLeaf. cbv beta zeta.
  set (w2 := on_plugin _ (on_plugin _ w)).
  assert (isInInitializationGracePeriod now w2 = true) as ->
    by (by rewrite (grace_stable now w w2) by (by split)).
  assert (redirection_free w w2) as H2 by (apply silent_redirection_free; by split).
  transitivity w2; [done|].
  assert (isInInitializationGracePeriod now w2 = true) as Hg2
    by (by rewrite (grace_stable now w w2) by (by split)).
  clearbody w2.
  destruct (truthy _).
  - transitivity (applySettingsToNewLeaf now l w2);
      [by apply applySettingsToNewLeaf_grace|split; frame].
  - split; frame.
Qed.

Lemma processUnseen_grace ls : forall w,
  isInInitializationGracePeriod now w = true ->
  redirection_free w (processUnseen now ls w).
Proof.
  unfold processUnseen. induction ls as [|x ls IH]; intros w Hg; simpl; [done|].
  destruct (bool_decide _); [by apply IH|].
  transitivity (processNewSearchLeaf now x w); [by apply processNewSearchLeaf_grace|].
  apply IH. by rewrite (grace_stable now w) by eauto with frames.
Qed.

Lemma handleLayoutChanges_grace w :
  isInInitializationGracePeriod now w = true ->
  redirection_free w (handleLayoutChanges now w).
Proof.
  intros Hg. unfold handleLayoutChanges. cbv zeta.
  assert (redirection_free w (clearLocationCache w)) as H1
    by (apply silent_redirection_free; by split).
  destruct (negb _); [done|]. transitivity (clearLocationCache w); [done|].
  apply processUnseen_grace. by rewrite (grace_stable now w) by eauto with frames.
Qed.

Lemma handleActiveLeafChanges_grace w :
  isInInitializationGracePeriod now w = true ->
  redirection_free w (handleActiveLeafChanges now w).
Proof.
  intros Hg. unfold handleActiveLeafChanges.
  destruct (activeLeaf (host w)) as [a|]; [|done].
  destruct (_ || _); [done|].
  destruct (isInMainArea a w) as [inMain w1] eqn:E.
  assert (redirection_free w w1) as H1
    by (apply silent_redirection_free; eauto with frames).
  destruct (_ && _); [|done].
  unfold handleExistingSearchLeafActivation.
  by rewrite (grace_stable now w w1), Hg by eauto with frames.
Qed.
End Grace.

(** C2, as the code has it: while the plugin is inside its start-up grace
    period, the lifecycle events, the activation of a leaf and a call of a
    wrapped [setViewState] redirect nothing, whatever the settings: they
    make no call that hides or detaches a leaf or asks for a new tab, and
    queue neither a redirection pass nor a detach. *)
Theorem grace_suppresses_event_paths (w : World) (now : Z) :
  isInInitializationGracePeriod now w = true ->
  redirection_free w (step now EvLayoutChange w)
  /\ redirection_free w (step now EvActiveLeafChange w)
  /\ (forall l vs, redirection_free w (step now (EvSetViewState l vs) w)).
Proof.
  intros Hg. simpl. repeat split.
  - destruct (loaded (plugin w)); [|done].
    pose proof (handleLayoutChanges_grace now w Hg) as [H1 H2].
    destruct (viewStateLayoutHandler _); [|done].
    pose proof (viewStateLayoutChange_silent (handleLayoutChanges now w)) as [Hc Hp].
    etrans; [exact H1|by apply emits_same].
  - destruct (loaded (plugin w)); [|done].
    pose proof (handleLayoutChanges_grace now w Hg) as [H1 H2].
    destruct (viewStateLayoutHandler _); [|done].
    pose proof (viewStateLayoutChange_silent (handleLayoutChanges now w)) as [Hc Hp].
    etrans; [exact H2|by apply queues_same].
  - destruct (loaded (plugin w)); [|done]. by apply handleActiveLeafChanges_grace.
  - destruct (loaded (plugin w)); [|done]. by apply handleActiveLeafChanges_grace.
  - by apply setViewState_grace.
  - by apply setViewState_grace.
Qed.


Lemma grace_suppresses_event_paths_witness :
  isInInitializationGracePeriod 1000500 Example.loaded_world = true
  /\ redirection_free Example.loaded_world
       (step 1000500 EvLayoutChange Example.loaded_world).
Proof.
  assert (isInInitializationGracePeriod 1000500 Example.loaded_world = true) as Hg
    by (vm_compute; reflexivity).
  split; [exact Hg|].
  exact (proj1 (grace_suppresses_event_paths Example.loaded_world 1000500 Hg)).
Defined.

(** Inside the grace period (110 ms after start-up has completed) a search
    command run through the wrapped dispatcher redirects the peripheral
    search leaf 10: it is hidden, a replacement tab is requested, and the
    leaf is detached. *)
Lemma command_redirects_in_grace :
  isInInitializationGracePeriod 1000110 Example.loaded_world = true
  /\ getViewType Example.loaded_world 10%nat = "search"
  /\ fst (isInMainArea 10%nat Example.loaded_world) = false
  /\ calls (host Scenario.command_in_grace)
     = [CSetInterval 1 10%nat;
        CExecuteCommand "global-search:open";
        CHide 10%nat; CGetLeafTab 20%nat;
        CSetViewState 20%nat
          (Example.search_view (VObj [("query", VStr "todo"); ("sort", VStr "alpha")]));
        CSetPinned 20%nat; CRevealLeaf 20%nat;
        CDetach 10%nat].
Proof. repeat split; vm_compute; reflexivity. Qed.

(** ** Exactly-once classification *)

#[local] Instance baseline_at_refl l : Reflexive (baseline_at l).
Proof. by intros w. Qed.
#[local] Instance baseline_at_trans l : Transitive (baseline_at l).
Proof. unfold baseline_at. intros w1 w2 w3 E1 E2. congruence. Qed.

Lemma baseline_same_at l w w' : baseline_same w w' -> baseline_at l w w'.
Proof. unfold baseline_same, baseline_at. by intros ->. Qed.
#[local] Hint Extern 3 (baseline_at _ _ _) =>
  (apply baseline_same_at; solve [eauto 4 with frames]) : frames.

Lemma set_baseline_at l x str w : x <> l -> baseline_at l w (set_baseline x str w).
Proof.
  intros Hx. unfold baseline_at, set_baseline. cbn.
  destruct str; [by rewrite lookup_insert_ne|by rewrite lookup_delete_ne].
Qed.
#[local] Hint Extern 1 (baseline_at _ ?w (set_baseline _ _ ?w)) =>
  (apply set_baseline_at; done) : frames.

Section OtherLeaf.
Context (l x : leaf) (Hx : x <> l).

Lemma applySettingsToNewLeaf_baseline_at now w :
  baseline_at l w (applySettingsToNewLeaf now x w).
Proof. unfold applySettingsToNewLeaf. frame. Qed.

Lemma processNewSearchLeaf_baseline_at now w :
  baseline_at l w (processNewSearchLeaf now x w).
Proof.
  pose proof applySettingsToNewLeaf_baseline_at.
  unfold processNewSearchLeaf. frame.
Qed.
End OtherLeaf.

Lemma processUnseen_skips (l : leaf) (now : Z) (ls : list leaf) : forall w,
  l ∈ processedLeaves (plugin w) ->
  processUnseen now ls w
  = processUnseen now (List.filter (fun x => negb (Nat.eqb x l)) ls) w
  /\ baseline_at l w (processUnseen now ls w).
Proof.
  unfold processUnseen. induction ls as [|x ls IH]; intros w Hl; simpl; [done|].
  destruct (Nat.eqb x l) eqn:Hx; simpl.
  - apply Nat.eqb_eq in Hx as ->. rewrite bool_decide_eq_true_2 by done. by apply IH.
  - apply Nat.eqb_neq in Hx.
    destruct (bool_decide (x ∈ processedLeaves (plugin w))); [by apply IH|].
    assert (l ∈ processedLeaves (plugin (processNewSearchLeaf now x w))) as Hl'
      by (by apply (processNewSearchLeaf_marks now x w)).
    destruct (IH _ Hl') as [-> Hb]. split; [done|].
    etrans; [by apply (processNewSearchLeaf_baseline_at l x)|done].
Qed.

(** C1, as the code has it: the layout-change handler, the only caller of
    [processNewSearchLeaf] and so of the apply step, skips a leaf that is
    marked processed: the handler does what it would do if the leaf were
    not among the search leaves, the mark stays and the leaf's baseline is
    not written.  The activation handler, the command wrapper and the
    redirection pass never run the apply step either: they leave the whole
    baseline table as it is. *)
Theorem processed_leaf_not_reapplied (w : World) (l : leaf) (now : Z) :
  l ∈ processedLeaves (plugin w) ->
  handleLayoutChanges now w
  = (let w1 := clearLocationCache w in
     if negb (Settings.openBookmarksInMainArea (the_settings w1)) then w1
     else processUnseen now
            (List.filter (fun x => negb (Nat.eqb x l)) (getLeavesOfType "search" w1)) w1)
  /\ l ∈ processedLeaves (plugin (handleLayoutChanges now w))
  /\ baseline_at l w (handleLayoutChanges now w)
  /\ baseline_same w (handleActiveLeafChanges now w)
  /\ (forall commandId, baseline_same w (dispatchCommand commandId w))
  /\ baseline_same w (handleSearchCommandExecution w).
Proof.
  intros Hl. split; [|split; [|split]].
  - unfold handleLayoutChanges. cbv zeta. destruct (negb _); [done|].
    by apply processUnseen_skips.
  - by apply (handleLayoutChanges_marks now w).
  - unfold handleLayoutChanges. cbv zeta. destruct (negb _); [done|].
    transitivity (clearLocationCache w); [done|]. by apply processUnseen_skips.
  - split; [|split]; eauto with frames.
Qed.

Lemma processed_leaf_not_reapplied_witness :
  10%nat ∈ processedLeaves (plugin Example.loaded_world)
  /\ baseline_at 10%nat Example.loaded_world
       (handleLayoutChanges 1003000 Example.loaded_world).
Proof.
  assert (10%nat ∈ processedLeaves (plugin Example.loaded_world)) as H
    by (vm_compute; set_solver).
  split; [exact H|].
  exact (proj1 (proj2 (proj2
           (processed_leaf_not_reapplied Example.loaded_world 10%nat 1003000 H)))).
Defined.

(** Leaf 10 was marked processed while the plugin loaded.  Three seconds
    later the user activates it: the activation handler triggers the pass,
    and the pass hands the marked leaf to the redirection engine. *)
Lemma processed_leaf_redirected_on_activation :
  bool_decide (10%nat ∈ processedLeaves (plugin Example.loaded_world)) = true
  /\ calls (host Example.loaded_world) = [CSetInterval 1 10%nat]
  /\ calls (host Scenario.activation_after_grace)
     = [CSetInterval 1 10%nat;
        CHide 10%nat; CGetLeafTab 20%nat;
        CSetViewState 20%nat
          (Example.search_view (VObj [("query", VStr "todo"); ("sort", VStr "alpha")]));
        CSetPinned 20%nat; CRevealLeaf 20%nat]
  /\ pending (host Scenario.activation_after_grace)
     = [(50, TFocusInput 20%nat); (10, TDetach 10%nat)].
Proof. repeat split; vm_compute; reflexivity. Qed.


(** ** Teardown *)

#[local] Instance hooks_same_refl : Reflexive hooks_same.
Proof. by intros w. Qed.
#[local] Instance hooks_same_trans : Transitive hooks_same.
Proof. unfold hooks_same. intros w1 w2 w3 [] []. split; congruence. Qed.

(** [onunload] never touches a leaf's [setViewState]: the wrappers that
    [monitorLeafViewState] installed stay in place. *)
Lemma onunload_hooks_same (w : World) : hooks_same w (onunload w).
Proof.
  unfold onunload. cbv zeta.
  set (w1 := fold_left _ _ w).
  assert (hooks_same w w1) as H1.
  { apply fold_left_frame; [apply _..|]. intros w0 id. by split. }
  clearbody w1. transitivity w1; [done|].
  repeat case_match; by split.
Qed.

Lemma clear_intervals_none (ids : list nat) : forall (w : World) (id : nat),
  intervals (host w) !! id = None ->
  intervals (host (fold_left (fun w id => host_clearInterval id w) ids w)) !! id = None.
Proof.
  induction ids as [|x ids IH]; intros w id Hnone; simpl; [done|].
  apply IH. cbn. destruct (decide (x = id)) as [->|Hne];
    [apply lookup_delete_eq|by rewrite lookup_delete_ne].
Qed.

Lemma clear_all_intervals (ids : list nat) : forall (w : World) (id : nat),
  id ∈ ids ->
  intervals (host (fold_left (fun w id => host_clearInterval id w) ids w)) !! id = None.
Proof.
  induction ids as [|x ids IH]; intros w id Hin; simpl; [by apply elem_of_nil in Hin|].
  apply elem_of_cons in Hin as [->|Hin]; [|by apply IH].
  apply clear_intervals_none. cbn. apply lookup_delete_eq.
Qed.

(** The timers are cleared: no interval handle that the plugin still
    tracks is live after [onunload]. *)
Lemma onunload_clears_intervals (w : World) (id : nat) :
  id ∈ allIntervalIds (plugin w) -> intervals (host (onunload w)) !! id = None.
Proof.
  intros Hin. unfold onunload. cbv zeta.
  pose proof (clear_all_intervals _ w id Hin) as H1.
  set (w1 := fold_left _ _ w) in *. clearbody w1.
  repeat case_match; cbn; try done.
  all: destruct (decide (n = id)) as [->|Hne];
    [apply lookup_delete_eq|by rewrite lookup_delete_ne].
Qed.

Lemma clear_intervals_frame (ids : list nat) : forall w : World,
  plugin (fold_left (fun w id => host_clearInterval id w) ids w) = plugin w
  /\ executeCommand (host (fold_left (fun w id => host_clearInterval id w) ids w))
     = executeCommand (host w).
Proof.
  induction ids as [|x ids IH]; intros w; simpl; [done|].
  by destruct (IH (host_clearInterval x w)) as [-> ->].
Qed.

(** The command dispatcher is put back to what [setupCommandInterception]
    found when it last ran. *)
Lemma onunload_restores_executeCommand (w : World) (f : exec_fn) :
  originalExecuteCommand (plugin w) = Some f ->
  is_Some (executeCommand (host w)) ->
  executeCommand (host (onunload w)) = Some f.
Proof.
  intros Ho [g Hg]. unfold onunload. cbv zeta.
  destruct (clear_intervals_frame (allIntervalIds (plugin w)) w) as [H1 H2].
  set (w1 := fold_left _ _ w) in *. clearbody w1.
  rewrite <- H1 in Ho. rewrite <- H2 in Hg.
  repeat case_match; cbn in *; congruence.
Qed.

(** ** Leaves processed with nothing remembered *)

#[local] Instance keeps_unbaselined_refl l : Reflexive (keeps_unbaselined l).
Proof. intros w. unfold keeps_unbaselined. auto. Qed.
#[local] Instance keeps_unbaselined_trans l : Transitive (keeps_unbaselined l).
Proof. unfold keeps_unbaselined. intros w1 w2 w3 H1 H2. auto. Qed.

Lemma keeps_of_frames l w w' :
  baseline_same w w' -> marks_kept w w' -> keeps_unbaselined l w w'.
Proof.
  unfold baseline_same, marks_kept, keeps_unbaselined, unbaselined.
  intros -> Hm [Hl Hb]. split; [set_solver|done].
Qed.
#[local] Hint Extern 3 (keeps_unbaselined _ _ _) =>
  (apply keeps_of_frames; solve [eauto 4 with frames]) : frames.

Lemma processUnseen_keeps l now ls w : keeps_unbaselined l w (processUnseen now ls w).
Proof.
  intros [Hl Hb]. split.
  - by apply (processUnseen_marks now ls w).
  - destruct (processUnseen_skips l now ls w Hl) as [_ Hat]. by rewrite Hat.
Qed.
#[local] Hint Resolve processUnseen_keeps : frames.

Lemma handleLayoutChanges_keeps l now w :
  keeps_unbaselined l w (handleLayoutChanges now w).
Proof. unfold handleLayoutChanges. frame. Qed.
#[local] Hint Resolve handleLayoutChanges_keeps : frames.

Lemma onload_keeps l now w : keeps_unbaselined l w (onload now w).
Proof. unfold onload. frame. Qed.

Lemma onunload_baseline_empty w : leafBaselineState (plugin (onunload w)) = ∅.
Proof. unfold onunload. cbv zeta. by repeat case_match. Qed.

Lemma cleanupLeafTracking_baseline x w :
  leafBaselineState (plugin (cleanupLeafTracking x w))
  = delete x (leafBaselineState (plugin w)).
Proof. unfold cleanupLeafTracking. by case_match. Qed.

(** A tick of the monitor of any leaf leaves a leaf without baseline
    without baseline. *)
Lemma monitor_no_baseline l now x w :
  leafBaselineState (plugin w) !! l = None ->
  leafBaselineState (plugin (monitor now x w)) !! l = None.
Proof.
  intros Hb. unfold monitor.
  destruct (negb _).
  { rewrite cleanupLeafTracking_baseline.
    destruct (decide (x = l)) as [->|Hne];
      [apply lookup_delete_eq|by rewrite lookup_delete_ne]. }
  cbv zeta. destruct (Z.ltb _ _); [done|]. destruct (truthy _); [|done].
  destruct (_ && _) eqn:Hc; [|done].
  destruct (decide (x = l)) as [->|Hne].
  - rewrite Hb in Hc. simpl in Hc. by rewrite andb_false_r in Hc.
  - unfold set_baseline. cbn. destruct (stringify _);
      [by rewrite lookup_insert_ne|by rewrite lookup_delete_ne].
Qed.

(** Without a baseline the monitor of a leaf saves nothing: the settings
    and storage stay as they are and no [saveData] call is made. *)
Lemma monitor_without_baseline l now w :
  leafBaselineState (plugin w) !! l = None ->
  the_settings (monitor now l w) = the_settings w
  /\ storage (host (monitor now l w)) = storage (host w)
  /\ emits (fun c => forall d, c <> CSaveData d) w (monitor now l w).
Proof.
  intros Hb. unfold monitor.
  destruct (negb _).
  { unfold cleanupLeafTracking. destruct (leafWatchIntervals (plugin w) !! l) as [id|].
    - split; [done|]. split; [done|].
      exists [CClearInterval id]. split; [done|]. by repeat constructor.
    - split; [done|]. split; [done|]. by apply emits_same. }
  rewrite Hb. simpl. rewrite andb_false_r.
  by repeat case_match.
Qed.

Lemma step_no_baseline l now e w :
  unbaselined l w -> leafBaselineState (plugin (step now e w)) !! l = None.
Proof.
  intros Hu.
  assert (forall w', keeps_unbaselined l w w' ->
            leafBaselineState (plugin w') !! l = None) as Hkeep
    by (intros w' Hk; by destruct (Hk Hu)).
  assert (forall w', baseline_same w w' ->
            leafBaselineState (plugin w') !! l = None) as Hsame
    by (unfold baseline_same; intros w' ->; by destruct Hu).
  destruct e; unfold step.
  - apply Hkeep, onload_keeps.
  - by rewrite onunload_baseline_empty.
  - apply Hkeep. frame.
  - apply Hsame. frame.
  - destruct (intervals (host w) !! id); [|by destruct Hu].
    apply monitor_no_baseline. by destruct Hu.
  - apply Hsame. destruct (pending (host w) !! i) as [[d t]|]; frame.
  - apply Hsame. frame.
  - apply Hsame. frame.
  - apply Hsame. frame.
  - apply Hsame. frame.
  - apply Hsame. frame.
  - apply Hsame. frame.
  - apply Hsame. frame.
Qed.

Lemma run_no_baseline l evs : forall w,
  marked_throughout l evs w ->
  leafBaselineState (plugin w) !! l = None ->
  leafBaselineState (plugin (run evs w)) !! l = None.
Proof.
  induction evs as [|[now e] evs IH]; intros w Hm Hb; simpl in *; [done|].
  destruct Hm as [Hl Hm]. apply IH; [done|]. by apply step_no_baseline.
Qed.

Lemma processNewSearchLeaf_nothing_remembered now l w :
  truthy (Settings.lastSearchState (the_settings w)) = false ->
  baseline_same w (processNewSearchLeaf now l w).
Proof.
  intros Hnone. unfold processNewSearchLeaf. cbv beta zeta.
  set (w2 := on_plugin _ (on_plugin _ w)).
  assert (baseline_same w w2) as H2 by reflexivity.
  assert (the_settings w2 = the_settings w) as Hs2 by reflexivity.
  clearbody w2.
  destruct (isInInitializationGracePeriod now w2).
  - rewrite Hs2, Hnone. frame.
  - destruct (isInMainArea l w2) as [inMain w3] eqn:E.
    assert (the_settings w3 = the_settings w) as Hs3.
    { rewrite <- Hs2. unfold the_settings. by destruct (isInMainArea_stable _ _ _ _ E). }
    rewrite Hs3, Hnone. frame.
Qed.

Lemma processNewSearchLeaf_marked now l w :
  l ∈ processedLeaves (plugin (processNewSearchLeaf now l w)).
Proof.
  unfold processNewSearchLeaf. cbv beta zeta.
  set (w1 := on_plugin _ w).
  assert (l ∈ processedLeaves (plugin w1)) as H1 by (cbn; set_solver).
  clearbody w1.
  match goal with
  | |- l ∈ processedLeaves (plugin ?w') => assert (marks_kept w1 w') as Hm by frame
  end.
  by apply Hm.
Qed.

(** C10, as the code has it: a search leaf processed while nothing is
    remembered gets no baseline, and as long as it stays marked processed
    no event gives it one; without a baseline its monitor never saves,
    whatever state the view reports and whenever it ticks. *)
Theorem no_baseline_no_autosave
    (w : World) (l : leaf) (now : Z) (evs : list (Z * event)) :
  truthy (Settings.lastSearchState (the_settings w)) = false ->
  leafBaselineState (plugin w) !! l = None ->
  marked_throughout l evs (processNewSearchLeaf now l w) ->
  let w1 := processNewSearchLeaf now l w in
  let wf := run evs w1 in
  leafBaselineState (plugin w1) !! l = None
  /\ leafBaselineState (plugin wf) !! l = None
  /\ (forall t,
        the_settings (monitor t l wf) = the_settings wf
        /\ storage (host (monitor t l wf)) = storage (host wf)
        /\ emits (fun c => forall d, c <> CSaveData d) wf (monitor t l wf)
        /\ leafBaselineState (plugin (monitor t l wf)) !! l = None).
Proof.
  intros Hnone Hb Hm w1 wf.
  assert (leafBaselineState (plugin w1) !! l = None) as Hb1.
  { unfold w1. by rewrite (processNewSearchLeaf_nothing_remembered now l w Hnone). }
  assert (leafBaselineState (plugin wf) !! l = None) as Hbf
    by (by apply run_no_baseline).
  split; [done|]. split; [done|]. intros t.
  destruct (monitor_without_baseline l t wf Hbf) as (Hs & Hst & He).
  repeat split; try done. by apply monitor_no_baseline.
Qed.

Lemma no_baseline_no_autosave_witness :
  leafBaselineState
    (plugin (run Scenario.edits_after_immunity
               (processNewSearchLeaf 1003000 13%nat Scenario.main_search_opened)))
    !! 13%nat = None.
Proof.
  assert (truthy (Settings.lastSearchState (the_settings Scenario.main_search_opened))
          = false) as H1 by (vm_compute; reflexivity).
  assert (leafBaselineState (plugin Scenario.main_search_opened) !! 13%nat = None) as H2
    by (vm_compute; reflexivity).
  assert (marked_throughout 13%nat Scenario.edits_after_immunity
            (processNewSearchLeaf 1003000 13%nat Scenario.main_search_opened)) as H3.
  { repeat split; apply bool_decide_eq_true_1; vm_compute; reflexivity. }
  exact (proj1 (proj2 (no_baseline_no_autosave Scenario.main_search_opened 13%nat 1003000
                         Scenario.edits_after_immunity H1 H2 H3))).
Defined.

(** Leaf 12 is first processed while nothing is remembered and gets no
    baseline.  After a search command has cleared its mark, the next layout
    change processes it again, inside the grace period and with a remembered
    state by then: a baseline is recorded, and the next tick of its monitor
    after the user's edit saves the new state. *)
Lemma baseline_recorded_after_reprocessing :
  bool_decide (12%nat ∈ processedLeaves (plugin Scenario.first_processed)) = true
  /\ Settings.lastSearchState (the_settings Scenario.first_processed) = VNull
  /\ leafBaselineState (plugin Scenario.first_processed) !! 12%nat = None
  /\ leafBaselineState (plugin Scenario.reprocessed_in_grace) !! 12%nat
     = stringify (VObj [("sort", VStr "alpha")])
  /\ Settings.lastSearchState (the_settings Scenario.reprocessed_in_grace)
     = VObj [("sort", VStr "alpha")]
  /\ Settings.lastSearchState (the_settings Scenario.ticked_after_edit)
     = VObj [("sort", VStr "byModified")]
  /\ storage (host Scenario.ticked_after_edit) ≫= (fun stored => stored !! "lastSearchState")
     = Some (VObj [("sort", VStr "byModified")])
  /\ leafBaselineState (plugin Scenario.ticked_after_edit) !! 12%nat
     = stringify (VObj [("sort", VStr "byModified")]).
Proof. repeat split; vm_compute; reflexivity. Qed.

(** C4 at a concrete teardown: leaf 10 was wrapped while the plugin loaded
    and is still wrapped after [onunload], although the timer is cleared
    and the command dispatcher is restored; a later [setViewState] on leaf
    10 still runs the wrapper of the unloaded instance, which opens a main
    tab instead of letting the host set the view. *)
Theorem view_state_wrapper_survives_unload :
  elements (setViewStateHooked (host Example.loaded_world)) = [10%nat]
  /\ elements (setViewStateHooked (host (onunload Example.loaded_world))) = [10%nat]
  /\ executeCommand (host (onunload Example.loaded_world)) = Some HostExecute
  /\ map_to_list (intervals (host (onunload Example.loaded_world))) = []
  /\ loaded (plugin Scenario.set_after_unload) = false
  /\ calls (host Scenario.set_after_unload)
     = [CSetInterval 1 10%nat; CClearInterval 1;
        CGetLeafTab 20%nat;
        CSetViewState 20%nat (Example.search_view (VObj [("query", VStr "tag:#x")]));
        CSetPinned 20%nat; CRevealLeaf 20%nat].
Proof. repeat split; vm_compute; reflexivity. Qed.

(** After [setupCommandInterception] has run twice, the field
    [originalExecuteCommand] holds the wrapper itself, and that is what
    [onunload] puts back. *)
Example second_setup_loses_original_dispatcher :
  executeCommand (host Example.start) = Some HostExecute
  /\ executeCommand (host Scenario.toggled_twice_then_unloaded) = Some PluginHook.
Proof. split; vm_compute; reflexivity. Qed.

(** * Further properties of the code *)

(** ** Classification is a pure filter *)

#[local] Instance cache_only_refl : Reflexive cache_only.
Proof.
  intros w. split; [done|]. split; [|done].
  exists (leafLocationCache (plugin w)). by destruct w as [[] ?].
Qed.

#[local] Instance cache_only_trans : Transitive cache_only.
Proof.
  intros w1 w2 w3 (Hh1 & [c1 Hp1] & Hc1) (Hh2 & [c2 Hp2] & Hc2).
  split; [congruence|]. split; [|intros l; by rewrite Hc2].
  exists c2. rewrite Hp2, Hp1. done.
Qed.

Lemma classify_eq l w :
  classify l w
  = match leafLocationCache (plugin w) !! l with
    | Some cachedResult => cachedResult
    | None => fst (walk (host w) depth_bound (parent (host w) !! l) 0)
    end.
Proof. unfold classify, isInMainArea. by destruct (leafLocationCache (plugin w) !! l). Qed.

(** The classification reads the cache entry of the leaf and the parent
    chain, nothing else. *)
Lemma classify_ext l w w' :
  leafLocationCache (plugin w') !! l = leafLocationCache (plugin w) !! l ->
  parent (host w') = parent (host w) ->
  rootSplit (host w') = rootSplit (host w) ->
  classify l w' = classify l w.
Proof.
  intros Hc Hp Hr. rewrite !classify_eq, Hc. destruct (leafLocationCache (plugin w) !! l);
    [done|].
  rewrite Hp. generalize (parent (host w) !! l) 0%nat. generalize depth_bound.
  intros fuel. induction fuel as [|fuel IH]; intros p d; simpl; [done|].
  destruct p as [item|]; [|done]. rewrite Hr, Hp.
  destruct (Nat.eqb item (rootSplit (host w))); [done|]. apply IH.
Qed.

Lemma isInMainArea_cache_only x w b w1 :
  isInMainArea x w = (b, w1) -> b = classify x w /\ cache_only w w1.
Proof.
  intros E. split; [unfold classify; by rewrite E|].
  unfold isInMainArea in E.
  destruct (leafLocationCache (plugin w) !! x) as [cached|] eqn:Hc.
  - injection E as <- <-. reflexivity.
  - injection E as <- <-. split; [done|]. split; [by eexists|].
    intros l. unfold classify, isInMainArea. cbn -[walk].
    destruct (decide (x = l)) as [->|Hne].
    + by rewrite lookup_insert_eq, Hc.
    + rewrite lookup_insert_ne by done. by destruct (leafLocationCache (plugin w) !! l).
Qed.

Lemma sidebarOnly_filter ls : forall w r w',
  sidebarOnly ls w = (r, w') -> r = peripheral w ls /\ cache_only w w'.
Proof.
  induction ls as [|x ls IH]; intros w r w' E; simpl in E.
  - injection E as <- <-. split; [done|reflexivity].
  - destruct (isInMainArea x w) as [b w1] eqn:E1.
    destruct (sidebarOnly ls w1) as [r2 w2] eqn:E2. injection E as <- <-.
    destruct (isInMainArea_cache_only _ _ _ _ E1) as [-> H1].
    destruct (IH _ _ _ E2) as [-> H2]. split; [|by etrans].
    unfold peripheral. simpl. destruct H1 as (_ & _ & Hc).
    rewrite (filter_ext (fun l => negb (classify l w1)) (fun l => negb (classify l w)))
      by (intros l; by rewrite Hc).
    by destruct (classify x w).
Qed.

Lemma cache_only_getLeavesOfType ty w w' :
  cache_only w w' -> getLeavesOfType ty w' = getLeavesOfType ty w.
Proof.
  intros (Hh & _ & _). unfold getLeavesOfType, getViewType, getViewState. by rewrite Hh.
Qed.

(** X1: [leaves.filter(leaf => !this.isInMainArea(leaf))] returns exactly the
    leaves that are classified as peripheral before the call, in their
    order; the calls fill the location cache and change nothing else, and
    they change no leaf's classification. *)
Theorem sidebar_filter_is_pure (ls : list leaf) (w : World) :
  fst (sidebarOnly ls w) = List.filter (fun l => negb (fst (isInMainArea l w))) ls
  /\ host (snd (sidebarOnly ls w)) = host w
  /\ (exists c, plugin (snd (sidebarOnly ls w)) = p_leafLocationCache c (plugin w))
  /\ (forall l, fst (isInMainArea l (snd (sidebarOnly ls w))) = fst (isInMainArea l w)).
Proof.
  destruct (sidebarOnly ls w) as [r w'] eqn:E.
  destruct (sidebarOnly_filter ls w r w' E) as [-> (Hh & Hp & Hc)]. by cbn.
Qed.

(** ** Command interception *)

Lemma isSearchCommand_ids (commandId : string) :
  isSearchCommand commandId = true
  <-> commandId ∈ ["global-search:open"; "search-current-file"; "search:toggle"; "search:open"].
Proof.
  unfold isSearchCommand. rewrite existsb_exists. split.
  - intros (x & Hin & Heq). apply String.eqb_eq in Heq as ->. by apply list_elem_of_In.
  - intros Hin. exists commandId. split; [by apply list_elem_of_In|apply String.eqb_refl].
Qed.

(** X2: what the wrapped dispatcher does with a command.  The host's own
    dispatcher runs first.  For a command that is not one of the four
    search commands nothing else happens.  For a search command the
    processed marks of exactly the attached peripheral search leaves are
    cleared, every other mark stays, one redirection pass is queued with
    delay 0, and the baselines, timers and settings are not touched. *)
Theorem command_hook_effect (commandId : string) (w : World) :
  executeCommand (host w) = Some PluginHook ->
  originalExecuteCommand (plugin w) = Some HostExecute ->
  let w' := dispatchCommand commandId w in
  (commandId ∉ ["global-search:open"; "search-current-file"; "search:toggle"; "search:open"]
   -> w' = log (CExecuteCommand commandId) w)
  /\ (commandId ∈ ["global-search:open"; "search-current-file"; "search:toggle"; "search:open"]
      -> processedLeaves (plugin w')
         = processedLeaves (plugin w)
             ∖ list_to_set (peripheral w (getLeavesOfType "search" w))
         /\ calls (host w') = (calls (host w) ++ [CExecuteCommand commandId])%list
         /\ pending (host w') = (pending (host w) ++ [(0, TRedirectionPass)])%list
         /\ leafBaselineState (plugin w') = leafBaselineState (plugin w)
         /\ leafWatchIntervals (plugin w') = leafWatchIntervals (plugin w)
         /\ settings (plugin w') = settings (plugin w)
         /\ viewStates (host w') = viewStates (host w)
         /\ leaves (host w') = leaves (host w)).
Proof.
  intros Hx Ho w'. unfold w', dispatchCommand, executeCommandHook. rewrite Hx, Ho.
  split.
  - intros Hnot. destruct (isSearchCommand commandId) eqn:Hs.
    + by apply isSearchCommand_ids in Hs.
    + by rewrite andb_false_r.
  - intros Hin. assert (isSearchCommand commandId = true) as Hs
      by (by apply isSearchCommand_ids).
    destruct (String.eqb commandId "") eqn:He.
    { apply String.eqb_eq in He. subst. discriminate Hs. }
    rewrite Hs. simpl andb. cbv iota.
    destruct (sidebarOnly _ _) as [r w2] eqn:E.
    destruct (sidebarOnly_filter _ _ _ _ E) as [-> (Hh & [c Hp] & Hc)].
    cbn. rewrite Hh, Hp. cbn. repeat split; try reflexivity.
    do 2 f_equal. unfold peripheral, getLeavesOfType.
    apply filter_ext. intros l. f_equal. by apply classify_ext.
Qed.

Lemma command_hook_effect_witness :
  processedLeaves (plugin (dispatchCommand "global-search:open" Example.loaded_world))
  = processedLeaves (plugin Example.loaded_world)
      ∖ list_to_set (peripheral Example.loaded_world
                       (getLeavesOfType "search" Example.loaded_world)).
Proof.
  assert (executeCommand (host Example.loaded_world) = Some PluginHook) as H1
    by (vm_compute; reflexivity).
  assert (originalExecuteCommand (plugin Example.loaded_world) = Some HostExecute) as H2
    by (vm_compute; reflexivity).
  assert ("global-search:open"
            ∈ ["global-search:open"; "search-current-file"; "search:toggle"; "search:open"])
    as H3 by (apply list_elem_of_here).
  pose proof (command_hook_effect "global-search:open" Example.loaded_world H1 H2) as H.
  cbv zeta in H. destruct H as [_ H]. specialize (H H3). destruct H as [H _].
  exact H.
Defined.

(** X3: once [setupCommandInterception] runs while the dispatcher is
    already the plugin's wrapper (the settings toggle switched on a second
    time), the wrapper's "original" is the wrapper itself: no command
    dispatched afterwards reaches the host's dispatcher or changes
    anything, and [onunload] puts the wrapper back instead of the host's
    dispatcher, so the same holds after the plugin is unloaded. *)
Theorem second_setup_swallows_commands (w : World) (now : Z) (commandId : string) :
  executeCommand (host w) = Some PluginHook ->
  loaded (plugin w) = true ->
  let w' := step now (EvToggle "openBookmarksInMainArea" true) w in
  originalExecuteCommand (plugin w') = Some PluginHook
  /\ executeCommand (host w') = Some PluginHook
  /\ dispatchCommand commandId w' = w'
  /\ executeCommand (host (onunload w')) = Some PluginHook
  /\ dispatchCommand commandId (onunload w') = onunload w'.
Proof.
  intros Hx Hl w'.
  assert (originalExecuteCommand (plugin w') = Some PluginHook
          /\ executeCommand (host w') = Some PluginHook) as [Ho Hx'].
  { unfold w', step. rewrite Hl. unfold toggleSetting. simpl andb. cbv iota.
    unfold setupCommandInterception, saveSettings. cbn. by rewrite Hx. }
  clearbody w'.
  assert (executeCommand (host (onunload w')) = Some PluginHook) as Hu.
  { apply onunload_restores_executeCommand; [done|]. by rewrite Hx'. }
  split; [done|]. split; [done|]. split; [|split; [done|]].
  - unfold dispatchCommand, executeCommandHook. by rewrite Hx', Ho.
  - unfold dispatchCommand. rewrite Hu. unfold executeCommandHook.
    assert (originalExecuteCommand (plugin (onunload w')) = None) as ->; [|done].
    clear Hu. unfold onunload. cbv zeta.
    destruct (clear_intervals_frame (allIntervalIds (plugin w')) w') as [H1 H2].
    set (w1 := fold_left _ _ w') in *. clearbody w1.
    rewrite <- H1 in Ho. rewrite <- H2 in Hx'.
    repeat case_match; cbn in *; congruence.
Qed.

Lemma second_setup_swallows_commands_witness :
  dispatchCommand "global-search:open"
    (step 0 (EvToggle "openBookmarksInMainArea" true) Example.loaded_world)
  = step 0 (EvToggle "openBookmarksInMainArea" true) Example.loaded_world.
Proof.
  assert (executeCommand (host Example.loaded_world) = Some PluginHook) as H1
    by (vm_compute; reflexivity).
  assert (loaded (plugin Example.loaded_world) = true) as H2 by (vm_compute; reflexivity).
  pose proof (second_setup_swallows_commands Example.loaded_world 0
                "global-search:open" H1 H2) as H.
  cbv zeta in H. destruct H as (_ & _ & H & _). exact H.
Defined.

(** ** Startup cleanup *)

Lemma filter_none {A} (f : A -> bool) (l : list A) :
  (forall x, In x l -> f x = false) -> List.filter f l = [].
Proof.
  induction l as [|x l IH]; intros H; [done|]. cbn.
  rewrite (H x) by (by left). apply IH. intros y Hy. apply H. by right.
Qed.

Lemma detach_all (ps : list leaf) : forall w,
  let w' := fold_left (fun w l => host_detach l w) ps w in
  leaves (host w')
  = List.filter (fun l => negb (bool_decide (l ∈ ps))) (leaves (host w))
  /\ calls (host w') = (calls (host w) ++ map CDetach ps)%list
  /\ viewStates (host w') = viewStates (host w)
  /\ storage (host w') = storage (host w)
  /\ pending (host w') = pending (host w)
  /\ intervals (host w') = intervals (host w)
  /\ plugin w' = plugin w.
Proof.
  induction ps as [|p ps IH]; intros w; cbn.
  - rewrite app_nil_r. repeat split; try done.
    induction (leaves (host w)) as [|x xs IHx]; [done|]. cbn. by f_equal.
  - destruct (IH (host_detach p w)) as (H1 & H2 & H4 & H5 & H6 & H7 & H8).
    cbv zeta in H1, H2, H4, H5, H6, H7, H8.
    rewrite H1, H2, H4, H5, H6, H7, H8. cbn. repeat split; try done.
    + induction (leaves (host w)) as [|x xs IHx]; [done|]. cbn.
      destruct (Nat.eqb x p) eqn:E; cbn.
      * apply Nat.eqb_eq in E as ->. rewrite IHx.
        rewrite (bool_decide_eq_true_2 (p ∈ p :: ps)) by apply list_elem_of_here. done.
      * apply Nat.eqb_neq in E. rewrite IHx.
        destruct (bool_decide (x ∈ ps)) eqn:Ex.
        -- apply bool_decide_eq_true_1 in Ex.
           rewrite (bool_decide_eq_true_2 (x ∈ p :: ps))
             by (by apply list_elem_of_further). done.
        -- apply bool_decide_eq_false_1 in Ex.
           rewrite (bool_decide_eq_false_2 (x ∈ p :: ps))
             by (by intros [?|?]%elem_of_cons). done.
    + by rewrite <- app_assoc.
Qed.

(** X4: the startup cleanup detaches exactly the search leaves that are
    classified as peripheral, in workspace order, and nothing else: the
    search leaves of the main area and all other leaves stay attached, no
    view state, timer or stored setting changes, and the plugin's tables
    are as before up to the location cache. *)
Theorem startup_cleanup_detaches_sidebar_searches (w : World) :
  let gone := peripheral w (getLeavesOfType "search" w) in
  let w' := performStartupCleanup w in
  leaves (host w')
  = List.filter (fun l => negb (bool_decide (l ∈ gone))) (leaves (host w))
  /\ calls (host w') = (calls (host w) ++ map CDetach gone)%list
  /\ viewStates (host w') = viewStates (host w)
  /\ storage (host w') = storage (host w)
  /\ pending (host w') = pending (host w)
  /\ intervals (host w') = intervals (host w)
  /\ (exists c, plugin w' = p_leafLocationCache c (plugin w))
  /\ peripheral w (getLeavesOfType "search" w') = [].
Proof.
  intros gone w'. unfold w', performStartupCleanup.
  destruct (sidebarOnly _ _) as [r w1] eqn:E.
  destruct (sidebarOnly_filter _ _ _ _ E) as [-> (Hh & Hp & Hc)]. fold gone.
  destruct (detach_all gone w1) as (H1 & H2 & H4 & H5 & H6 & H7 & H8).
  cbv zeta in H1, H2, H4, H5, H6, H7, H8.
  rewrite H1, H2, H4, H5, H6, H7, H8, Hh. repeat split; try done.
  apply filter_none. intros l Hl.
  unfold getLeavesOfType, getViewType, getViewState in Hl. rewrite H1, H4, Hh in Hl.
  apply filter_In in Hl as [Hl Hty]. apply filter_In in Hl as [Hl Hng].
  destruct (classify l w) eqn:Hcl; [done|]. exfalso.
  apply negb_true_iff, bool_decide_eq_false_1 in Hng. apply Hng.
  apply list_elem_of_In. unfold gone, peripheral, getLeavesOfType.
  apply filter_In. split; [|by rewrite Hcl]. apply filter_In. by split.
Qed.

(** ** The redirection pass *)

(** What one redirection pass does, by cases on the peripheral search
    leaves. *)
Lemma handleSearchCommandExecution_effect (w : World) :
  let w' := handleSearchCommandExecution w in
  match peripheral w (getLeavesOfType "search" w) with
  | [] => cache_only w w'
  | target :: _ =>
      processedLeaves (plugin w') = {[target]} ∪ processedLeaves (plugin w)
      /\ (exists cs, calls (host w') = (calls (host w) ++ CHide target :: cs)%list
                     /\ Forall quiet_call cs)
      /\ (exists q, pending (host w') = (pending (host w) ++ q ++ [(10, TDetach target)])%list
                    /\ Forall (fun t => exists n, snd t = TFocusInput n) q)
      /\ leaves (host w') = (leaves (host w) ++ [nextLeaf (host w)])%list
      /\ (forall l, l <> nextLeaf (host w)
                    -> viewStates (host w') !! l = viewStates (host w) !! l)
      /\ settings (plugin w') = settings (plugin w)
      /\ storage (host w') = storage (host w)
  end.
Proof.
  intros w'. unfold w', handleSearchCommandExecution.
  destruct (sidebarOnly _ _) as [r w1] eqn:E.
  destruct (sidebarOnly_filter _ _ _ _ E) as [-> (Hh & [c Hp] & Hc)].
  destruct (peripheral w _) as [|target rest]; [by (split; [|split; [eexists|]])|].
  unfold redirectSidebarSearchToMainArea, createSearchTabInMainArea, host_getLeafTab.
  cbv zeta. cbn [fst snd].
  repeat case_match; cbn; rewrite ?Hh, ?Hp; cbn;
    (split; [done|]); rewrite <- ?app_assoc; cbn;
    (split; [eexists; split; [reflexivity|
               repeat (apply Forall_cons; split; [exact I|]); by apply Forall_nil]|]);
    (split; [first [ exists []; split; [reflexivity|by apply Forall_nil]
                   | eexists [_]; split; [reflexivity|
                       apply Forall_cons; split; [by eexists|by apply Forall_nil]] ]|]);
    (split; [done|]); (split; [|done]);
    intros l Hl; by rewrite ?lookup_insert_ne by done.
Qed.

(** X5: one redirection pass handles at most one leaf.  With no
    peripheral search leaf it only fills the location cache.  Otherwise it
    takes the first one in workspace order: that leaf is marked processed
    and hidden, one new leaf is added at the end of the workspace, and the
    leaf is detached only by a timer queued last; no leaf is detached by
    the pass itself, no existing leaf's view state changes, and nothing is
    saved. *)
Theorem redirection_pass_takes_first (w : World) :
  let w' := handleSearchCommandExecution w in
  match peripheral w (getLeavesOfType "search" w) with
  | [] => cache_only w w'
  | target :: _ =>
      processedLeaves (plugin w') = {[target]} ∪ processedLeaves (plugin w)
      /\ (exists cs, calls (host w') = (calls (host w) ++ CHide target :: cs)%list
                     /\ Forall quiet_call cs)
      /\ (exists q, pending (host w') = (pending (host w) ++ q ++ [(10, TDetach target)])%list
                    /\ Forall (fun t => exists n, snd t = TFocusInput n) q)
      /\ leaves (host w') = (leaves (host w) ++ [nextLeaf (host w)])%list
      /\ (forall l, l <> nextLeaf (host w)
                    -> viewStates (host w') !! l = viewStates (host w) !! l)
      /\ settings (plugin w') = settings (plugin w)
      /\ storage (host w') = storage (host w)
  end.
Proof.
  intros w'. unfold w', handleSearchCommandExecution.
  destruct (sidebarOnly _ _) as [r w1] eqn:E.
  destruct (sidebarOnly_filter _ _ _ _ E) as [-> (Hh & [c Hp] & Hc)].
  destruct (peripheral w _) as [|target rest]; [by (split; [|split; [eexists|]])|].
  unfold redirectSidebarSearchToMainArea, createSearchTabInMainArea, host_getLeafTab.
  cbv zeta. cbn [fst snd].
  repeat case_match; cbn; rewrite ?Hh, ?Hp; cbn;
    (split; [done|]); rewrite <- ?app_assoc; cbn;
    (split; [eexists; split; [reflexivity|
               repeat (apply Forall_cons; split; [exact I|]); by apply Forall_nil]|]);
    (split; [first [ exists []; split; [reflexivity|by apply Forall_nil]
                   | eexists [_]; split; [reflexivity|
                       apply Forall_cons; split; [by eexists|by apply Forall_nil]] ]|]);
    (split; [done|]); (split; [|done]);
    intros l Hl; by rewrite ?lookup_insert_ne by done.
Qed.

#[local] Set Warnings "-clear-no-such-hyp".

(** ** Wrapping of [setViewState] *)

Lemma monitorLeafViewState_classify l x w :
  classify l (monitorLeafViewState x w) = classify l w.
Proof.
  apply classify_ext; unfold monitorLeafViewState; by case_bool_decide.
Qed.

Lemma reset_marks (a b : gset leaf) (c : gmap leaf bool) (w w' : World) :
  on_host (fun h => h_setViewStateHooked a (h_viewStateMonitored b h)) w'
  = on_plugin (p_leafLocationCache c) w ->
  forall a' b',
    on_host (fun h => h_setViewStateHooked a' (h_viewStateMonitored b' h)) w'
    = on_host (fun h => h_setViewStateHooked a' (h_viewStateMonitored b' h))
        (on_plugin (p_leafLocationCache c) w).
Proof.
  intros H a' b'. rewrite <- H. by destruct w' as [? []].
Qed.

Lemma monitorSidebarLeaves_fold (ls : list leaf) : forall w,
  let w' :=
    fold_left
      (fun w l =>
         let '(inMain, w1) := isInMainArea l w in
         if inMain then w1 else monitorLeafViewState l w1) ls w in
  setViewStateHooked (host w')
  = setViewStateHooked (host w)
      ∪ (list_to_set (peripheral w ls) ∖ viewStateMonitored (host w))
  /\ viewStateMonitored (host w')
     = viewStateMonitored (host w) ∪ list_to_set (peripheral w ls)
  /\ (forall l, classify l w' = classify l w)
  /\ on_host (fun h => h_setViewStateHooked (setViewStateHooked (host w))
                         (h_viewStateMonitored (viewStateMonitored (host w)) h)) w'
     = on_plugin (p_leafLocationCache (leafLocationCache (plugin w'))) w.
Proof.
  induction ls as [|x ls IH]; intros w.
  - cbn. split; [set_solver|]. split; [set_solver|]. split; [done|].
    by destruct w as [[] []].
  - cbv zeta. cbn [fold_left]. destruct (isInMainArea x w) as [b w1] eqn:E1.
    destruct (isInMainArea_cache_only _ _ _ _ E1) as [-> (Hh & [c Hp] & Hc)].
    set (w2 := if classify x w then w1 else monitorLeafViewState x w1).
    assert (forall l, classify l w2 = classify l w) as Hc2.
    { intros l. unfold w2. destruct (classify x w); [done|].
      by rewrite monitorLeafViewState_classify. }
    destruct (IH w2) as (H1 & H2 & H3 & H4). cbv zeta in H1, H2, H3, H4.
    assert (peripheral w2 ls = peripheral w ls) as Hper.
    { unfold peripheral. apply filter_ext. intros l. by rewrite Hc2. }
    rewrite Hper in H1, H2. rewrite H1, H2.
    assert (peripheral w (x :: ls)
            = if classify x w then peripheral w ls else x :: peripheral w ls) as ->.
    { unfold peripheral. cbn. by destruct (classify x w). }
    split; [|split; [|split]].
    + unfold w2. destruct (classify x w); cbn; [by rewrite Hh|].
      unfold monitorLeafViewState. case_bool_decide as Hm; cbn; rewrite Hh in *;
        clear -Hm; apply set_eq; intros y; set_unfold;
        destruct (decide (y = x)); naive_solver.
    + unfold w2. destruct (classify x w); cbn; [by rewrite Hh|].
      unfold monitorLeafViewState. case_bool_decide as Hm; cbn; rewrite Hh in *;
        clear -Hm; apply set_eq; intros y; set_unfold;
        destruct (decide (y = x)); naive_solver.
    + intros l. by rewrite H3.
    + rewrite (reset_marks _ _ _ _ _ H4). unfold w2.
      destruct w as [pw hw], w1 as [pw1 hw1]. cbn in Hh, Hp. subst hw1 pw1.
      destruct (classify x _); [|unfold monitorLeafViewState; case_bool_decide];
        by destruct pw, hw.
Qed.

(** X6: [setupViewStateMonitoring] wraps [setViewState] of exactly the
    attached leaves that are classified as peripheral and were not wrapped
    before, marks each of them as monitored, and registers the layout
    handler; apart from these marks and the location cache the world is
    unchanged, and running it a second time wraps nothing more. *)
Theorem view_state_monitoring_wraps_sidebar (w : World) :
  let side : gset leaf := list_to_set (peripheral w (leaves (host w))) in
  let w' := setupViewStateMonitoring w in
  setViewStateHooked (host w')
  = setViewStateHooked (host w) ∪ (side ∖ viewStateMonitored (host w))
  /\ viewStateMonitored (host w') = viewStateMonitored (host w) ∪ side
  /\ viewStateLayoutHandler (plugin w') = true
  /\ (forall l, classify l w' = classify l w)
  /\ on_host (fun h => h_setViewStateHooked (setViewStateHooked (host w))
                         (h_viewStateMonitored (viewStateMonitored (host w)) h)) w'
     = on_plugin (fun p => p_viewStateLayoutHandler true
                             (p_leafLocationCache (leafLocationCache (plugin w')) p)) w
  /\ setViewStateHooked (host (setupViewStateMonitoring w'))
     = setViewStateHooked (host w').
Proof.
  intros side w'.
  assert (forall v, setViewStateHooked (host (setupViewStateMonitoring v))
            = setViewStateHooked (host v)
                ∪ (list_to_set (peripheral v (leaves (host v))) ∖ viewStateMonitored (host v))
          /\ viewStateMonitored (host (setupViewStateMonitoring v))
             = viewStateMonitored (host v) ∪ list_to_set (peripheral v (leaves (host v)))
          /\ (forall l, classify l (setupViewStateMonitoring v) = classify l v)
          /\ leaves (host (setupViewStateMonitoring v)) = leaves (host v)
          /\ on_host (fun h => h_setViewStateHooked (setViewStateHooked (host v))
                         (h_viewStateMonitored (viewStateMonitored (host v)) h))
               (setupViewStateMonitoring v)
             = on_plugin (fun p => p_viewStateLayoutHandler true
                 (p_leafLocationCache
                    (leafLocationCache (plugin (setupViewStateMonitoring v))) p)) v) as Hs.
  { intros v. unfold setupViewStateMonitoring, monitorSidebarLeaves.
    destruct (monitorSidebarLeaves_fold (leaves (host v)) v) as (H1 & H2 & H3 & H4).
    cbv zeta in H1, H2, H3, H4. revert H1 H2 H3 H4.
    set (v3 := fold_left _ _ v). clearbody v3. intros H1 H2 H3 H4.
    split; [done|]. split; [done|]. split.
    { intros l. rewrite <- H3. by apply classify_ext. }
    split.
    - apply (f_equal (fun w => leaves (host w))) in H4. by destruct v3 as [? []].
    - change (on_plugin (p_viewStateLayoutHandler true)
                (on_host (fun h => h_setViewStateHooked (setViewStateHooked (host v))
                   (h_viewStateMonitored (viewStateMonitored (host v)) h)) v3)
              = on_plugin (fun p => p_viewStateLayoutHandler true
                   (p_leafLocationCache (leafLocationCache (plugin v3)) p)) v).
      by rewrite H4. }
  destruct (Hs w) as (H1 & H2 & H3 & H4 & H5). fold w' in H1, H2, H3, H4, H5.
  split; [done|]. split; [done|]. split; [done|]. split; [done|]. split; [done|].
  destruct (Hs w') as (G1 & _). rewrite G1, H2, H4.
  assert (peripheral w' (leaves (host w)) = peripheral w (leaves (host w))) as ->.
  { unfold peripheral. apply filter_ext. intros l. by rewrite H3. }
  fold side. set_solver.
Qed.

Lemma to_string_query (q : string) : to_string (or_else (VStr q) (VStr "")) = q.
Proof. by destruct q. Qed.

(** X7: what a wrapped [setViewState] does.  A request to show a search
    view in a leaf classified as peripheral, made after the grace period
    with redirection switched on, is swallowed: the leaf's own view state is
    not touched, and a new leaf is opened instead whose state agrees with
    the requested one on every property (the query being a string or
    absent).  Every other request reaches the host's [setViewState]
    unchanged; the only trace of the wrapper is the location cache. *)
Theorem wrapper_intercepts_sidebar_search (now : Z) (l : leaf) (vs : ViewState)
    (w : World) :
  l ∈ setViewStateHooked (host w) ->
  l <> nextLeaf (host w) ->
  let w' := setViewState now l vs w in
  let n := nextLeaf (host w) in
  if String.eqb (vs_type vs) "search" && negb (classify l w)
     && negb (isInInitializationGracePeriod now w)
     && Settings.openBookmarksInMainArea (the_settings w)
  then
    (forall l', l' <> n -> viewStates (host w') !! l' = viewStates (host w) !! l')
    /\ leaves (host w') = (leaves (host w) ++ [n])%list
    /\ Forall (fun c => forall vs', c <> CSetViewState l vs')
         (drop (List.length (calls (host w))) (calls (host w')))
    /\ (forall ps, or_else (vs_state vs) (VObj []) = VObj ps ->
          (get (VObj ps) "query" = VUndefined \/ exists q, get (VObj ps) "query" = VStr q) ->
          vs_type (getViewState w' n) = "search"
          /\ forall k, get (vs_state (getViewState w' n)) k = get (vs_state vs) k)
  else cache_only (host_setViewState l vs w) w'.
Proof.
  intros Hin Hnl w' n. unfold w', setViewState. rewrite bool_decide_eq_true_2 by done.
  unfold setViewStateHook. destruct (isInMainArea l w) as [b w1] eqn:E.
  destruct (isInMainArea_cache_only _ _ _ _ E) as [-> (Hh & [c Hp] & Hc)].
  assert (isInInitializationGracePeriod now w1 = isInInitializationGracePeriod now w) as ->.
  { unfold isInInitializationGracePeriod. by rewrite Hp. }
  assert (the_settings w1 = the_settings w) as Hs.
  { unfold the_settings. by rewrite Hp. }
  rewrite Hs.
  destruct (_ && _ && _ && _) eqn:Hcond.
  - unfold createSearchTabInMainArea, host_getLeafTab. cbv zeta. rewrite Hh. fold n.
    split; [|split; [|split]].
    + intros l' Hl'. repeat case_match; cbn; rewrite ?Hh; cbn;
        by rewrite ?lookup_insert_ne by done.
    + repeat case_match; cbn; by rewrite ?Hh.
    + repeat case_match; cbn; rewrite ?Hh; cbn; rewrite <- ?app_assoc;
        rewrite drop_app_length; cbn;
        repeat (apply Forall_cons; split;
                  [intros ? Heq; first [discriminate Heq|injection Heq as Hn _; by apply Hnl]|]);
        by apply Forall_nil.
    + intros ps Hps Hq.
      assert (or_else (VObj ps) (VObj []) = VObj ps) as Hps' by done.
      rewrite Hps, Hps'.
      assert (forall k, get (VObj ps) k = get (vs_state vs) k) as Hget.
      { intros k. by rewrite <- Hps, get_or_else_empty. }
      unfold getViewState.
      destruct Hq as [Hq|[q Hq]]; rewrite Hq, ?to_string_query; cbn.
      * repeat case_match; simplify_eq; cbn; rewrite ?lookup_insert_eq; cbn;
          (split; [done|]); apply Hget.
      * repeat case_match; simplify_eq; cbn; rewrite ?lookup_insert_eq; cbn;
          (split; [done|]); try apply Hget;
          intros k; rewrite <- Hget; cbn; rewrite assoc_assign;
          destruct (String.eqb k "query") eqn:Ek; try done;
          apply String.eqb_eq in Ek; subst k; cbn in Hq; by rewrite Hq.
  - split; [|split].
    + unfold host_setViewState. cbn. by rewrite Hh.
    + exists c. unfold host_setViewState. cbn. by rewrite Hp.
    + intros l'. rewrite (classify_ext l' w1 (host_setViewState l vs w1)) by done.
      rewrite Hc. symmetry. by apply classify_ext.
Qed.

Lemma wrapper_intercepts_sidebar_search_witness :
  viewStates (host (setViewState 1005000 10%nat
                      (Example.search_view (VObj [("query", VStr "urgent")]))
                      Example.loaded_world)) !! 10%nat
  = viewStates (host Example.loaded_world) !! 10%nat.
Proof.
  assert (10%nat ∈ setViewStateHooked (host Example.loaded_world)) as H1
    by (apply (bool_decide_unpack (10%nat ∈ setViewStateHooked (host Example.loaded_world)));
        vm_compute; exact I).
  assert (10%nat <> nextLeaf (host Example.loaded_world)) as H2
    by (vm_compute; discriminate).
  pose proof (wrapper_intercepts_sidebar_search 1005000 10%nat
                (Example.search_view (VObj [("query", VStr "urgent")]))
                Example.loaded_world H1 H2) as H.
  cbv zeta in H.
  assert (String.eqb (vs_type (Example.search_view (VObj [("query", VStr "urgent")])))
            "search"
          && negb (classify 10%nat Example.loaded_world)
          && negb (isInInitializationGracePeriod 1005000 Example.loaded_world)
          && Settings.openBookmarksInMainArea (the_settings Example.loaded_world) = true)
    as Hc by (vm_compute; reflexivity).
  rewrite Hc in H. destruct H as [H _]. apply H. vm_compute. discriminate.
Defined.

(** ** The polling task *)

Lemma sanitize_after_save (v st : value) (w : World) :
  sanitize (set_lastSearchState v w) st = sanitize w st.
Proof.
  unfold sanitize, the_settings, Settings.rememberQuery, Settings.field. cbn.
  by rewrite lookup_insert_ne.
Qed.

(** X8: a tick that finds its leaf no longer showing a search view retires
    the polling task: the timer is cleared, the leaf's timer, baseline and
    creation-time entries are deleted, the processed mark and the settings
    stay, every other timer is kept, and no later tick of that timer does
    anything. *)
Theorem polling_task_retires_itself (now : Z) (id : nat) (l : leaf) (w : World) :
  intervals (host w) !! id = Some l ->
  leafWatchIntervals (plugin w) !! l = Some id ->
  getViewType w l <> "search" ->
  let w' := step now (EvTick id) w in
  intervals (host w') = delete id (intervals (host w))
  /\ leafWatchIntervals (plugin w') = delete l (leafWatchIntervals (plugin w))
  /\ leafBaselineState (plugin w') = delete l (leafBaselineState (plugin w))
  /\ leafCreationTime (plugin w') = delete l (leafCreationTime (plugin w))
  /\ processedLeaves (plugin w') = processedLeaves (plugin w)
  /\ settings (plugin w') = settings (plugin w)
  /\ storage (host w') = storage (host w)
  /\ calls (host w') = (calls (host w) ++ [CClearInterval id])%list
  /\ forall now', step now' (EvTick id) w' = w'.
Proof.
  intros Hi Hw Hty w'. unfold w', step. rewrite Hi. unfold monitor.
  apply String.eqb_neq in Hty. rewrite Hty. cbn [negb].
  unfold cleanupLeafTracking. rewrite Hw. cbn.
  repeat split. intros now'. by rewrite lookup_delete_eq.
Qed.

Lemma polling_task_retires_itself_witness :
  intervals (host (step 1003000 (EvTick 1%nat) Scenario2.view_replaced))
  = delete 1%nat (intervals (host Scenario2.view_replaced)).
Proof.
  assert (intervals (host Scenario2.view_replaced) !! 1%nat = Some 10%nat) as H1
    by (vm_compute; reflexivity).
  assert (leafWatchIntervals (plugin Scenario2.view_replaced) !! 10%nat = Some 1%nat) as H2
    by (vm_compute; reflexivity).
  assert (getViewType Scenario2.view_replaced 10%nat <> "search") as H3
    by (vm_compute; discriminate).
  pose proof (polling_task_retires_itself 1003000 1%nat 10%nat Scenario2.view_replaced
                H1 H2 H3) as H.
  cbv zeta in H. destruct H as [H _]. exact H.
Defined.

(** X9: a tick after the immunity period on a search leaf with a recorded,
    non-empty baseline.  If the sanitized state of the leaf serialises to
    the baseline, the tick changes nothing.  Otherwise it stores the
    sanitized state as [lastSearchState], writes the settings to disk once,
    moves the baseline to the new serialisation, leaves every other setting
    and every other leaf's baseline alone, and every later tick that finds
    the same view state changes nothing. *)
Theorem tick_saves_a_change_once (now : Z) (l : leaf) (b : string) (w : World) :
  getViewType w l = "search" ->
  2000 <= now - default 0 (leafCreationTime (plugin w) !! l) ->
  truthy (nullish_to_null (vs_state (getViewState w l))) = true ->
  leafBaselineState (plugin w) !! l = Some b ->
  b <> "" ->
  let cur := sanitize w (nullish_to_null (vs_state (getViewState w l))) in
  let w' := monitor now l w in
  (stringify cur = Some b -> w' = w)
  /\ (stringify cur <> Some b ->
      the_settings w' = <["lastSearchState" := cur]> (the_settings w)
      /\ storage (host w') = Some (the_settings w')
      /\ calls (host w') = (calls (host w) ++ [CSaveData (the_settings w')])%list
      /\ leafBaselineState (plugin w') !! l = stringify cur
      /\ (forall l', l' <> l ->
            leafBaselineState (plugin w') !! l' = leafBaselineState (plugin w) !! l')
      /\ viewStates (host w') = viewStates (host w)
      /\ forall now', now <= now' -> monitor now' l w' = w').
Proof.
  intros Hty Himm Htr Hb Hne cur w'. unfold w', monitor.
  apply String.eqb_eq in Hty. rewrite Hty. cbn [negb].
  assert (Z.ltb (now - default 0 (leafCreationTime (plugin w) !! l)) 2000 = false) as Hi
    by (by apply Z.ltb_ge).
  cbv zeta. rewrite Hi, Htr, Hb. fold cur.
  assert (truthy_str (Some b) = true) as Hts.
  { cbn. apply negb_true_iff. by apply String.eqb_neq. }
  rewrite Hts, andb_true_r. split.
  - intros Heq. by rewrite bool_decide_eq_true_2.
  - intros Hneq. rewrite bool_decide_eq_false_2 by done. cbn [negb].
    unfold saveSettings, set_lastSearchState, set_baseline, the_settings, log.
    assert (exists s, stringify cur = Some s) as [s Hs].
    { unfold cur, sanitize, sanitizeSearchStateForPersistence.
      destruct (nullish_to_null _) as [| | | | |props]; try done; cbn in *;
        repeat case_match; by eexists. }
    rewrite Hs. cbn. repeat split.
    + by rewrite lookup_insert_eq.
    + intros l' Hl'. by rewrite lookup_insert_ne.
    + intros now' Hle. unfold getViewType, getViewState in *. cbn.
      rewrite Hty. cbn [negb].
      assert (Z.ltb (now' - default 0 (leafCreationTime (plugin w) !! l)) 2000 = false)
        as -> by (apply Z.ltb_ge; lia).
      rewrite Htr, lookup_insert_eq.
      match goal with
      | |- context [bool_decide (?a = ?b)] =>
          assert (a = b) as Hab; [|by rewrite (bool_decide_eq_true_2 _ Hab)]
      end.
      rewrite <- Hs. unfold cur. f_equal. unfold sanitize, the_settings. cbn.
      unfold Settings.rememberQuery, Settings.field. by rewrite lookup_insert_ne.
Qed.

Lemma tick_saves_a_change_once_witness :
  storage (host (monitor 1003000 12%nat Scenario.reprocessed_in_grace))
  = Some (the_settings (monitor 1003000 12%nat Scenario.reprocessed_in_grace)).
Proof.
  set (b := default EmptyString
              (leafBaselineState (plugin Scenario.reprocessed_in_grace) !! 12%nat)).
  assert (getViewType Scenario.reprocessed_in_grace 12%nat = "search") as H1
    by (vm_compute; reflexivity).
  assert (2000 <= 1003000 - default 0 (leafCreationTime
                                         (plugin Scenario.reprocessed_in_grace) !! 12%nat))
    as H2 by (vm_compute; discriminate).
  assert (truthy (nullish_to_null
                    (vs_state (getViewState Scenario.reprocessed_in_grace 12%nat))) = true)
    as H3 by (vm_compute; reflexivity).
  assert (leafBaselineState (plugin Scenario.reprocessed_in_grace) !! 12%nat = Some b) as H4
    by (vm_compute; reflexivity).
  assert (b <> "") as H5 by (vm_compute; discriminate).
  assert (stringify (sanitize Scenario.reprocessed_in_grace
                       (nullish_to_null
                          (vs_state (getViewState Scenario.reprocessed_in_grace 12%nat))))
          <> Some b) as H6 by (vm_compute; discriminate).
  pose proof (tick_saves_a_change_once 1003000 12%nat b Scenario.reprocessed_in_grace
                H1 H2 H3 H4 H5) as H.
  cbv zeta in H. destruct H as [_ H]. destruct (H H6) as (_ & H' & _). exact H'.
Defined.

(** ** Writes of the plugin itself are not taken for edits *)

Lemma startIntelligentMonitoring_obs (l : leaf) (w : World) :
  let w' := startIntelligentMonitoring l w in
  leafBaselineState (plugin w') = leafBaselineState (plugin w)
  /\ viewStates (host w') = viewStates (host w)
  /\ settings (plugin w') = settings (plugin w)
  /\ storage (host w') = storage (host w).
Proof. unfold startIntelligentMonitoring. by case_bool_decide. Qed.

Lemma monitor_quiet (t : Z) (l : leaf) (w : World) :
  leafBaselineState (plugin w) !! l = None
  \/ stringify (sanitize w (nullish_to_null (vs_state (getViewState w l))))
     = leafBaselineState (plugin w) !! l ->
  settings (plugin (monitor t l w)) = settings (plugin w)
  /\ storage (host (monitor t l w)) = storage (host w).
Proof.
  intros HQ. unfold monitor. destruct (String.eqb (getViewType w l) "search"); cbn [negb].
  - cbv zeta. destruct (Z.ltb _ 2000); [done|]. destruct (truthy _); [|done].
    destruct HQ as [HQ|HQ].
    + by rewrite HQ, andb_false_r.
    + by rewrite bool_decide_eq_true_2.
  - unfold cleanupLeafTracking. by destruct (leafWatchIntervals (plugin w) !! l).
Qed.

(** X10: processing a search leaf that has no baseline never leads the
    polling task to save by itself.  Whatever the mode (grace period,
    redirection, nothing remembered, remembered state applied) and whenever
    the next tick comes, a tick that follows [processNewSearchLeaf] directly
    leaves the settings and the stored data as they were: the baseline
    recorded by [applySettingsToNewLeaf] is the serialisation of the state
    it has just written to the leaf. *)
Theorem own_write_is_not_saved (now t : Z) (l : leaf) (w : World) :
  leafBaselineState (plugin w) !! l = None ->
  let w1 := processNewSearchLeaf now l w in
  settings (plugin (monitor t l w1)) = settings (plugin w)
  /\ storage (host (monitor t l w1)) = storage (host w).
Proof.
  intros Hb w1.
  assert ((leafBaselineState (plugin w1) !! l = None
           \/ stringify (sanitize w1 (nullish_to_null (vs_state (getViewState w1 l))))
              = leafBaselineState (plugin w1) !! l)
          /\ settings (plugin w1) = settings (plugin w)
          /\ storage (host w1) = storage (host w)) as (HQ & Hs & Hst).
  { unfold w1, processNewSearchLeaf. cbv zeta.
    set (w2 := on_plugin _ (on_plugin _ w)).
    assert (leafBaselineState (plugin w2) !! l = None) as Hb2 by done.
    assert (settings (plugin w2) = settings (plugin w)) as Hs2 by done.
    assert (storage (host w2) = storage (host w)) as Hst2 by done.
    assert (forall v, (isInInitializationGracePeriod now v = true
                       \/ (Settings.openBookmarksInMainArea (the_settings v)
                           && negb (classify l v)) = false) ->
              leafBaselineState (plugin v) !! l = None ->
              let v' := startIntelligentMonitoring l
                          (if truthy (Settings.lastSearchState (the_settings v))
                           then applySettingsToNewLeaf now l v else v) in
              (leafBaselineState (plugin v') !! l = None
               \/ stringify (sanitize v' (nullish_to_null (vs_state (getViewState v' l))))
                  = leafBaselineState (plugin v') !! l)
              /\ settings (plugin v') = settings (plugin v)
              /\ storage (host v') = storage (host v)) as Hcont.
    { intros v Hpass Hbv v'.
      destruct (startIntelligentMonitoring_obs l
                  (if truthy (Settings.lastSearchState (the_settings v))
                   then applySettingsToNewLeaf now l v else v)) as (S1 & S2 & S3 & S4).
      fold v' in S1, S2, S3, S4.
      unfold sanitize, the_settings, getViewState. rewrite S1, S2, S3, S4.
      destruct (truthy (Settings.lastSearchState (the_settings v))); [|by split; [left|]].
      unfold applySettingsToNewLeaf. cbv zeta.
      set (desired := if Settings.rememberQuery (the_settings v) then _ else _).
      set (newState := {| vs_type := _; vs_active := _; vs_state := desired |}).
      assert (exists c, setViewState now l newState v
                        = host_setViewState l newState
                            (on_plugin (p_leafLocationCache c) v)) as [c ->].
      { unfold setViewState. case_bool_decide.
        - unfold setViewStateHook. destruct (isInMainArea l v) as [b v1] eqn:E.
          destruct (isInMainArea_cache_only _ _ _ _ E) as [-> (Hh & [c Hp] & Hc)].
          assert (v1 = on_plugin (p_leafLocationCache c) v) as ->.
          { destruct v, v1. cbn in *. by subst. }
          exists c.
          assert (isInInitializationGracePeriod now (on_plugin (p_leafLocationCache c) v)
                  = isInInitializationGracePeriod now v) as -> by done.
          assert (the_settings (on_plugin (p_leafLocationCache c) v) = the_settings v)
            as -> by done.
          destruct Hpass as [->|Hpass]; [by rewrite andb_false_r|].
          rewrite andb_comm in Hpass.
          destruct (negb (classify l v)), (Settings.openBookmarksInMainArea _);
            cbn in Hpass; try done; by rewrite ?andb_false_r.
        - exists (leafLocationCache (plugin v)). by destruct v as [[] ?]. }
      cbn. rewrite lookup_insert_eq. cbn.
      split; [|done]. right.
      assert (nullish_to_null desired = desired) as ->.
      { unfold desired. by destruct (Settings.rememberQuery _). }
      unfold set_baseline. cbn.
      destruct (stringify _) eqn:Hstr; cbn.
      - by rewrite lookup_insert_eq.
      - exfalso. revert Hstr. unfold desired, sanitize, sanitizeSearchStateForPersistence.
        by repeat case_match. }
    destruct (isInInitializationGracePeriod now w2) eqn:Hg.
    - destruct (Hcont w2 (or_introl Hg) Hb2) as (? & ? & ?). split; [done|]. split; congruence.
    - destruct (isInMainArea l w2) as [b w3] eqn:E.
      destruct (isInMainArea_cache_only _ _ _ _ E) as [-> (Hh & [c Hp] & Hc)].
      assert (the_settings w3 = the_settings w2) as Hs3 by (unfold the_settings; by rewrite Hp).
      assert (leafBaselineState (plugin w3) !! l = None) as Hb3 by (by rewrite Hp).
      destruct (Settings.openBookmarksInMainArea (the_settings w3) && negb (classify l w2))
        eqn:Hred.
      + unfold triggerRedirection.
        destruct (shouldPreventDuplicateRedirection now w3); cbn;
          rewrite ?Hp, ?Hh; cbn; (split; [by left|by split]).
      + rewrite <- (Hc l) in Hred.
        destruct (Hcont w3 (or_intror Hred) Hb3) as (? & H' & H'').
        split; [done|]. rewrite H', H''. unfold the_settings in Hs3.
        rewrite Hh. split; congruence. }
  destruct (monitor_quiet t l w1 HQ) as [M1 M2]. split; congruence.
Qed.

Lemma own_write_is_not_saved_witness :
  settings (plugin (monitor 1006000 13%nat
                      (processNewSearchLeaf 1003000 13%nat Scenario.main_search_opened)))
  = settings (plugin Scenario.main_search_opened).
Proof.
  assert (leafBaselineState (plugin Scenario.main_search_opened) !! 13%nat = None) as H1
    by (vm_compute; reflexivity).
  pose proof (own_write_is_not_saved 1003000 1006000 13%nat Scenario.main_search_opened H1)
    as H.
  cbv zeta in H. destruct H as [H _]. exact H.
Defined.

Lemma omit_assign (k : string) (x : value) (ps : list (string * value)) :
  omit k (assign k x ps) = omit k ps.
Proof.
  unfold omit. induction ps as [|[k' y] ps IH]; cbn.
  - by rewrite String.eqb_refl.
  - destruct (String.eqb k' k) eqn:E; cbn; rewrite E; cbn; [done|by rewrite IH].
Qed.

(** X11: with [rememberQuery] off the polling task does not see the query.
    On a search leaf whose baseline is the serialisation of its sanitized
    state, an edit that only sets the [query] property, to whatever value,
    is never saved: every later tick leaves the world as it is. *)
Theorem query_edit_is_not_saved (l : leaf) (ps : list (string * value)) (q : value)
    (now : Z) (w : World) :
  Settings.rememberQuery (the_settings w) = false ->
  getViewType w l = "search" ->
  vs_state (getViewState w l) = VObj ps ->
  leafBaselineState (plugin w) !! l = stringify (sanitize w (VObj ps)) ->
  let w' := host_step (HEditState l (VObj (assign "query" q ps))) w in
  monitor now l w' = w'.
Proof.
  intros Hrq Hty Hst Hb w'. unfold monitor.
  assert (getViewState w' l
          = {| vs_type := vs_type (getViewState w l);
               vs_active := vs_active (getViewState w l);
               vs_state := VObj (assign "query" q ps) |}) as Hvs.
  { unfold w', getViewState. cbn. by rewrite lookup_insert_eq. }
  unfold getViewType in *. rewrite Hvs. cbn [vs_type vs_state]. rewrite Hty. cbn [negb].
  cbv zeta. destruct (Z.ltb _ 2000); [done|]. cbn [nullish_to_null truthy].
  assert (sanitize w' (VObj (assign "query" q ps)) = sanitize w (VObj ps)) as ->.
  { unfold sanitize. change (the_settings w') with (the_settings w). rewrite Hrq.
    unfold sanitizeSearchStateForPersistence. cbn. by rewrite omit_assign. }
  change (leafBaselineState (plugin w')) with (leafBaselineState (plugin w)).
  by rewrite Hb, bool_decide_eq_true_2.
Qed.

Lemma query_edit_is_not_saved_witness :
  monitor 1004000 12%nat
    (host_step (HEditState 12%nat
                  (VObj (assign "query" (VStr "other")
                           [("query", VStr "urgent"); ("sort", VStr "byModified")])))
       Scenario.ticked_after_edit)
  = host_step (HEditState 12%nat
                 (VObj (assign "query" (VStr "other")
                          [("query", VStr "urgent"); ("sort", VStr "byModified")])))
      Scenario.ticked_after_edit.
Proof.
  assert (Settings.rememberQuery (the_settings Scenario.ticked_after_edit) = false) as H1
    by (vm_compute; reflexivity).
  assert (getViewType Scenario.ticked_after_edit 12%nat = "search") as H2
    by (vm_compute; reflexivity).
  assert (vs_state (getViewState Scenario.ticked_after_edit 12%nat)
          = VObj [("query", VStr "urgent"); ("sort", VStr "byModified")]) as H3
    by (vm_compute; reflexivity).
  assert (leafBaselineState (plugin Scenario.ticked_after_edit) !! 12%nat
          = stringify (sanitize Scenario.ticked_after_edit
                         (VObj [("query", VStr "urgent"); ("sort", VStr "byModified")])))
    as H4 by (vm_compute; reflexivity).
  pose proof (query_edit_is_not_saved 12%nat _ (VStr "other") 1004000
                Scenario.ticked_after_edit H1 H2 H3 H4) as H.
  cbv zeta in H. exact H.
Defined.

(** ** Saving and reopening *)

(** X12: save, then reopen.  After "save current search state" on a
    workspace whose chosen search view reports an object, "open pinned
    search" creates a new leaf showing a search view whose state agrees with
    the saved view on every property but the query; the query is the saved
    one when [rememberQuery] is on and the empty string when it is off.  The
    stored data then equal the settings in memory. *)
Theorem save_then_open_restores (ps : list (string * value)) (w : World) :
  getAnySearchState w = VObj ps ->
  let w1 := saveCurrentSearchState w in
  let w2 := openPinnedSearchWithLastState w1 in
  let opened := getViewState w2 (nextLeaf (host w)) in
  vs_type opened = "search"
  /\ (forall k, k <> "query" -> get (vs_state opened) k = get (VObj ps) k)
  /\ get (vs_state opened) "query"
     = (if Settings.rememberQuery (the_settings w) then get (VObj ps) "query" else VStr "")
  /\ leaves (host w2) = (leaves (host w) ++ [nextLeaf (host w)])%list
  /\ storage (host w2) = Some (the_settings w2)
  /\ Settings.lastSearchState (the_settings w2) = sanitize w (VObj ps).
Proof.
  intros Hst w1 w2 opened.
  unfold opened, w2, w1, saveCurrentSearchState. rewrite Hst. cbn [truthy].
  unfold openPinnedSearchWithLastState, host_getLeafTab. cbv zeta.
  unfold getViewState, saveSettings, set_lastSearchState, the_settings, sanitize,
    Settings.lastSearchState, Settings.rememberQuery, Settings.autoPinSearchTab,
    Settings.field, sanitizeSearchStateForPersistence.
  cbn. rewrite !lookup_insert_eq, !lookup_insert_ne by done. cbn.
  destruct (truthy (default VUndefined (settings (plugin w) !! "rememberQuery"))) eqn:Hrq;
    destruct (truthy (default VUndefined (settings (plugin w) !! "autoPinSearchTab")));
    cbn; rewrite ?lookup_insert_eq; cbn; unfold the_settings; rewrite ?Hrq; cbn;
    repeat split; try done;
    try (intros k Hk; rewrite assoc_assign, assoc_omit;
         apply String.eqb_neq in Hk; by rewrite Hk);
    by rewrite assoc_assign.
Qed.

Lemma save_then_open_restores_witness :
  vs_type (getViewState
             (openPinnedSearchWithLastState (saveCurrentSearchState Example.loaded_world))
             (nextLeaf (host Example.loaded_world)))
  = "search".
Proof.
  assert (getAnySearchState Example.loaded_world
          = VObj [("query", VStr "todo"); ("sort", VStr "alpha")]) as H1
    by (vm_compute; reflexivity).
  pose proof (save_then_open_restores _ Example.loaded_world H1) as H.
  cbv zeta in H. destruct H as [H _]. exact H.
Defined.

(** X13: clear, then reopen.  After "clear saved search state" the stored
    state is [null], and "open pinned search" opens a search view with the
    empty state when [rememberQuery] is on and with the state holding only
    an empty query when it is off; the stored data equal the settings in
    memory. *)
Theorem clear_then_open_is_blank (w : World) :
  let w1 := clearSavedSearchState w in
  let w2 := openPinnedSearchWithLastState w1 in
  Settings.lastSearchState (the_settings w1) = VNull
  /\ storage (host w1) = Some (the_settings w1)
  /\ getViewState w2 (nextLeaf (host w))
     = {| vs_type := "search"; vs_active := true;
          vs_state := if Settings.rememberQuery (the_settings w) then VObj []
                      else VObj [("query", VStr "")] |}
  /\ the_settings w2 = the_settings w1
  /\ storage (host w2) = storage (host w1).
Proof.
  intros w1 w2. unfold w2, w1, clearSavedSearchState.
  unfold openPinnedSearchWithLastState, host_getLeafTab. cbv zeta.
  unfold getViewState, saveSettings, set_lastSearchState, the_settings,
    Settings.lastSearchState, Settings.rememberQuery, Settings.autoPinSearchTab,
    Settings.field.
  cbn. rewrite !lookup_insert_eq, !lookup_insert_ne by done. cbn.
  destruct (truthy (default VUndefined (settings (plugin w) !! "rememberQuery")));
    destruct (truthy (default VUndefined (settings (plugin w) !! "autoPinSearchTab")));
    cbn; rewrite ?lookup_insert_eq; by cbn.
Qed.

(** ** Timers *)

#[local] Instance keeps_refl P : Reflexive (keeps P).
Proof. intros w. unfold keeps. auto. Qed.
#[local] Instance keeps_trans P : Transitive (keeps P).
Proof. unfold keeps. intros w1 w2 w3 H1 H2. auto. Qed.

#[local] Hint Extern 1 (keeps timers_tracked ?w (on_plugin _ ?w)) =>
  (unfold keeps, timers_tracked; cbn; by auto) : frames.
#[local] Hint Extern 1 (keeps timers_tracked ?w (on_host _ ?w)) =>
  (unfold keeps, timers_tracked; cbn; by auto) : frames.
#[local] Hint Extern 1 (keeps timers_tracked ?w (log _ ?w)) =>
  (unfold keeps, timers_tracked; cbn; by auto) : frames.
#[local] Hint Extern 1 (keeps timers_tracked ?w (setTimeout _ _ ?w)) =>
  (unfold keeps, timers_tracked; cbn; by auto) : frames.
#[local] Hint Extern 1 (keeps timers_tracked ?w (set_baseline _ _ ?w)) =>
  (unfold keeps, timers_tracked; cbn; by auto) : frames.

Lemma remove_first_other (id x : nat) (ids : list nat) :
  x <> id -> x ∈ ids -> x ∈ remove_first id ids.
Proof.
  intros Hne. induction ids as [|y ids IH]; cbn; [done|].
  intros [Heq|Hin]%elem_of_cons.
  - subst y. destruct (Nat.eqb x id) eqn:E; [by apply Nat.eqb_eq in E|].
    apply list_elem_of_here.
  - destruct (Nat.eqb y id); [done|]. apply list_elem_of_further. by apply IH.
Qed.

Lemma host_getLeafTab_timers w n w' : host_getLeafTab w = (n, w') -> keeps timers_tracked w w'.
Proof. unfold host_getLeafTab. intros [= <- <-]. frame. Qed.
#[local] Hint Resolve host_getLeafTab_timers : frames.
Lemma isInMainArea_timers l w b w' : isInMainArea l w = (b, w') -> keeps timers_tracked w w'.
Proof. unfold isInMainArea. case_match; intros [= <- <-]; frame. Qed.
#[local] Hint Resolve isInMainArea_timers : frames.
Lemma sidebarOnly_timers ls : forall w r w', sidebarOnly ls w = (r, w') -> keeps timers_tracked w w'.
Proof.
  induction ls as [|l ls IH]; simpl; intros w r w'; [by intros [= <- <-]|].
  destruct (isInMainArea l w) as [b w1] eqn:E1.
  destruct (sidebarOnly ls w1) as [r2 w2] eqn:E2. intros [= <- <-].
  transitivity w1; eauto with frames.
Qed.
#[local] Hint Resolve sidebarOnly_timers : frames.
Lemma host_setViewState_timers l vs w : keeps timers_tracked w (host_setViewState l vs w).
Proof. unfold host_setViewState. frame. Qed.
#[local] Hint Resolve host_setViewState_timers : frames.
Lemma host_setPinned_timers l w : keeps timers_tracked w (host_setPinned l w).
Proof. unfold host_setPinned. frame. Qed.
#[local] Hint Resolve host_setPinned_timers : frames.
Lemma host_revealLeaf_timers l w : keeps timers_tracked w (host_revealLeaf l w).
Proof. unfold host_revealLeaf. frame. Qed.
#[local] Hint Resolve host_revealLeaf_timers : frames.
Lemma host_detach_timers l w : keeps timers_tracked w (host_detach l w).
Proof. unfold host_detach. frame. Qed.
#[local] Hint Resolve host_detach_timers : frames.
Lemma host_clearInterval_timers id w : keeps timers_tracked w (host_clearInterval id w).
Proof.
  unfold keeps, timers_tracked, host_clearInterval. cbn. intros H id' Hs. apply H.
  destruct (decide (id = id')) as [->|Hne].
  - rewrite lookup_delete_eq in Hs. by destruct Hs.
  - by rewrite lookup_delete_ne in Hs.
Qed.
#[local] Hint Resolve host_clearInterval_timers : frames.
Lemma clearLocationCache_timers w : keeps timers_tracked w (clearLocationCache w).
Proof. unfold clearLocationCache. frame. Qed.
#[local] Hint Resolve clearLocationCache_timers : frames.
Lemma triggerRedirection_timers now w : keeps timers_tracked w (triggerRedirection now w).
Proof. unfold triggerRedirection. frame. Qed.
#[local] Hint Resolve triggerRedirection_timers : frames.
Lemma createSearchTabInMainArea_timers q s w : keeps timers_tracked w (createSearchTabInMainArea q s w).
Proof. unfold createSearchTabInMainArea. frame. Qed.
#[local] Hint Resolve createSearchTabInMainArea_timers : frames.
Lemma redirectSidebarSearchToMainArea_timers l w : keeps timers_tracked w (redirectSidebarSearchToMainArea l w).
Proof. unfold redirectSidebarSearchToMainArea. frame. Qed.
#[local] Hint Resolve redirectSidebarSearchToMainArea_timers : frames.
Lemma handleSearchCommandExecution_timers w : keeps timers_tracked w (handleSearchCommandExecution w).
Proof. unfold handleSearchCommandExecution. frame. Qed.
#[local] Hint Resolve handleSearchCommandExecution_timers : frames.
Lemma setViewStateHook_timers now l vs w : keeps timers_tracked w (setViewStateHook now l vs w).
Proof. unfold setViewStateHook. frame. Qed.
#[local] Hint Resolve setViewStateHook_timers : frames.
Lemma setViewState_timers now l vs w : keeps timers_tracked w (setViewState now l vs w).
Proof. unfold setViewState. frame. Qed.
#[local] Hint Resolve setViewState_timers : frames.
Lemma set_lastSearchState_timers v w : keeps timers_tracked w (set_lastSearchState v w).
Proof. unfold set_lastSearchState. frame. Qed.
#[local] Hint Resolve set_lastSearchState_timers : frames.
Lemma saveSettings_timers w : keeps timers_tracked w (saveSettings w).
Proof. unfold saveSettings. frame. Qed.
#[local] Hint Resolve saveSettings_timers : frames.
Lemma loadSettings_timers w : keeps timers_tracked w (loadSettings w).
Proof. unfold loadSettings. frame. Qed.
#[local] Hint Resolve loadSettings_timers : frames.
Lemma applySettingsToNewLeaf_timers now l w : keeps timers_tracked w (applySettingsToNewLeaf now l w).
Proof. unfold applySettingsToNewLeaf. frame. Qed.
#[local] Hint Resolve applySettingsToNewLeaf_timers : frames.
Lemma startIntelligentMonitoring_timers l w :
  keeps timers_tracked w (startIntelligentMonitoring l w).
Proof.
  unfold startIntelligentMonitoring. case_bool_decide as Hw; [reflexivity|]. clear Hw.
  unfold keeps, timers_tracked, host_setInterval. cbn. intros H id Hs.
  destruct (decide (nextIntervalId (host w) = id)) as [->|Hne].
  - apply elem_of_app. right. apply list_elem_of_here.
  - rewrite lookup_insert_ne in Hs by done. apply elem_of_app. left. by apply H.
Qed.
#[local] Hint Resolve startIntelligentMonitoring_timers : frames.
Lemma cleanupLeafTracking_timers l w : keeps timers_tracked w (cleanupLeafTracking l w).
Proof.
  unfold cleanupLeafTracking. destruct (leafWatchIntervals (plugin w) !! l) as [id|];
    [|frame].
  unfold keeps, timers_tracked, host_clearInterval. cbn. intros H id' Hs.
  destruct (decide (id = id')) as [->|Hne].
  - rewrite lookup_delete_eq in Hs. by destruct Hs.
  - rewrite lookup_delete_ne in Hs by done. apply remove_first_other; [done|]. by apply H.
Qed.
#[local] Hint Resolve cleanupLeafTracking_timers : frames.
Lemma monitor_timers now l w : keeps timers_tracked w (monitor now l w).
Proof. unfold monitor. frame. Qed.
#[local] Hint Resolve monitor_timers : frames.
Lemma processNewSearchLeaf_timers now l w : keeps timers_tracked w (processNewSearchLeaf now l w).
Proof. unfold processNewSearchLeaf. frame. Qed.
#[local] Hint Resolve processNewSearchLeaf_timers : frames.
Lemma handleExistingSearchLeafActivation_timers now l w : keeps timers_tracked w (handleExistingSearchLeafActivation now l w).
Proof. unfold handleExistingSearchLeafActivation. frame. Qed.
#[local] Hint Resolve handleExistingSearchLeafActivation_timers : frames.
Lemma handleActiveLeafChanges_timers now w : keeps timers_tracked w (handleActiveLeafChanges now w).
Proof. unfold handleActiveLeafChanges. frame. Qed.
#[local] Hint Resolve handleActiveLeafChanges_timers : frames.
Lemma monitorLeafViewState_timers l w : keeps timers_tracked w (monitorLeafViewState l w).
Proof. unfold monitorLeafViewState. frame. Qed.
#[local] Hint Resolve monitorLeafViewState_timers : frames.
Lemma processUnseen_timers now ls w : keeps timers_tracked w (processUnseen now ls w).
Proof. unfold processUnseen. apply fold_left_frame; [apply _..|]. frame. Qed.
#[local] Hint Resolve processUnseen_timers : frames.
Lemma handleLayoutChanges_timers now w : keeps timers_tracked w (handleLayoutChanges now w).
Proof. unfold handleLayoutChanges. frame. Qed.
#[local] Hint Resolve handleLayoutChanges_timers : frames.
Lemma monitorSidebarLeaves_timers w : keeps timers_tracked w (monitorSidebarLeaves w).
Proof. unfold monitorSidebarLeaves. apply fold_left_frame; [apply _..|]. frame. Qed.
#[local] Hint Resolve monitorSidebarLeaves_timers : frames.
Lemma performStartupCleanup_timers w : keeps timers_tracked w (performStartupCleanup w).
Proof.
  unfold performStartupCleanup. destruct (sidebarOnly _ _) as [ls w1] eqn:E.
  transitivity w1; [eauto with frames|]. apply fold_left_frame; [apply _..|]. frame.
Qed.
#[local] Hint Resolve performStartupCleanup_timers : frames.
Lemma setupViewStateMonitoring_timers w : keeps timers_tracked w (setupViewStateMonitoring w).
Proof. unfold setupViewStateMonitoring. frame. Qed.
#[local] Hint Resolve setupViewStateMonitoring_timers : frames.
Lemma viewStateLayoutChange_timers w : keeps timers_tracked w (viewStateLayoutChange w).
Proof. unfold viewStateLayoutChange. frame. Qed.
#[local] Hint Resolve viewStateLayoutChange_timers : frames.
Lemma setupCommandInterception_timers w : keeps timers_tracked w (setupCommandInterception w).
Proof. unfold setupCommandInterception. frame. Qed.
#[local] Hint Resolve setupCommandInterception_timers : frames.
Lemma executeCommandHook_timers commandId w : keeps timers_tracked w (executeCommandHook commandId w).
Proof. unfold executeCommandHook. frame. Qed.
#[local] Hint Resolve executeCommandHook_timers : frames.
Lemma dispatchCommand_timers commandId w : keeps timers_tracked w (dispatchCommand commandId w).
Proof. unfold dispatchCommand. frame. Qed.
#[local] Hint Resolve dispatchCommand_timers : frames.
Lemma setupStartupCleanup_timers w : keeps timers_tracked w (setupStartupCleanup w).
Proof. unfold setupStartupCleanup. frame. Qed.
#[local] Hint Resolve setupStartupCleanup_timers : frames.
Lemma openPinnedSearchWithLastState_timers w : keeps timers_tracked w (openPinnedSearchWithLastState w).
Proof. unfold openPinnedSearchWithLastState. frame. Qed.
#[local] Hint Resolve openPinnedSearchWithLastState_timers : frames.
Lemma saveCurrentSearchState_timers w : keeps timers_tracked w (saveCurrentSearchState w).
Proof. unfold saveCurrentSearchState. frame. Qed.
#[local] Hint Resolve saveCurrentSearchState_timers : frames.
Lemma clearSavedSearchState_timers w : keeps timers_tracked w (clearSavedSearchState w).
Proof. unfold clearSavedSearchState. frame. Qed.
#[local] Hint Resolve clearSavedSearchState_timers : frames.
Lemma toggleSetting_timers k b w : keeps timers_tracked w (toggleSetting k b w).
Proof. unfold toggleSetting. frame. Qed.
#[local] Hint Resolve toggleSetting_timers : frames.
Lemma host_step_timers op w : keeps timers_tracked w (host_step op w).
Proof. unfold host_step. destruct op; frame. Qed.
#[local] Hint Resolve host_step_timers : frames.
Lemma run_task_timers now t w : keeps timers_tracked w (run_task now t w).
Proof. unfold run_task. destruct t; frame. Qed.
#[local] Hint Resolve run_task_timers : frames.
Lemma onload_timers now w : keeps timers_tracked w (onload now w).
Proof. unfold onload. frame. Qed.
#[local] Hint Resolve onload_timers : frames.

Lemma onunload_no_new_interval (w : World) (id : nat) :
  intervals (host w) !! id = None -> intervals (host (onunload w)) !! id = None.
Proof.
  intros Hn. unfold onunload. cbv zeta.
  pose proof (clear_intervals_none (allIntervalIds (plugin w)) w id Hn) as H1.
  set (w1 := fold_left _ _ w) in *. clearbody w1.
  repeat case_match; cbn; try done.
  all: destruct (decide (n = id)) as [->|Hne];
    [apply lookup_delete_eq|by rewrite lookup_delete_ne].
Qed.

Lemma onunload_no_interval (w : World) :
  timers_tracked w -> intervals (host (onunload w)) = ∅.
Proof.
  intros Ht. apply map_eq. intros id. rewrite lookup_empty.
  destruct (intervals (host w) !! id) as [l|] eqn:E.
  - apply onunload_clears_intervals. apply Ht. by rewrite E.
  - by apply onunload_no_new_interval.
Qed.

Lemma onunload_timers w : keeps timers_tracked w (onunload w).
Proof.
  intros Ht id Hs. rewrite (onunload_no_interval w Ht), lookup_empty in Hs.
  by destruct Hs.
Qed.
#[local] Hint Resolve onunload_timers : frames.





(** ** Settings in memory and on disk *)

#[local] Instance settings_same_refl : Reflexive settings_same.
Proof. by intros w. Qed.
#[local] Instance settings_same_trans : Transitive settings_same.
Proof. unfold settings_same. intros w1 w2 w3 [E1 E2] [E3 E4]. split; congruence. Qed.

#[local] Hint Extern 1 (settings_same ?w (on_plugin _ ?w)) => (by split) : frames.
#[local] Hint Extern 1 (settings_same ?w (on_host _ ?w)) => (by split) : frames.
#[local] Hint Extern 1 (settings_same ?w (log _ ?w)) => (by split) : frames.
#[local] Hint Extern 1 (settings_same ?w (setTimeout _ _ ?w)) => (by split) : frames.
#[local] Hint Extern 1 (settings_same ?w (set_baseline _ _ ?w)) => (by split) : frames.

Lemma host_getLeafTab_settings w n w' : host_getLeafTab w = (n, w') -> settings_same w w'.
Proof. unfold host_getLeafTab. intros [= <- <-]. frame. Qed.
#[local] Hint Resolve host_getLeafTab_settings : frames.
Lemma host_setInterval_settings l w id w' :
  host_setInterval l w = (id, w') -> settings_same w w'.
Proof. unfold host_setInterval. intros [= <- <-]. frame. Qed.
#[local] Hint Resolve host_setInterval_settings : frames.
Lemma isInMainArea_settings l w b w' : isInMainArea l w = (b, w') -> settings_same w w'.
Proof. unfold isInMainArea. case_match; intros [= <- <-]; frame. Qed.
#[local] Hint Resolve isInMainArea_settings : frames.
Lemma sidebarOnly_settings ls : forall w r w', sidebarOnly ls w = (r, w') -> settings_same w w'.
Proof.
  induction ls as [|l ls IH]; simpl; intros w r w'; [by intros [= <- <-]|].
  destruct (isInMainArea l w) as [b w1] eqn:E1.
  destruct (sidebarOnly ls w1) as [r2 w2] eqn:E2. intros [= <- <-].
  transitivity w1; eauto with frames.
Qed.
#[local] Hint Resolve sidebarOnly_settings : frames.
Lemma host_setViewState_settings l vs w : settings_same w (host_setViewState l vs w).
Proof. unfold host_setViewState. frame. Qed.
#[local] Hint Resolve host_setViewState_settings : frames.
Lemma host_setPinned_settings l w : settings_same w (host_setPinned l w).
Proof. unfold host_setPinned. frame. Qed.
#[local] Hint Resolve host_setPinned_settings : frames.
Lemma host_revealLeaf_settings l w : settings_same w (host_revealLeaf l w).
Proof. unfold host_revealLeaf. frame. Qed.
#[local] Hint Resolve host_revealLeaf_settings : frames.
Lemma host_detach_settings l w : settings_same w (host_detach l w).
Proof. unfold host_detach. frame. Qed.
#[local] Hint Resolve host_detach_settings : frames.
Lemma host_clearInterval_settings id w : settings_same w (host_clearInterval id w).
Proof. unfold host_clearInterval. frame. Qed.
#[local] Hint Resolve host_clearInterval_settings : frames.
Lemma clearLocationCache_settings w : settings_same w (clearLocationCache w).
Proof. unfold clearLocationCache. frame. Qed.
#[local] Hint Resolve clearLocationCache_settings : frames.
Lemma triggerRedirection_settings now w : settings_same w (triggerRedirection now w).
Proof. unfold triggerRedirection. frame. Qed.
#[local] Hint Resolve triggerRedirection_settings : frames.
Lemma createSearchTabInMainArea_settings q s w : settings_same w (createSearchTabInMainArea q s w).
Proof. unfold createSearchTabInMainArea. frame. Qed.
#[local] Hint Resolve createSearchTabInMainArea_settings : frames.
Lemma redirectSidebarSearchToMainArea_settings l w : settings_same w (redirectSidebarSearchToMainArea l w).
Proof. unfold redirectSidebarSearchToMainArea. frame. Qed.
#[local] Hint Resolve redirectSidebarSearchToMainArea_settings : frames.
Lemma handleSearchCommandExecution_settings w : settings_same w (handleSearchCommandExecution w).
Proof. unfold handleSearchCommandExecution. frame. Qed.
#[local] Hint Resolve handleSearchCommandExecution_settings : frames.
Lemma setViewStateHook_settings now l vs w : settings_same w (setViewStateHook now l vs w).
Proof. unfold setViewStateHook. frame. Qed.
#[local] Hint Resolve setViewStateHook_settings : frames.
Lemma setViewState_settings now l vs w : settings_same w (setViewState now l vs w).
Proof. unfold setViewState. frame. Qed.
#[local] Hint Resolve setViewState_settings : frames.
Lemma applySettingsToNewLeaf_settings now l w : settings_same w (applySettingsToNewLeaf now l w).
Proof. unfold applySettingsToNewLeaf. frame. Qed.
#[local] Hint Resolve applySettingsToNewLeaf_settings : frames.
Lemma startIntelligentMonitoring_settings l w : settings_same w (startIntelligentMonitoring l w).
Proof. unfold startIntelligentMonitoring. frame. Qed.
#[local] Hint Resolve startIntelligentMonitoring_settings : frames.
Lemma cleanupLeafTracking_settings l w : settings_same w (cleanupLeafTracking l w).
Proof. unfold cleanupLeafTracking. frame. Qed.
#[local] Hint Resolve cleanupLeafTracking_settings : frames.
Lemma processNewSearchLeaf_settings now l w : settings_same w (processNewSearchLeaf now l w).
Proof. unfold processNewSearchLeaf. frame. Qed.
#[local] Hint Resolve processNewSearchLeaf_settings : frames.
Lemma handleExistingSearchLeafActivation_settings now l w : settings_same w (handleExistingSearchLeafActivation now l w).
Proof. unfold handleExistingSearchLeafActivation. frame. Qed.
#[local] Hint Resolve handleExistingSearchLeafActivation_settings : frames.
Lemma handleActiveLeafChanges_settings now w : settings_same w (handleActiveLeafChanges now w).
Proof. unfold handleActiveLeafChanges. frame. Qed.
#[local] Hint Resolve handleActiveLeafChanges_settings : frames.
Lemma monitorLeafViewState_settings l w : settings_same w (monitorLeafViewState l w).
Proof. unfold monitorLeafViewState. frame. Qed.
#[local] Hint Resolve monitorLeafViewState_settings : frames.
Lemma processUnseen_settings now ls w : settings_same w (processUnseen now ls w).
Proof. unfold processUnseen. apply fold_left_frame; [apply _..|]. frame. Qed.
#[local] Hint Resolve processUnseen_settings : frames.
Lemma handleLayoutChanges_settings now w : settings_same w (handleLayoutChanges now w).
Proof. unfold handleLayoutChanges. frame. Qed.
#[local] Hint Resolve handleLayoutChanges_settings : frames.
Lemma monitorSidebarLeaves_settings w : settings_same w (monitorSidebarLeaves w).
Proof. unfold monitorSidebarLeaves. apply fold_left_frame; [apply _..|]. frame. Qed.
#[local] Hint Resolve monitorSidebarLeaves_settings : frames.
Lemma performStartupCleanup_settings w : settings_same w (performStartupCleanup w).
Proof.
  unfold performStartupCleanup. destruct (sidebarOnly _ _) as [ls w1] eqn:E.
  transitivity w1; [eauto with frames|]. apply fold_left_frame; [apply _..|]. frame.
Qed.
#[local] Hint Resolve performStartupCleanup_settings : frames.
Lemma setupViewStateMonitoring_settings w : settings_same w (setupViewStateMonitoring w).
Proof. unfold setupViewStateMonitoring. frame. Qed.
#[local] Hint Resolve setupViewStateMonitoring_settings : frames.
Lemma viewStateLayoutChange_settings w : settings_same w (viewStateLayoutChange w).
Proof. unfold viewStateLayoutChange. frame. Qed.
#[local] Hint Resolve viewStateLayoutChange_settings : frames.
Lemma setupCommandInterception_settings w : settings_same w (setupCommandInterception w).
Proof. unfold setupCommandInterception. frame. Qed.
#[local] Hint Resolve setupCommandInterception_settings : frames.
Lemma executeCommandHook_settings commandId w : settings_same w (executeCommandHook commandId w).
Proof. unfold executeCommandHook. frame. Qed.
#[local] Hint Resolve executeCommandHook_settings : frames.
Lemma dispatchCommand_settings commandId w : settings_same w (dispatchCommand commandId w).
Proof. unfold dispatchCommand. frame. Qed.
#[local] Hint Resolve dispatchCommand_settings : frames.
Lemma setupStartupCleanup_settings w : settings_same w (setupStartupCleanup w).
Proof. unfold setupStartupCleanup. frame. Qed.
#[local] Hint Resolve setupStartupCleanup_settings : frames.
Lemma openPinnedSearchWithLastState_settings w : settings_same w (openPinnedSearchWithLastState w).
Proof. unfold openPinnedSearchWithLastState. frame. Qed.
#[local] Hint Resolve openPinnedSearchWithLastState_settings : frames.
Lemma host_step_settings op w : settings_same w (host_step op w).
Proof. unfold host_step. destruct op; frame. Qed.
#[local] Hint Resolve host_step_settings : frames.
Lemma run_task_settings now t w : settings_same w (run_task now t w).
Proof. unfold run_task. destruct t; frame. Qed.
#[local] Hint Resolve run_task_settings : frames.

Lemma onunload_settings w : settings_same w (onunload w).
Proof.
  unfold onunload. cbv zeta.
  set (w1 := fold_left _ _ w).
  assert (settings_same w w1) as H1
    by (apply fold_left_frame; [apply _..|]; frame).
  clearbody w1. frame.
Qed.
#[local] Hint Resolve onunload_settings : frames.

Lemma union_complete (s : gmap string value) :
  complete s -> s ∪ Settings.DEFAULT_SETTINGS = s.
Proof.
  intros Hc. apply map_eq. intros k.
  destruct (s !! k) as [v|] eqn:E.
  - by apply lookup_union_Some_l.
  - rewrite lookup_union_r by done.
    destruct (Settings.DEFAULT_SETTINGS !! k) as [d|] eqn:Ed; [|done].
    destruct (Hc k) as [v Hv]; [by rewrite Ed|congruence].
Qed.

Lemma complete_insert (k : string) (v : value) (s : gmap string value) :
  complete s -> complete (<[k := v]> s).
Proof.
  intros Hc k' Hk'. destruct (decide (k = k')) as [->|Hne].
  - rewrite lookup_insert_eq. by eexists.
  - rewrite lookup_insert_ne by done. by apply Hc.
Qed.

Lemma synced_saveSettings (w : World) : complete (the_settings w) -> synced (saveSettings w).
Proof.
  intros Hc. split; [done|]. unfold saveSettings. cbn. symmetry. by apply union_complete.
Qed.

Lemma synced_of_same (w w' : World) : settings_same w w' -> synced w -> synced w'.
Proof. unfold synced, the_settings. intros [-> ->]. done. Qed.

Lemma loadSettings_synced (w : World) : synced (loadSettings w).
Proof.
  split; [|done]. unfold loadSettings, the_settings. cbn. intros k Hk.
  destruct (storage (host w)) as [stored|]; cbn; [|done].
  destruct (stored !! k) as [v|] eqn:E.
  - rewrite (lookup_union_Some_l _ _ _ _ E). by eexists.
  - by rewrite lookup_union_r.
Qed.

Lemma onload_after_loadSettings now w : settings_same (loadSettings w) (onload now w).
Proof. unfold onload. cbv zeta. set (w1 := loadSettings w). clearbody w1. frame. Qed.

Lemma monitor_synced now l w : synced w -> synced (monitor now l w).
Proof.
  intros Hs. unfold monitor. repeat case_match; try done.
  - apply (synced_of_same w); [|done]. frame.
  - apply (synced_of_same (saveSettings (set_lastSearchState
             (sanitize w (nullish_to_null (vs_state (getViewState w l)))) w))); [frame|].
    apply synced_saveSettings. apply complete_insert, Hs.
Qed.

Lemma saveCurrentSearchState_synced w : synced w -> synced (saveCurrentSearchState w).
Proof.
  intros Hs. unfold saveCurrentSearchState. case_match; [|done].
  apply synced_saveSettings. apply complete_insert, Hs.
Qed.

Lemma clearSavedSearchState_synced w : synced w -> synced (clearSavedSearchState w).
Proof.
  intros Hs. unfold clearSavedSearchState.
  apply synced_saveSettings. apply complete_insert, Hs.
Qed.

Lemma toggleSetting_synced k b w : synced w -> synced (toggleSetting k b w).
Proof.
  intros Hs. unfold toggleSetting. cbv zeta.
  set (w1 := saveSettings _).
  assert (synced w1) as H1 by (apply synced_saveSettings; apply complete_insert, Hs).
  clearbody w1. case_match; [|done]. apply (synced_of_same w1); [frame|done].
Qed.

Lemma step_synced now e w : synced w -> synced (step now e w).
Proof.
  intros Hs. destruct e; unfold step.
  - apply (synced_of_same (loadSettings w));
      [apply onload_after_loadSettings|apply loadSettings_synced].
  - apply (synced_of_same w); [|done]. apply onunload_settings.
  - apply (synced_of_same w); [frame|done].
  - apply (synced_of_same w); [frame|done].
  - case_match; [by apply monitor_synced|done].
  - apply (synced_of_same w); [|done]. repeat case_match; try reflexivity.
    transitivity (on_host (fun h => h_pending (delete i (pending h)) h) w); frame.
  - apply (synced_of_same w); [frame|done].
  - apply (synced_of_same w); [frame|done].
  - apply (synced_of_same w); [frame|done].
  - case_match; [by apply saveCurrentSearchState_synced|done].
  - case_match; [by apply clearSavedSearchState_synced|done].
  - case_match; [by apply toggleSetting_synced|done].
  - apply (synced_of_same w); [frame|done].
Qed.

(** X15: no change of the settings is ever only in memory.  After the
    plugin has been loaded, whatever events follow (ticks, commands,
    toggles, layout changes, unload and reload), the settings in memory are
    exactly what [loadSettings] would read back from the stored data. *)
Theorem settings_always_on_disk (now : Z) (evs : list (Z * event)) (w : World) :
  let w' := run ((now, EvLoad) :: evs) w in
  the_settings (loadSettings w') = the_settings w'
  /\ the_settings w' = Settings.assign_defaults (storage (host w')).
Proof.
  intros w'.
  assert (synced w') as [_ Hs].
  { unfold w', run. cbn [fold_left].
    assert (synced (step now EvLoad w)) as H0.
    { unfold step. apply (synced_of_same (loadSettings w));
        [apply onload_after_loadSettings|apply loadSettings_synced]. }
    revert H0. generalize (step now EvLoad w). clear w w'.
    induction evs as [|[t e] evs IH]; intros w Hw; cbn [fold_left]; [done|].
    apply IH. by apply step_synced. }
  clearbody w'. split; [|done]. unfold loadSettings, the_settings in *. cbn. by symmetry.
Qed.

(** ** The query stays out of the stored data *)

Lemma sanitize_no_query (w : World) (st : value) :
  Settings.rememberQuery (the_settings w) = false ->
  has_own (sanitize w st) "query" = false.
Proof.
  intros Hrq. unfold sanitize, sanitizeSearchStateForPersistence. rewrite Hrq.
  destruct st as [| | | | |props]; cbn; repeat case_match; try done.
  apply bool_decide_eq_false_2. rewrite assoc_omit. cbn. by intros [? ?].
Qed.

Lemma query_free_defaults (s : gmap string value) :
  query_free s -> query_free (s ∪ Settings.DEFAULT_SETTINGS).
Proof.
  unfold query_free, Settings.rememberQuery, Settings.lastSearchState, Settings.field.
  intros [Hr Hl]. split.
  - destruct (s !! "rememberQuery") as [v|] eqn:E.
    + by rewrite (lookup_union_Some_l _ _ _ _ E).
    + by rewrite lookup_union_r.
  - destruct (s !! "lastSearchState") as [v|] eqn:E.
    + by rewrite (lookup_union_Some_l _ _ _ _ E).
    + by rewrite lookup_union_r.
Qed.

Lemma query_private_of_same (w w' : World) :
  settings_same w w' -> query_private w -> query_private w'.
Proof. unfold query_private, the_settings. intros [-> ->]. done. Qed.

Lemma query_private_save (v : value) (w : World) :
  query_private w -> has_own v "query" = false ->
  query_private (saveSettings (set_lastSearchState v w)).
Proof.
  intros [[Hr Hl] _] Hv.
  assert (query_free (<["lastSearchState" := v]> (the_settings w))) as Hq.
  { unfold query_free, Settings.rememberQuery, Settings.lastSearchState, Settings.field
      in *.
    by rewrite lookup_insert_eq, lookup_insert_ne. }
  split; [done|]. unfold saveSettings. cbn. intros s [= <-].
  by apply query_free_defaults.
Qed.

Lemma step_query_private now e w :
  e <> EvToggle "rememberQuery" true -> query_private w -> query_private (step now e w).
Proof.
  intros He Hq. destruct e; unfold step.
  - apply (query_private_of_same (loadSettings w)); [apply onload_after_loadSettings|].
    destruct Hq as [Hm Hs]. unfold loadSettings, query_private, the_settings. cbn.
    split; [|done]. destruct (storage (host w)) as [s|] eqn:E; [by apply Hs|].
    by split.
  - apply (query_private_of_same w); [apply onunload_settings|done].
  - apply (query_private_of_same w); [frame|done].
  - apply (query_private_of_same w); [frame|done].
  - case_match; [|done]. unfold monitor. repeat case_match; try done.
    + apply (query_private_of_same w); [frame|done].
    + match goal with
      | |- query_private (set_baseline _ _ ?w2) =>
          apply (query_private_of_same w2); [frame|]
      end.
      apply query_private_save; [done|]. apply sanitize_no_query, Hq.
  - apply (query_private_of_same w); [|done]. repeat case_match; try reflexivity.
    transitivity (on_host (fun h => h_pending (delete i (pending h)) h) w); frame.
  - apply (query_private_of_same w); [frame|done].
  - apply (query_private_of_same w); [frame|done].
  - apply (query_private_of_same w); [frame|done].
  - case_match; [|done]. unfold saveCurrentSearchState. case_match; [|done].
    apply query_private_save; [done|]. apply sanitize_no_query, Hq.
  - case_match; [|done]. unfold clearSavedSearchState. by apply query_private_save.
  - case_match; [|done]. unfold toggleSetting. cbv zeta.
    set (w1 := saveSettings _).
    assert (query_private w1) as H1.
    { destruct Hq as [[Hr Hl] _].
      assert (query_free (<[k := VBool b]> (the_settings w))) as Hf.
      { unfold query_free, Settings.rememberQuery, Settings.lastSearchState,
          Settings.field in *.
        destruct (decide (k = "rememberQuery")) as [->|Hk1].
        - rewrite lookup_insert_eq, lookup_insert_ne by done. split; [|done].
          destruct b; [by destruct He|done].
        - destruct (decide (k = "lastSearchState")) as [->|Hk2].
          + by rewrite lookup_insert_eq, lookup_insert_ne.
          + by rewrite !lookup_insert_ne. }
      split; [done|]. unfold w1, saveSettings. cbn. intros s [= <-].
      by apply query_free_defaults. }
    clearbody w1. case_match; [|done]. apply (query_private_of_same w1); [frame|done].
  - apply (query_private_of_same w); [frame|done].
Qed.

(** X16: with [rememberQuery] off the query never reaches the stored data.
    If neither the settings in memory nor the stored data remember a query
    and [rememberQuery] is off, this stays so through every run in which
    the [rememberQuery] toggle is not switched on: whatever is typed into
    search views, saved by hand or by the polling tasks, reloaded or
    toggled otherwise. *)
Theorem query_stays_private (evs : list (Z * event)) (w : World) :
  query_private w ->
  (forall now, (now, EvToggle "rememberQuery" true) ∉ evs) ->
  query_private (run evs w).
Proof.
  revert w. induction evs as [|[t e] evs IH]; intros w Hq Hno; [done|].
  unfold run. cbn [fold_left]. apply IH.
  - apply step_query_private; [|done]. intros ->. apply (Hno t). apply list_elem_of_here.
  - intros now Hin. apply (Hno now). by apply list_elem_of_further.
Qed.

Lemma query_stays_private_witness :
  query_private
    (run [(1000100, EvSaveCurrent);
          (1003000, EvHost (HEditState 10%nat (VObj [("query", VStr "secret")])));
          (1003500, EvTick 1%nat)] Example.loaded_world).
Proof.
  assert (query_private Example.loaded_world) as H1.
  { split; [by split|]. intros s Hs. vm_compute in Hs. discriminate Hs. }
  apply (query_stays_private _ Example.loaded_world H1).
  intros now Hin.
  repeat (apply elem_of_cons in Hin as [Hin|Hin]; [discriminate Hin|]).
  by apply elem_of_nil in Hin.
Defined.

(** ** The location cache between layout changes *)

(** X17: a classification is frozen until the cache is cleared.  Once a
    leaf has been classified, moving it under another parent does not change
    the answer of [isInMainArea]; after [clearLocationCache] the answer
    follows the leaf's new ancestor chain. *)
Theorem classification_is_frozen_until_cleared (l : leaf) (p : nat) (w : World) :
  let w1 := snd (isInMainArea l w) in
  let w2 := host_step (HMove l p) w1 in
  classify l w2 = classify l w
  /\ classify l (clearLocationCache w2) = fst (walk (host w2) depth_bound (Some p) 0)
  /\ leafLocationCache (plugin (clearLocationCache w2)) = ∅.
Proof.
  intros w1 w2.
  assert (leafLocationCache (plugin w1) !! l = Some (classify l w)) as Hc.
  { unfold w1, classify, isInMainArea.
    destruct (leafLocationCache (plugin w) !! l) eqn:E; cbn -[walk]; [done|].
    by rewrite lookup_insert_eq. }
  split; [|split; [|done]].
  - rewrite (classify_eq l w2). unfold w2. cbn -[walk]. by rewrite Hc.
  - rewrite classify_eq. cbn -[walk]. rewrite lookup_empty. unfold w2. cbn -[walk].
    by rewrite lookup_insert_eq.
Qed.

(** ** Redirection switched off *)

#[local] Hint Extern 1 (keeps no_timer ?w (on_plugin _ ?w)) =>
  (unfold keeps, no_timer; cbn; by auto) : frames.
#[local] Hint Extern 1 (keeps no_timer ?w (on_host _ ?w)) =>
  (unfold keeps, no_timer; cbn; by auto) : frames.
#[local] Hint Extern 1 (keeps no_timer ?w (log _ ?w)) =>
  (unfold keeps, no_timer; cbn; by auto) : frames.
#[local] Hint Extern 1 (keeps no_timer ?w (setTimeout _ _ ?w)) =>
  (unfold keeps, no_timer; cbn; by auto) : frames.
#[local] Hint Extern 1 (keeps no_timer ?w (set_baseline _ _ ?w)) =>
  (unfold keeps, no_timer; cbn; by auto) : frames.

Lemma host_getLeafTab_idle w n w' : host_getLeafTab w = (n, w') -> keeps no_timer w w'.
Proof. unfold host_getLeafTab. intros [= <- <-]. frame. Qed.
#[local] Hint Resolve host_getLeafTab_idle : frames.
Lemma isInMainArea_idle l w b w' : isInMainArea l w = (b, w') -> keeps no_timer w w'.
Proof. unfold isInMainArea. case_match; intros [= <- <-]; frame. Qed.
#[local] Hint Resolve isInMainArea_idle : frames.
Lemma sidebarOnly_idle ls : forall w r w', sidebarOnly ls w = (r, w') -> keeps no_timer w w'.
Proof.
  induction ls as [|l ls IH]; simpl; intros w r w'; [by intros [= <- <-]|].
  destruct (isInMainArea l w) as [b w1] eqn:E1.
  destruct (sidebarOnly ls w1) as [r2 w2] eqn:E2. intros [= <- <-].
  transitivity w1; eauto with frames.
Qed.
#[local] Hint Resolve sidebarOnly_idle : frames.
Lemma host_setViewState_idle l vs w : keeps no_timer w (host_setViewState l vs w).
Proof. unfold host_setViewState. frame. Qed.
#[local] Hint Resolve host_setViewState_idle : frames.
Lemma host_setPinned_idle l w : keeps no_timer w (host_setPinned l w).
Proof. unfold host_setPinned. frame. Qed.
#[local] Hint Resolve host_setPinned_idle : frames.
Lemma host_revealLeaf_idle l w : keeps no_timer w (host_revealLeaf l w).
Proof. unfold host_revealLeaf. frame. Qed.
#[local] Hint Resolve host_revealLeaf_idle : frames.
Lemma host_detach_idle l w : keeps no_timer w (host_detach l w).
Proof. unfold host_detach. frame. Qed.
#[local] Hint Resolve host_detach_idle : frames.
Lemma host_clearInterval_idle id w : keeps no_timer w (host_clearInterval id w).
Proof.
  unfold keeps, no_timer, host_clearInterval. cbn. intros ->. apply delete_empty.
Qed.
#[local] Hint Resolve host_clearInterval_idle : frames.
Lemma clearLocationCache_idle w : keeps no_timer w (clearLocationCache w).
Proof. unfold clearLocationCache. frame. Qed.
#[local] Hint Resolve clearLocationCache_idle : frames.
Lemma triggerRedirection_idle now w : keeps no_timer w (triggerRedirection now w).
Proof. unfold triggerRedirection. frame. Qed.
#[local] Hint Resolve triggerRedirection_idle : frames.
Lemma createSearchTabInMainArea_idle q s w : keeps no_timer w (createSearchTabInMainArea q s w).
Proof. unfold createSearchTabInMainArea. frame. Qed.
#[local] Hint Resolve createSearchTabInMainArea_idle : frames.
Lemma redirectSidebarSearchToMainArea_idle l w : keeps no_timer w (redirectSidebarSearchToMainArea l w).
Proof. unfold redirectSidebarSearchToMainArea. frame. Qed.
#[local] Hint Resolve redirectSidebarSearchToMainArea_idle : frames.
Lemma handleSearchCommandExecution_idle w : keeps no_timer w (handleSearchCommandExecution w).
Proof. unfold handleSearchCommandExecution. frame. Qed.
#[local] Hint Resolve handleSearchCommandExecution_idle : frames.
Lemma setViewStateHook_idle now l vs w : keeps no_timer w (setViewStateHook now l vs w).
Proof. unfold setViewStateHook. frame. Qed.
#[local] Hint Resolve setViewStateHook_idle : frames.
Lemma setViewState_idle now l vs w : keeps no_timer w (setViewState now l vs w).
Proof. unfold setViewState. frame. Qed.
#[local] Hint Resolve setViewState_idle : frames.
Lemma set_lastSearchState_idle v w : keeps no_timer w (set_lastSearchState v w).
Proof. unfold set_lastSearchState. frame. Qed.
#[local] Hint Resolve set_lastSearchState_idle : frames.
Lemma saveSettings_idle w : keeps no_timer w (saveSettings w).
Proof. unfold saveSettings. frame. Qed.
#[local] Hint Resolve saveSettings_idle : frames.
Lemma loadSettings_idle w : keeps no_timer w (loadSettings w).
Proof. unfold loadSettings. frame. Qed.
#[local] Hint Resolve loadSettings_idle : frames.
Lemma applySettingsToNewLeaf_idle now l w : keeps no_timer w (applySettingsToNewLeaf now l w).
Proof. unfold applySettingsToNewLeaf. frame. Qed.
#[local] Hint Resolve applySettingsToNewLeaf_idle : frames.
Lemma cleanupLeafTracking_idle l w : keeps no_timer w (cleanupLeafTracking l w).
Proof. unfold cleanupLeafTracking. frame. Qed.
#[local] Hint Resolve cleanupLeafTracking_idle : frames.
Lemma monitor_idle now l w : keeps no_timer w (monitor now l w).
Proof. unfold monitor. frame. Qed.
#[local] Hint Resolve monitor_idle : frames.
Lemma handleExistingSearchLeafActivation_idle now l w : keeps no_timer w (handleExistingSearchLeafActivation now l w).
Proof. unfold handleExistingSearchLeafActivation. frame. Qed.
#[local] Hint Resolve handleExistingSearchLeafActivation_idle : frames.
Lemma handleActiveLeafChanges_idle now w : keeps no_timer w (handleActiveLeafChanges now w).
Proof. unfold handleActiveLeafChanges. frame. Qed.
#[local] Hint Resolve handleActiveLeafChanges_idle : frames.
Lemma monitorLeafViewState_idle l w : keeps no_timer w (monitorLeafViewState l w).
Proof. unfold monitorLeafViewState. frame. Qed.
#[local] Hint Resolve monitorLeafViewState_idle : frames.
Lemma monitorSidebarLeaves_idle w : keeps no_timer w (monitorSidebarLeaves w).
Proof. unfold monitorSidebarLeaves. apply fold_left_frame; [apply _..|]. frame. Qed.
#[local] Hint Resolve monitorSidebarLeaves_idle : frames.
Lemma performStartupCleanup_idle w : keeps no_timer w (performStartupCleanup w).
Proof.
  unfold performStartupCleanup. destruct (sidebarOnly _ _) as [ls w1] eqn:E.
  transitivity w1; [eauto with frames|]. apply fold_left_frame; [apply _..|]. frame.
Qed.
#[local] Hint Resolve performStartupCleanup_idle : frames.
Lemma setupViewStateMonitoring_idle w : keeps no_timer w (setupViewStateMonitoring w).
Proof. unfold setupViewStateMonitoring. frame. Qed.
#[local] Hint Resolve setupViewStateMonitoring_idle : frames.
Lemma viewStateLayoutChange_idle w : keeps no_timer w (viewStateLayoutChange w).
Proof. unfold viewStateLayoutChange. frame. Qed.
#[local] Hint Resolve viewStateLayoutChange_idle : frames.
Lemma setupCommandInterception_idle w : keeps no_timer w (setupCommandInterception w).
Proof. unfold setupCommandInterception. frame. Qed.
#[local] Hint Resolve setupCommandInterception_idle : frames.
Lemma executeCommandHook_idle commandId w : keeps no_timer w (executeCommandHook commandId w).
Proof. unfold executeCommandHook. frame. Qed.
#[local] Hint Resolve executeCommandHook_idle : frames.
Lemma dispatchCommand_idle commandId w : keeps no_timer w (dispatchCommand commandId w).
Proof. unfold dispatchCommand. frame. Qed.
#[local] Hint Resolve dispatchCommand_idle : frames.
Lemma setupStartupCleanup_idle w : keeps no_timer w (setupStartupCleanup w).
Proof. unfold setupStartupCleanup. frame. Qed.
#[local] Hint Resolve setupStartupCleanup_idle : frames.
Lemma openPinnedSearchWithLastState_idle w : keeps no_timer w (openPinnedSearchWithLastState w).
Proof. unfold openPinnedSearchWithLastState. frame. Qed.
#[local] Hint Resolve openPinnedSearchWithLastState_idle : frames.
Lemma saveCurrentSearchState_idle w : keeps no_timer w (saveCurrentSearchState w).
Proof. unfold saveCurrentSearchState. frame. Qed.
#[local] Hint Resolve saveCurrentSearchState_idle : frames.
Lemma clearSavedSearchState_idle w : keeps no_timer w (clearSavedSearchState w).
Proof. unfold clearSavedSearchState. frame. Qed.
#[local] Hint Resolve clearSavedSearchState_idle : frames.
Lemma toggleSetting_idle k b w : keeps no_timer w (toggleSetting k b w).
Proof. unfold toggleSetting. frame. Qed.
#[local] Hint Resolve toggleSetting_idle : frames.
Lemma host_step_idle op w : keeps no_timer w (host_step op w).
Proof. unfold host_step. destruct op; frame. Qed.
#[local] Hint Resolve host_step_idle : frames.
Lemma run_task_idle now t w : keeps no_timer w (run_task now t w).
Proof. unfold run_task. destruct t; frame. Qed.
#[local] Hint Resolve run_task_idle : frames.


Lemma onunload_idle w : keeps no_timer w (onunload w).
Proof.
  unfold onunload. cbv zeta.
  set (w1 := fold_left _ _ w).
  assert (keeps no_timer w w1) as H1
    by (apply fold_left_frame; [apply _..|]; frame).
  clearbody w1. frame.
Qed.
#[local] Hint Resolve onunload_idle : frames.

Lemma redirection_off_of_same (w w' : World) :
  settings_same w w' -> redirection_off w -> redirection_off w'.
Proof. unfold redirection_off, the_settings. intros [-> ->]. done. Qed.

Lemma flag_defaults (s : gmap string value) :
  complete s ->
  Settings.openBookmarksInMainArea (Settings.assign_defaults (Some s))
  = Settings.openBookmarksInMainArea s.
Proof. intros Hc. cbn. by rewrite union_complete. Qed.

Lemma handleLayoutChanges_off now w :
  Settings.openBookmarksInMainArea (the_settings w) = false ->
  handleLayoutChanges now w = clearLocationCache w.
Proof.
  intros Hoff. unfold handleLayoutChanges. cbv zeta.
  change (the_settings (clearLocationCache w)) with (the_settings w). by rewrite Hoff.
Qed.

Lemma step_redirection_off now e w :
  e <> EvToggle "openBookmarksInMainArea" true ->
  synced w -> redirection_off w -> no_timer w ->
  redirection_off (step now e w) /\ no_timer (step now e w).
Proof.
  intros He Hsy Hoff Hidle.
  assert (forall w', settings_same w w' -> keeps no_timer w w' ->
                     redirection_off w' /\ no_timer w') as Hframe.
  { intros w' H1 H2. split; [by apply (redirection_off_of_same w)|by apply H2]. }
  assert (forall v, redirection_off w -> complete (the_settings v) ->
            Settings.openBookmarksInMainArea (the_settings v) = false ->
            redirection_off (saveSettings v)) as Hsave.
  { intros v _ Hc Hf. split; [done|]. exists (the_settings v). split; [done|].
    by rewrite flag_defaults. }
  destruct e; unfold step.
  - destruct Hoff as [_ (s & Hs & Hf)].
    assert (Settings.openBookmarksInMainArea (the_settings (loadSettings w)) = false) as Hl.
    { unfold loadSettings, the_settings. cbn. by rewrite Hs. }
    assert (redirection_off (loadSettings w)) as Hoff1 by (split; [done|by exists s]).
    unfold onload. cbv zeta.
    set (w2 := on_plugin (p_loaded true) (loadSettings w)).
    assert (the_settings w2 = the_settings (loadSettings w)) as E2 by done.
    rewrite (handleLayoutChanges_off now w2) by (by rewrite E2).
    change (the_settings (clearLocationCache w2)) with (the_settings (loadSettings w)).
    rewrite Hl.
    split.
    + apply (redirection_off_of_same (loadSettings w)); [|done].
      unfold w2. frame.
    + match goal with
      | |- no_timer ?v => assert (keeps no_timer w v) as Hk; [|by apply Hk]
      end.
      unfold w2, loadSettings. frame.
  - apply Hframe; [apply onunload_settings|apply onunload_idle].
  - destruct (loaded (plugin w)); [|done].
    rewrite handleLayoutChanges_off by apply Hoff.
    apply Hframe; frame.
  - apply Hframe; frame.
  - unfold no_timer in Hidle. by rewrite Hidle, lookup_empty.
  - apply Hframe.
    + repeat case_match; try reflexivity.
      transitivity (on_host (fun h => h_pending (delete i (pending h)) h) w); frame.
    + repeat case_match; try reflexivity.
      transitivity (on_host (fun h => h_pending (delete i (pending h)) h) w); frame.
  - apply Hframe; frame.
  - apply Hframe; frame.
  - apply Hframe; frame.
  - destruct (loaded (plugin w)); [|done]. unfold saveCurrentSearchState.
    case_match; [|done]. split; [|done].
    apply Hsave; [done|apply complete_insert, Hsy|].
    unfold the_settings, Settings.openBookmarksInMainArea, Settings.field. cbn.
    rewrite lookup_insert_ne by done. apply Hoff.
  - destruct (loaded (plugin w)); [|done]. unfold clearSavedSearchState.
    split; [|done].
    apply Hsave; [done|apply complete_insert, Hsy|].
    unfold the_settings, Settings.openBookmarksInMainArea, Settings.field. cbn.
    rewrite lookup_insert_ne by done. apply Hoff.
  - destruct (loaded (plugin w)); [|done]. unfold toggleSetting. cbv zeta.
    set (v := on_plugin _ w).
    assert (Settings.openBookmarksInMainArea (the_settings v) = false) as Hv.
    { unfold v, the_settings, Settings.openBookmarksInMainArea, Settings.field. cbn.
      destruct (decide (k = "openBookmarksInMainArea")) as [->|Hk].
      - rewrite lookup_insert_eq. destruct b; [by destruct He|done].
      - rewrite lookup_insert_ne by done. apply Hoff. }
    assert (String.eqb k "openBookmarksInMainArea" && b = false) as ->.
    { destruct (String.eqb k "openBookmarksInMainArea") eqn:Ek; [|done].
      apply String.eqb_eq in Ek as ->. destruct b; [by destruct He|done]. }
    split; [|done]. apply Hsave; [done|apply complete_insert, Hsy|done].
  - apply Hframe; frame.
Qed.

(** X18: with redirection switched off the plugin tracks nothing.  If
    [openBookmarksInMainArea] is off in memory and in the stored data and no
    interval timer is live, then through every run in which that toggle is
    not switched on (layout changes, new search views, commands, reloads)
    no polling task is ever started, so nothing is saved automatically. *)
Theorem redirection_off_starts_no_timer (evs : list (Z * event)) (w : World) :
  synced w -> redirection_off w -> no_timer w ->
  (forall now, (now, EvToggle "openBookmarksInMainArea" true) ∉ evs) ->
  intervals (host (run evs w)) = ∅
  /\ Settings.openBookmarksInMainArea (the_settings (run evs w)) = false.
Proof.
  intros Hsy Hoff Hidle Hno.
  assert (redirection_off (run evs w) /\ no_timer (run evs w)) as [[H1 _] H2]; [|done].
  revert w Hsy Hoff Hidle Hno. induction evs as [|[t e] evs IH];
    intros w Hsy Hoff Hidle Hno; [done|].
  unfold run. cbn [fold_left].
  destruct (step_redirection_off t e w) as [H1 H2]; try done.
  { intros ->. apply (Hno t). apply list_elem_of_here. }
  apply IH; try done.
  - by apply step_synced.
  - intros now Hin. apply (Hno now). by apply list_elem_of_further.
Qed.

Lemma redirection_off_starts_no_timer_witness :
  intervals (host (run [(1000500, EvLayoutChange);
                        (1003000, EvExecuteCommand "global-search:open");
                        (1003000, EvHost (HActivate 10%nat));
                        (1003000, EvActiveLeafChange)] Scenario2.loaded_off))
  = ∅.
Proof.
  assert (synced Scenario2.loaded_off) as H1.
  { apply (synced_of_same
             (loadSettings (on_host (h_storage (Some Scenario2.stored_off)) Example.start)));
      [apply onload_after_loadSettings|apply loadSettings_synced]. }
  assert (redirection_off Scenario2.loaded_off) as H2.
  { split; [vm_compute; reflexivity|]. exists Scenario2.stored_off.
    split; vm_compute; reflexivity. }
  assert (no_timer Scenario2.loaded_off) as H3 by (vm_compute; reflexivity).
  assert (forall now, (now, EvToggle "openBookmarksInMainArea" true)
                      ∉ [(1000500, EvLayoutChange);
                         (1003000, EvExecuteCommand "global-search:open");
                         (1003000, EvHost (HActivate 10%nat));
                         (1003000, EvActiveLeafChange)]) as H4.
  { intros now Hin.
    repeat (apply elem_of_cons in Hin as [Hin|Hin]; [discriminate Hin|]).
    by apply elem_of_nil in Hin. }
  exact (proj1 (redirection_off_starts_no_timer _ Scenario2.loaded_off H1 H2 H3 H4)).
Defined.

(** * Properties of the first version ([src/main.ts]) *)

Lemma simple_ensureWatchingLeaf_frame (l : leaf) (w : Simple.World) :
  let w' := Simple.ensureWatchingLeaf l w in
  Simple.settings (Simple.plugin w') = Simple.settings (Simple.plugin w)
  /\ Simple.initializedSearchLeaves (Simple.plugin w')
     = Simple.initializedSearchLeaves (Simple.plugin w)
  /\ Simple.leafLastStateStr (Simple.plugin w') = Simple.leafLastStateStr (Simple.plugin w)
  /\ storage (Simple.app w') = storage (Simple.app w)
  /\ leaves (Simple.app w') = leaves (Simple.app w)
  /\ viewStates (Simple.app w') = viewStates (Simple.app w)
  /\ is_Some (Simple.leafWatchIntervals (Simple.plugin w') !! l)
  /\ (forall x, is_Some (Simple.leafWatchIntervals (Simple.plugin w) !! x) ->
                is_Some (Simple.leafWatchIntervals (Simple.plugin w') !! x)).
Proof.
  unfold Simple.ensureWatchingLeaf. case_bool_decide as Hw; [by repeat split|].
  cbn. repeat split; try done.
  - rewrite lookup_insert_eq. by eexists.
  - intros x Hx. destruct (decide (l = x)) as [->|Hne]; [done|].
    by rewrite lookup_insert_ne.
Qed.

(** One iteration of the loop of [tryInitializeNewSearchLeaves]. *)
Lemma simple_initializeLeaf_effect (x : leaf) (w : Simple.World) :
  let w' := Simple.initializeLeaf w x in
  Simple.settings (Simple.plugin w') = Simple.settings (Simple.plugin w)
  /\ Simple.initializedSearchLeaves (Simple.plugin w')
     = {[x]} ∪ Simple.initializedSearchLeaves (Simple.plugin w)
  /\ Simple.leafLastStateStr (Simple.plugin w') = Simple.leafLastStateStr (Simple.plugin w)
  /\ storage (Simple.app w') = storage (Simple.app w)
  /\ leaves (Simple.app w') = leaves (Simple.app w)
  /\ (forall l, getViewType (at_host (Simple.app w')) l
                = getViewType (at_host (Simple.app w)) l)
  /\ (forall l, l <> x -> viewStates (Simple.app w') !! l = viewStates (Simple.app w) !! l)
  /\ (x ∉ Simple.initializedSearchLeaves (Simple.plugin w) ->
      is_Some (Simple.leafWatchIntervals (Simple.plugin w') !! x)
      /\ (truthy (Settings.lastSearchState (Simple.the_settings w)) = true ->
          getViewState (at_host (Simple.app w')) x
          = {| vs_type := vs_type (getViewState (at_host (Simple.app w)) x);
               vs_active := vs_active (getViewState (at_host (Simple.app w)) x);
               vs_state :=
                 if Settings.rememberQuery (Simple.the_settings w)
                 then VObj (spread (Settings.lastSearchState (Simple.the_settings w)))
                 else VObj (assign "query" (VStr "")
                              (spread (Settings.lastSearchState (Simple.the_settings w)))) |}))
  /\ (x ∈ Simple.initializedSearchLeaves (Simple.plugin w) -> w' = w)
  /\ (forall l, is_Some (Simple.leafWatchIntervals (Simple.plugin w) !! l) ->
                is_Some (Simple.leafWatchIntervals (Simple.plugin w') !! l)).
Proof.
  unfold Simple.initializeLeaf. case_bool_decide as Hx.
  { repeat split; try done. apply set_eq. intros y. set_unfold. naive_solver. }
  cbv zeta.
  set (w1 := Simple.on_plugin _ w).
  change (Simple.the_settings w1) with (Simple.the_settings w).
  destruct (truthy (Settings.lastSearchState (Simple.the_settings w))) eqn:Ht.
  - match goal with
    | |- context [Simple.ensureWatchingLeaf x ?v] => set (w2 := v)
    end.
    destruct (simple_ensureWatchingLeaf_frame x w2)
      as (E1 & E2 & E3 & E4 & E5 & E6 & E7 & E8).
    cbv zeta in E1, E2, E3, E4, E5, E6, E7, E8.
    unfold getViewType, getViewState, at_host. cbn [host].
    rewrite E1, E2, E3, E4, E5, E6. cbn.
    repeat split; try done.
    + intros l. destruct (decide (x = l)) as [->|Hne].
      * by rewrite lookup_insert_eq.
      * by rewrite lookup_insert_ne.
    + intros l Hl. by rewrite lookup_insert_ne.
    + intros _. by rewrite lookup_insert_eq.
  - destruct (simple_ensureWatchingLeaf_frame x w1)
      as (E1 & E2 & E3 & E4 & E5 & E6 & E7 & E8).
    cbv zeta in E1, E2, E3, E4, E5, E6, E7, E8.
    unfold getViewType, getViewState, at_host. cbn [host].
    rewrite E1, E2, E3, E4, E5, E6. cbn.
    repeat split; try done.
Qed.

Lemma simple_fold_frame (ls : list leaf) : forall w : Simple.World,
  let w' := fold_left Simple.initializeLeaf ls w in
  Simple.settings (Simple.plugin w') = Simple.settings (Simple.plugin w)
  /\ Simple.initializedSearchLeaves (Simple.plugin w')
     = list_to_set ls ∪ Simple.initializedSearchLeaves (Simple.plugin w)
  /\ Simple.leafLastStateStr (Simple.plugin w') = Simple.leafLastStateStr (Simple.plugin w)
  /\ storage (Simple.app w') = storage (Simple.app w)
  /\ leaves (Simple.app w') = leaves (Simple.app w)
  /\ (forall l, getViewType (at_host (Simple.app w')) l
                = getViewType (at_host (Simple.app w)) l)
  /\ (forall l, l ∈ Simple.initializedSearchLeaves (Simple.plugin w) ->
                viewStates (Simple.app w') !! l = viewStates (Simple.app w) !! l)
  /\ (forall l, is_Some (Simple.leafWatchIntervals (Simple.plugin w) !! l) ->
                is_Some (Simple.leafWatchIntervals (Simple.plugin w') !! l)).
Proof.
  induction ls as [|x ls IH]; intros w.
  - cbn. repeat split; try done. apply set_eq. intros y. set_unfold. naive_solver.
  - cbv zeta. cbn [fold_left].
    destruct (simple_initializeLeaf_effect x w)
      as (S1 & S2 & S3 & S4 & S5 & S6 & S7 & S8 & S9 & S10).
    cbv zeta in S1, S2, S3, S4, S5, S6, S7, S8, S9, S10.
    destruct (IH (Simple.initializeLeaf w x)) as (I1 & I2 & I3 & I4 & I5 & I6 & I7 & I8).
    cbv zeta in I1, I2, I3, I4, I5, I6, I7, I8.
    rewrite I1, I2, I3, I4, I5, S1, S2, S3, S4, S5.
    repeat split; try done.
    + apply set_eq. intros y. set_unfold. naive_solver.
    + intros l. by rewrite I6, S6.
    + intros l Hl. rewrite I7 by (rewrite S2; set_solver).
      destruct (decide (l = x)) as [->|Hne]; [by rewrite (S9 Hl)|by apply S7].
    + intros l Hl. by apply I8, S10.
Qed.

Lemma simple_fold_applies (ls : list leaf) : forall (w : Simple.World) (c : leaf),
  c ∈ ls ->
  c ∉ Simple.initializedSearchLeaves (Simple.plugin w) ->
  let w' := fold_left Simple.initializeLeaf ls w in
  is_Some (Simple.leafWatchIntervals (Simple.plugin w') !! c)
  /\ (truthy (Settings.lastSearchState (Simple.the_settings w)) = true ->
      getViewState (at_host (Simple.app w')) c
      = {| vs_type := vs_type (getViewState (at_host (Simple.app w)) c);
           vs_active := vs_active (getViewState (at_host (Simple.app w)) c);
           vs_state :=
             if Settings.rememberQuery (Simple.the_settings w)
             then VObj (spread (Settings.lastSearchState (Simple.the_settings w)))
             else VObj (assign "query" (VStr "")
                          (spread (Settings.lastSearchState (Simple.the_settings w)))) |}).
Proof.
  induction ls as [|x ls IH]; intros w c Hin Hnew; [by apply elem_of_nil in Hin|].
  cbv zeta. cbn [fold_left].
  destruct (simple_initializeLeaf_effect x w)
    as (S1 & S2 & S3 & S4 & S5 & S6 & S7 & S8 & S9 & S10).
  cbv zeta in S1, S2, S3, S4, S5, S6, S7, S8, S9, S10.
  destruct (simple_fold_frame ls (Simple.initializeLeaf w x))
    as (I1 & I2 & I3 & I4 & I5 & I6 & I7 & I8).
  cbv zeta in I1, I2, I3, I4, I5, I6, I7, I8.
  destruct (decide (c = x)) as [->|Hne].
  - destruct (S8 Hnew) as [Hw Hv]. split; [by apply I8|].
    intros Ht. rewrite <- (Hv Ht). unfold getViewState, at_host. cbn [host].
    rewrite I7; [done|]. rewrite S2. set_solver.
  - apply elem_of_cons in Hin as [->|Hin]; [done|].
    destruct (IH (Simple.initializeLeaf w x) c Hin) as [Hw Hv].
    { rewrite S2. set_solver. }
    cbv zeta in Hv. split; [done|].
    unfold Simple.the_settings in *. rewrite S1 in Hv. intros Ht. rewrite (Hv Ht).
    unfold getViewState, at_host. cbn [host]. by rewrite (S7 c Hne).
Qed.

Lemma simple_fold_skips (ls : list leaf) : forall w : Simple.World,
  (forall l, l ∈ ls -> l ∈ Simple.initializedSearchLeaves (Simple.plugin w)) ->
  fold_left Simple.initializeLeaf ls w = w.
Proof.
  induction ls as [|x ls IH]; intros w Hall; [done|]. cbn [fold_left].
  assert (Simple.initializeLeaf w x = w) as ->.
  { unfold Simple.initializeLeaf. rewrite bool_decide_eq_true_2; [done|].
    apply Hall, list_elem_of_here. }
  apply IH. intros l Hl. by apply Hall, list_elem_of_further.
Qed.

(** X19: each search leaf is initialised once.  After
    [tryInitializeNewSearchLeaves] every attached search leaf is marked
    initialised, every leaf that was new has a polling timer, the settings
    and the stored data are untouched, and running the handler again changes
    nothing. *)
Theorem simple_initialization_is_once (w : Simple.World) :
  let w' := Simple.tryInitializeNewSearchLeaves w in
  (forall l, l ∈ getLeavesOfType "search" (at_host (Simple.app w)) ->
     l ∈ Simple.initializedSearchLeaves (Simple.plugin w')
     /\ (l ∉ Simple.initializedSearchLeaves (Simple.plugin w) ->
         is_Some (Simple.leafWatchIntervals (Simple.plugin w') !! l)))
  /\ Simple.the_settings w' = Simple.the_settings w
  /\ storage (Simple.app w') = storage (Simple.app w)
  /\ Simple.tryInitializeNewSearchLeaves w' = w'.
Proof.
  intros w'. unfold w', Simple.tryInitializeNewSearchLeaves.
  set (ls := getLeavesOfType "search" (at_host (Simple.app w))).
  destruct (simple_fold_frame ls w) as (I1 & I2 & I3 & I4 & I5 & I6 & I7 & I8).
  cbv zeta in I1, I2, I3, I4, I5, I6, I7, I8.
  split; [|split; [done|split; [done|]]].
  - intros l Hl. split; [rewrite I2; set_solver|].
    intros Hnew. by destruct (simple_fold_applies ls w l Hl Hnew) as [Hw _].
  - assert (getLeavesOfType "search" (at_host (Simple.app (fold_left Simple.initializeLeaf ls w)))
            = ls) as ->.
    { unfold ls, getLeavesOfType, at_host in *. cbn [host] in *. rewrite I5.
      apply filter_ext. intros l. by rewrite I6. }
    apply simple_fold_skips. intros l Hl. rewrite I2. set_solver.
Qed.

(** X20: on a workspace event the snapshot handler runs before the
    initialising handler.  When the active leaf is a search view that has
    not been initialised yet and reports an object as its state, the event
    first replaces the remembered state by the sanitized state of that very
    leaf, whatever was remembered before, and then writes it back to the
    leaf: the leaf keeps its own settings, with the query emptied when
    [rememberQuery] is off. *)
Theorem simple_event_replaces_remembered_state (c : leaf) (ps : list (string * value))
    (w : Simple.World) :
  activeLeaf (Simple.app w) = Some c ->
  c ∈ leaves (Simple.app w) ->
  getViewType (at_host (Simple.app w)) c = "search" ->
  vs_state (getViewState (at_host (Simple.app w)) c) = VObj ps ->
  c ∉ Simple.initializedSearchLeaves (Simple.plugin w) ->
  let w' := Simple.workspaceEvent w in
  let rq := Settings.rememberQuery (Simple.the_settings w) in
  Settings.lastSearchState (Simple.the_settings w')
  = (if rq then VObj ps else VObj (omit "query" ps))
  /\ vs_state (getViewState (at_host (Simple.app w')) c)
     = (if rq then VObj ps else VObj (assign "query" (VStr "") (omit "query" ps)))
  /\ storage (Simple.app w') = Some (Simple.the_settings w').
Proof.
  intros Ha Hin Hty Hst Hnew w' rq.
  assert (c ∈ getLeavesOfType "search" (at_host (Simple.app w))) as Hc.
  { unfold getLeavesOfType. apply list_elem_of_In, filter_In. split.
    - by apply list_elem_of_In.
    - by apply String.eqb_eq. }
  assert (Simple.getAnySearchState w = VObj ps) as Hany.
  { unfold Simple.getAnySearchState, getAnySearchState.
    destruct (getLeavesOfType "search" (at_host (Simple.app w))) as [|first rest];
      [by apply elem_of_nil in Hc|].
    cbn [at_host host]. rewrite Ha. apply String.eqb_eq in Hty. rewrite Hty.
    by rewrite Hst. }
  set (w1 := Simple.snapshotSearchState w).
  assert (w1 = Simple.saveSettings
                 (Simple.set_lastSearchState (Simple.sanitize w (VObj ps)) w)) as Hw1.
  { unfold w1, Simple.snapshotSearchState. by rewrite Hany. }
  assert (Simple.sanitize w (VObj ps) = if rq then VObj ps else VObj (omit "query" ps))
    as Hsan.
  { unfold Simple.sanitize, sanitizeSearchStateForPersistence. fold rq. by destruct rq. }
  assert (Settings.lastSearchState (Simple.the_settings w1)
          = if rq then VObj ps else VObj (omit "query" ps)) as Hlast.
  { rewrite Hw1, <- Hsan. unfold Settings.lastSearchState, Settings.field. cbn.
    by rewrite lookup_insert_eq. }
  assert (Settings.rememberQuery (Simple.the_settings w1) = rq) as Hrq.
  { rewrite Hw1. unfold rq, Settings.rememberQuery, Settings.field. cbn.
    by rewrite lookup_insert_ne. }
  assert (storage (Simple.app w1) = Some (Simple.the_settings w1)) as Hsto
    by (by rewrite Hw1).
  assert (Simple.app w1 = in_app (log (CSaveData (Simple.the_settings w1)))
                            (h_storage (Some (Simple.the_settings w1)) (Simple.app w)))
    as Happ by (by rewrite Hw1).
  assert (getLeavesOfType "search" (at_host (Simple.app w1))
          = getLeavesOfType "search" (at_host (Simple.app w))) as Hls
    by (by rewrite Happ).
  assert (getViewState (at_host (Simple.app w1)) c = getViewState (at_host (Simple.app w)) c)
    as Hvs by (by rewrite Happ).
  assert (Simple.initializedSearchLeaves (Simple.plugin w1)
          = Simple.initializedSearchLeaves (Simple.plugin w)) as Hini by (by rewrite Hw1).
  unfold w', Simple.workspaceEvent, Simple.tryInitializeNewSearchLeaves. fold w1.
  rewrite Hls.
  set (ls := getLeavesOfType "search" (at_host (Simple.app w))) in *.
  destruct (simple_fold_frame ls w1) as (I1 & _ & _ & I4 & _).
  cbv zeta in I1, I4.
  destruct (simple_fold_applies ls w1 c Hc) as [_ Hv]; [by rewrite Hini|].
  cbv zeta in Hv. clearbody w1.
  unfold Simple.the_settings in *. rewrite I1, I4.
  split; [done|]. split; [|done].
  rewrite Hv by (rewrite Hlast; by destruct rq).
  cbn [vs_state]. rewrite Hrq, Hlast. by destruct rq.
Qed.

Lemma simple_event_replaces_remembered_state_witness :
  Settings.lastSearchState
    (Simple.the_settings (Simple.workspaceEvent SimpleExample.remembering))
  = VObj (omit "query" [("query", VStr "todo"); ("sort", VStr "alpha")]).
Proof.
  assert (activeLeaf (Simple.app SimpleExample.remembering) = Some 10%nat) as H1
    by (vm_compute; reflexivity).
  assert (10%nat ∈ leaves (Simple.app SimpleExample.remembering)) as H2
    by apply list_elem_of_here.
  assert (getViewType (at_host (Simple.app SimpleExample.remembering)) 10%nat = "search")
    as H3 by (vm_compute; reflexivity).
  assert (vs_state (getViewState (at_host (Simple.app SimpleExample.remembering)) 10%nat)
          = VObj [("query", VStr "todo"); ("sort", VStr "alpha")]) as H4
    by (vm_compute; reflexivity).
  assert (10%nat ∉ Simple.initializedSearchLeaves (Simple.plugin SimpleExample.remembering))
    as H5 by (cbn; set_solver).
  pose proof (simple_event_replaces_remembered_state 10%nat _ SimpleExample.remembering
                H1 H2 H3 H4 H5) as H.
  cbv zeta in H. destruct H as [H _].
  assert (Settings.rememberQuery (Simple.the_settings SimpleExample.remembering) = false)
    as Hrq by (vm_compute; reflexivity).
  rewrite Hrq in H. exact H.
Defined.

(** ** The polling task of the first version *)

Lemma omit_absent (k : string) (ps : list (string * value)) :
  assoc k ps = None -> omit k ps = ps.
Proof.
  unfold omit. induction ps as [|[k' y] ps IH]; cbn; [done|].
  destruct (String.eqb k' k); [done|]. cbn. intros H. by rewrite IH.
Qed.

Lemma simple_sanitize_after_save (v st : value) (w : Simple.World) (f : Simple.Plugin -> Simple.Plugin) :
  (forall p, Simple.settings (f p) = Simple.settings p) ->
  Simple.sanitize (Simple.saveSettings (Simple.set_lastSearchState v (Simple.on_plugin f w))) st
  = Simple.sanitize w st.
Proof.
  intros Hf. unfold Simple.sanitize, Simple.the_settings, Settings.rememberQuery,
    Settings.field. cbn. by rewrite lookup_insert_ne, Hf.
Qed.

(** X21: the first tick of a polling task always saves.  On a search leaf
    without a recorded serialisation, a tick stores the sanitized state of
    the view as the remembered state and writes the settings to disk,
    whether the view reports an object or no state at all; in the second
    case the remembered state becomes [null].  The next tick that finds the
    same view state changes nothing. *)
Theorem simple_first_poll_saves_then_settles (l : leaf) (w : Simple.World) :
  getViewType (at_host (Simple.app w)) l = "search" ->
  Simple.leafLastStateStr (Simple.plugin w) !! l = None ->
  typeof (nullish_to_null (vs_state (getViewState (at_host (Simple.app w)) l))) = "object" ->
  let cur := nullish_to_null (vs_state (getViewState (at_host (Simple.app w)) l)) in
  let w' := Simple.poll l w in
  Settings.lastSearchState (Simple.the_settings w') = Simple.sanitize w cur
  /\ (vs_state (getViewState (at_host (Simple.app w)) l) = VNull ->
      Settings.lastSearchState (Simple.the_settings w') = VNull)
  /\ storage (Simple.app w') = Some (Simple.the_settings w')
  /\ Simple.leafLastStateStr (Simple.plugin w') !! l = stringify (Simple.sanitize w cur)
  /\ Simple.poll l w' = w'.
Proof.
  intros Hty Hprev Hobj cur w'. fold cur in Hobj.
  assert (exists s, stringify (Simple.sanitize w cur) = Some s /\ s <> "") as (s & Hs & Hne).
  { unfold Simple.sanitize, sanitizeSearchStateForPersistence.
    destruct cur as [| | | | |props]; try done; cbn.
    - by eexists.
    - destruct (Settings.rememberQuery _); by eexists. }
  assert (w' = Simple.saveSettings
                 (Simple.set_lastSearchState (Simple.sanitize w cur)
                    (Simple.on_plugin
                       (fun p => Simple.p_leafLastStateStr
                                   (<[l := s]> (Simple.leafLastStateStr p)) p) w))) as Hw'.
  { unfold w', Simple.poll. apply String.eqb_eq in Hty. rewrite Hty. cbn [negb].
    cbv zeta. fold cur. rewrite Hs, Hprev. cbn [truthy_str].
    apply String.eqb_neq in Hne. rewrite Hne. cbn [negb andb].
    by rewrite bool_decide_eq_false_2. }
  assert (Settings.lastSearchState (Simple.the_settings w') = Simple.sanitize w cur) as Hl.
  { rewrite Hw'. unfold Settings.lastSearchState, Settings.field. cbn.
    by rewrite lookup_insert_eq. }
  split; [done|]. split.
  { intros Hnull. rewrite Hl. unfold cur. by rewrite Hnull. }
  split; [by rewrite Hw'|]. split.
  { rewrite Hw'. cbn. by rewrite lookup_insert_eq. }
  assert (Simple.sanitize w' cur = Simple.sanitize w cur) as Hsan.
  { rewrite Hw'. by apply simple_sanitize_after_save. }
  assert (getViewState (at_host (Simple.app w')) l = getViewState (at_host (Simple.app w)) l)
    as Hvs by (by rewrite Hw').
  assert (Simple.leafLastStateStr (Simple.plugin w') !! l = Some s) as Hp.
  { rewrite Hw'. cbn. by rewrite lookup_insert_eq. }
  clearbody w'. unfold Simple.poll, getViewType. rewrite Hvs.
  unfold getViewType in Hty. apply String.eqb_eq in Hty. rewrite Hty. cbn [negb].
  cbv zeta. fold cur. rewrite Hsan, Hs, Hp.
  by rewrite bool_decide_eq_true_2, andb_false_r.
Qed.

Lemma simple_first_poll_saves_then_settles_witness :
  Simple.poll 10%nat (Simple.poll 10%nat SimpleExample.remembering)
  = Simple.poll 10%nat SimpleExample.remembering.
Proof.
  assert (getViewType (at_host (Simple.app SimpleExample.remembering)) 10%nat = "search")
    as H1 by (vm_compute; reflexivity).
  assert (Simple.leafLastStateStr (Simple.plugin SimpleExample.remembering) !! 10%nat = None)
    as H2 by (vm_compute; reflexivity).
  assert (typeof (nullish_to_null
                    (vs_state (getViewState (at_host (Simple.app SimpleExample.remembering))
                                 10%nat))) = "object") as H3 by (vm_compute; reflexivity).
  pose proof (simple_first_poll_saves_then_settles 10%nat SimpleExample.remembering
                H1 H2 H3) as H.
  cbv zeta in H. destruct H as (_ & _ & _ & _ & H). exact H.
Defined.

(** X22: initialising a leaf does not change what is remembered.  When the
    remembered state is an object that the sanitizer would keep as it is
    ([rememberQuery] on, or no [query] property), initialising a new search
    leaf and the tick that follows leave the settings exactly as they
    were: the state the tick reads back and saves is the one that was
    applied. *)
Theorem simple_initialized_leaf_keeps_memory (l : leaf) (ps : list (string * value))
    (w : Simple.World) :
  l ∉ Simple.initializedSearchLeaves (Simple.plugin w) ->
  getViewType (at_host (Simple.app w)) l = "search" ->
  Simple.settings (Simple.plugin w) !! "lastSearchState" = Some (VObj ps) ->
  Settings.rememberQuery (Simple.the_settings w) = true \/ assoc "query" ps = None ->
  let w1 := Simple.initializeLeaf w l in
  vs_state (getViewState (at_host (Simple.app w1)) l)
  = (if Settings.rememberQuery (Simple.the_settings w) then VObj ps
     else VObj (assign "query" (VStr "") ps))
  /\ Simple.the_settings (Simple.poll l w1) = Simple.the_settings w.
Proof.
  intros Hnew Hty Hlast Hkeep w1.
  destruct (simple_initializeLeaf_effect l w)
    as (S1 & S2 & S3 & S4 & S5 & S6 & S7 & S8 & S9 & S10).
  cbv zeta in S1, S2, S3, S4, S5, S6, S7, S8, S9, S10. fold w1 in S1, S2, S3, S4, S5, S6, S7, S8.
  assert (Settings.lastSearchState (Simple.the_settings w) = VObj ps) as Hl.
  { unfold Settings.lastSearchState, Settings.field, Simple.the_settings. by rewrite Hlast. }
  destruct (S8 Hnew) as [_ Hv]. rewrite Hl in Hv. specialize (Hv eq_refl).
  cbn [spread] in Hv.
  split; [rewrite Hv; cbn; by destruct (Settings.rememberQuery _)|].
  clearbody w1. unfold Simple.poll. rewrite S6.
  apply String.eqb_eq in Hty. rewrite Hty. cbn [negb]. cbv zeta.
  destruct (_ && _); [|by unfold Simple.the_settings; rewrite S1].
  unfold Simple.the_settings. cbn. rewrite S1.
  assert (Simple.sanitize w1 (nullish_to_null (vs_state (getViewState (at_host (Simple.app w1)) l)))
          = VObj ps) as ->.
  { rewrite Hv. cbn [vs_state].
    unfold Simple.sanitize, Simple.the_settings. rewrite S1.
    fold (Simple.the_settings w).
    destruct (Settings.rememberQuery (Simple.the_settings w)) eqn:Hrq; cbn; [done|].
    destruct Hkeep as [Hk|Hk]; [done|]. by rewrite omit_assign, omit_absent. }
  by apply insert_id.
Qed.

Lemma simple_initialized_leaf_keeps_memory_witness :
  Simple.the_settings (Simple.poll 10%nat (Simple.initializeLeaf SimpleExample.remembering 10%nat))
  = Simple.the_settings SimpleExample.remembering.
Proof.
  assert (10%nat ∉ Simple.initializedSearchLeaves (Simple.plugin SimpleExample.remembering))
    as H1 by (cbn; set_solver).
  assert (getViewType (at_host (Simple.app SimpleExample.remembering)) 10%nat = "search")
    as H2 by (vm_compute; reflexivity).
  assert (Simple.settings (Simple.plugin SimpleExample.remembering) !! "lastSearchState"
          = Some (VObj [("sort", VStr "byModified")])) as H3 by (vm_compute; reflexivity).
  assert (Settings.rememberQuery (Simple.the_settings SimpleExample.remembering) = true
          \/ assoc "query" [("sort", VStr "byModified")] = None) as H4 by (by right).
  pose proof (simple_initialized_leaf_keeps_memory 10%nat _ SimpleExample.remembering
                H1 H2 H3 H4) as H.
  cbv zeta in H. destruct H as [_ H]. exact H.
Defined.

(** ** Helpers that nothing calls *)

(** X23: [findRecentSidebarSearchView] and [shouldRedirectSearchView]
    agree.  The first returns the first attached search leaf, in workspace
    order, for which the second answers yes; it returns nothing exactly when
    the second answers no for every attached search leaf.  Both only fill
    the location cache. *)
Theorem findRecent_agrees_with_shouldRedirect (w : World) :
  let found := fst (findRecentSidebarSearchView w) in
  let yes := fun l => fst (shouldRedirectSearchView l w) in
  found = List.find yes (getLeavesOfType "search" w)
  /\ (forall l, found = Some l -> yes l = true /\ l ∈ getLeavesOfType "search" w)
  /\ (found = None -> forall l, l ∈ getLeavesOfType "search" w -> yes l = false)
  /\ cache_only w (snd (findRecentSidebarSearchView w))
  /\ (forall l, cache_only w (snd (shouldRedirectSearchView l w))).
Proof.
  intros found yes.
  assert (forall l, yes l = negb (classify l w)
                            && negb (bool_decide (l ∈ processedLeaves (plugin w)))) as Hyes.
  { intros l. unfold yes, shouldRedirectSearchView.
    destruct (isInMainArea l w) as [b w1] eqn:E.
    destruct (isInMainArea_cache_only _ _ _ _ E) as [-> (_ & [c Hp] & _)].
    rewrite Hp. cbn. destruct (classify l w); [done|]. cbn. by case_bool_decide. }
  assert (found = List.find yes (getLeavesOfType "search" w)) as Hfound.
  { unfold found, findRecentSidebarSearchView. cbv zeta.
    destruct (sidebarOnly _ _) as [r w1] eqn:E.
    destruct (sidebarOnly_filter _ _ _ _ E) as [-> (_ & [c Hp] & _)].
    rewrite Hp. cbn. unfold peripheral. clear E.
    induction (getLeavesOfType "search" w) as [|x xs IH]; [done|]. cbn.
    rewrite Hyes. destruct (classify x w); cbn; [done|].
    rewrite IH. by destruct (bool_decide (x ∈ processedLeaves (plugin w))). }
  split; [done|]. rewrite Hfound. split; [|split; [|split]].
  - intros l Hl. apply find_some in Hl as [Hin Hy]. split; [done|].
    by apply list_elem_of_In.
  - intros Hn l Hl. apply list_elem_of_In in Hl.
    by apply (find_none _ _ Hn).
  - unfold findRecentSidebarSearchView. cbv zeta.
    destruct (sidebarOnly _ _) as [r w1] eqn:E.
    by destruct (sidebarOnly_filter _ _ _ _ E) as [_ H].
  - intros l. unfold shouldRedirectSearchView.
    destruct (isInMainArea l w) as [b w1] eqn:E.
    destruct (isInMainArea_cache_only _ _ _ _ E) as [_ H].
    by repeat case_match.
Qed.

(** ** Switching redirection off at run time *)

Lemma step_fires_queued (t delay : Z) (k : task) (w : World) :
  step t (EvTimeout (List.length (pending (host w)))) (setTimeout k delay w)
  = run_task t k w.
Proof.
  unfold step, setTimeout. cbn. rewrite list_lookup_middle by done. f_equal.
  destruct w as [p h]. unfold on_host. cbn. f_equal. destruct h. cbn. f_equal.
  by rewrite delete_middle, app_nil_r.
Qed.

(** X24: switching the redirection setting off in the settings tab does not
    undo the command wrapper.  With the wrapper installed, after the toggle
    is switched off a search command still queues a redirection pass, and
    that pass still hides the first peripheral search leaf, opens its
    replacement and queues its detachment, although the setting now reads
    off. *)
Theorem command_redirection_survives_toggle_off (now t : Z) (target : leaf)
    (rest : list leaf) (w : World) :
  loaded (plugin w) = true ->
  executeCommand (host w) = Some PluginHook ->
  originalExecuteCommand (plugin w) = Some HostExecute ->
  peripheral w (getLeavesOfType "search" w) = target :: rest ->
  let w1 := step now (EvToggle "openBookmarksInMainArea" false) w in
  let w2 :=
    run [(t, EvExecuteCommand "global-search:open");
         (t, EvTimeout (List.length (pending (host w))))] w1 in
  Settings.openBookmarksInMainArea (the_settings w1) = false
  /\ CHide target ∈ calls (host w2)
  /\ (10, TDetach target) ∈ pending (host w2)
  /\ leaves (host w2) = (leaves (host w) ++ [nextLeaf (host w)])%list.
Proof.
  intros Hl Hx Ho Hper w1 w2.
  assert (w1 = saveSettings
                 (on_plugin (fun p => p_settings
                    (<["openBookmarksInMainArea" := VBool false]> (settings p)) p) w)) as Hw1.
  { unfold w1, step. rewrite Hl. unfold toggleSetting. cbv zeta.
    by rewrite andb_false_r. }
  assert (Settings.openBookmarksInMainArea (the_settings w1) = false) as Hoff.
  { rewrite Hw1. unfold Settings.openBookmarksInMainArea, Settings.field. cbn.
    by rewrite lookup_insert_eq. }
  split; [done|].
  set (w1a := log (CExecuteCommand "global-search:open") w1).
  assert (exists c,
            step t (EvExecuteCommand "global-search:open") w1
            = setTimeout TRedirectionPass 0
                (on_plugin (fun p =>
                   p_processedLeaves
                     (processedLeaves p
                        ∖ list_to_set (peripheral w1a (getLeavesOfType "search" w1a))) p)
                   (on_plugin (p_leafLocationCache c) w1a))
            /\ forall l, classify l (on_plugin (p_leafLocationCache c) w1a) = classify l w1a)
    as (c & Hstep & Hcl).
  { unfold step, dispatchCommand, executeCommandHook.
    assert (executeCommand (host w1) = Some PluginHook) as -> by (by rewrite Hw1).
    assert (originalExecuteCommand (plugin w1) = Some HostExecute) as ->
      by (by rewrite Hw1).
    cbn [negb String.eqb isSearchCommand existsb andb orb]. cbv zeta. fold w1a.
    destruct (sidebarOnly _ _) as [r w2'] eqn:E.
    destruct (sidebarOnly_filter _ _ _ _ E) as [-> (Hh & [c Hp] & Hc)].
    exists c.
    assert (w2' = on_plugin (p_leafLocationCache c) w1a) as ->.
    { destruct w2', w1a. cbn in *. by subst. }
    by split. }
  set (w3 := on_plugin _ (on_plugin (p_leafLocationCache c) w1a)) in Hstep.
  assert (host w3 = host w1a) as Hh3 by done.
  assert (pending (host w1a) = pending (host w)) as Hpend by (unfold w1a; by rewrite Hw1).
  assert (leaves (host w1a) = leaves (host w)) as Hlv by (unfold w1a; by rewrite Hw1).
  assert (nextLeaf (host w1a) = nextLeaf (host w)) as Hnl by (unfold w1a; by rewrite Hw1).
  assert (getLeavesOfType "search" w3 = getLeavesOfType "search" w) as Hls.
  { unfold getLeavesOfType, getViewType, getViewState. rewrite Hh3. unfold w1a.
    by rewrite Hw1. }
  assert (forall l, classify l w3 = classify l w) as Hc3.
  { intros l. transitivity (classify l (on_plugin (p_leafLocationCache c) w1a)).
    - by apply classify_ext.
    - rewrite Hcl. apply classify_ext; unfold w1a; by rewrite Hw1. }
  assert (w2 = handleSearchCommandExecution w3) as Hw2.
  { unfold w2, run. cbn [fold_left]. rewrite Hstep, <- Hpend, <- Hh3.
    by rewrite step_fires_queued. }
  pose proof (handleSearchCommandExecution_effect w3) as Heff. cbv zeta in Heff.
  assert (peripheral w3 (getLeavesOfType "search" w3) = target :: rest) as Hper3.
  { rewrite Hls, <- Hper. unfold peripheral. apply filter_ext. intros l. by rewrite Hc3. }
  rewrite Hper3, <- Hw2 in Heff.
  destruct Heff as (_ & (cs & Hcalls & _) & (q & Hq & _) & Hleaves & _).
  split; [|split].
  - rewrite Hcalls. apply elem_of_app. right. apply list_elem_of_here.
  - rewrite Hq. apply elem_of_app. right. apply elem_of_app. right. apply list_elem_of_here.
  - by rewrite Hleaves, Hh3, Hlv, Hnl.
Qed.

Lemma command_redirection_survives_toggle_off_witness :
  CHide 10%nat
  ∈ calls (host (run [(1005000, EvExecuteCommand "global-search:open");
                      (1005000, EvTimeout (List.length (pending (host Example.loaded_world))))]
                   (step 1004000 (EvToggle "openBookmarksInMainArea" false)
                      Example.loaded_world))).
Proof.
  assert (loaded (plugin Example.loaded_world) = true) as H1 by (vm_compute; reflexivity).
  assert (executeCommand (host Example.loaded_world) = Some PluginHook) as H2
    by (vm_compute; reflexivity).
  assert (originalExecuteCommand (plugin Example.loaded_world) = Some HostExecute) as H3
    by (vm_compute; reflexivity).
  assert (peripheral Example.loaded_world (getLeavesOfType "search" Example.loaded_world)
          = [10%nat]) as H4 by (vm_compute; reflexivity).
  pose proof (command_redirection_survives_toggle_off 1004000 1005000 10%nat []
                Example.loaded_world H1 H2 H3 H4) as H.
  cbv zeta in H. destruct H as (_ & H & _). exact H.
Defined.

(** ** Tracking at load *)

Lemma setViewState_in_grace (now : Z) (l : leaf) (vs : ViewState) (w : World) :
  isInInitializationGracePeriod now w = true ->
  exists c, setViewState now l vs w
            = host_setViewState l vs (on_plugin (p_leafLocationCache c) w).
Proof.
  intros Hg. unfold setViewState. case_bool_decide.
  - unfold setViewStateHook. destruct (isInMainArea l w) as [b w1] eqn:E.
    destruct (isInMainArea_cache_only _ _ _ _ E) as [-> (Hh & [c Hp] & Hc)].
    assert (w1 = on_plugin (p_leafLocationCache c) w) as ->.
    { destruct w, w1. cbn in *. by subst. }
    exists c.
    assert (isInInitializationGracePeriod now (on_plugin (p_leafLocationCache c) w)
            = isInInitializationGracePeriod now w) as -> by done.
    by rewrite Hg, andb_false_r.
  - exists (leafLocationCache (plugin w)). by destruct w as [[] ?].
Qed.

(** What [processNewSearchLeaf] does to the tracking tables during the
    grace period, for a leaf without a timer. *)
Lemma processNewSearchLeaf_in_grace (now : Z) (x : leaf) (w : World) :
  isInInitializationGracePeriod now w = true ->
  leafWatchIntervals (plugin w) !! x = None ->
  let w' := processNewSearchLeaf now x w in
  processedLeaves (plugin w') = {[x]} ∪ processedLeaves (plugin w)
  /\ leafCreationTime (plugin w') = <[x := now]> (leafCreationTime (plugin w))
  /\ leafWatchIntervals (plugin w')
     = <[x := nextIntervalId (host w)]> (leafWatchIntervals (plugin w))
  /\ intervals (host w') = <[nextIntervalId (host w) := x]> (intervals (host w))
  /\ nextIntervalId (host w') = S (nextIntervalId (host w))
  /\ isInitialLoad (plugin w') = isInitialLoad (plugin w).
Proof.
  intros Hg Hw. unfold processNewSearchLeaf. cbv zeta.
  set (w2 := on_plugin _ (on_plugin _ w)).
  assert (isInInitializationGracePeriod now w2 = true) as -> by done.
  destruct (truthy (Settings.lastSearchState (the_settings w2))).
  - unfold applySettingsToNewLeaf. cbv zeta.
    match goal with
    | |- context [setViewState now x ?ns w2] =>
        destruct (setViewState_in_grace now x ns w2) as [c ->]; [done|]
    end.
    unfold startIntelligentMonitoring. cbn. rewrite Hw.
    rewrite bool_decide_eq_false_2 by (by intros [? ?]). by cbn.
  - unfold startIntelligentMonitoring. cbn. rewrite Hw.
    rewrite bool_decide_eq_false_2 by (by intros [? ?]). by cbn.
Qed.

Lemma processUnseen_tracks (now : Z) (ls : list leaf) : forall w : World,
  isInitialLoad (plugin w) = true ->
  (forall l, l ∉ processedLeaves (plugin w) -> leafWatchIntervals (plugin w) !! l = None) ->
  let w' := processUnseen now ls w in
  (forall l, watched now l w -> watched now l w')
  /\ (forall l, l ∈ ls -> l ∉ processedLeaves (plugin w) -> watched now l w')
  /\ (forall l, l ∈ processedLeaves (plugin w') <->
                l ∈ processedLeaves (plugin w) \/ l ∈ ls).
Proof.
  induction ls as [|x ls IH]; intros w Hi Hinv.
  - cbn. split; [done|]. split; [by intros l Hl%elem_of_nil|].
    intros l. split; [by left|]. by intros [?|?%elem_of_nil].
  - cbv zeta. unfold processUnseen. cbn [fold_left].
    case_bool_decide as Hx.
    + destruct (IH w Hi Hinv) as (K1 & K2 & K3). cbv zeta in K1, K2, K3.
      unfold processUnseen in K1, K2, K3.
      split; [done|]. split.
      * intros l [->|Hl]%elem_of_cons Hn; [done|by apply K2].
      * intros l. rewrite K3, elem_of_cons. naive_solver.
    + assert (isInInitializationGracePeriod now w = true) as Hg.
      { unfold isInInitializationGracePeriod. by rewrite Hi. }
      destruct (processNewSearchLeaf_in_grace now x w Hg (Hinv x Hx))
        as (E1 & E2 & E3 & E4 & E5 & E6).
      cbv zeta in E1, E2, E3, E4, E5, E6.
      set (w1 := processNewSearchLeaf now x w) in *.
      assert (forall l, watched now l w -> watched now l w1) as Hkeep.
      { intros l (Hm & Hc & id & Hw & Hiv & Hlt).
        assert (l <> x) as Hne by (by intros ->).
        split; [rewrite E1; set_solver|]. split; [by rewrite E2, lookup_insert_ne|].
        exists id. rewrite E3, E4, E5, !lookup_insert_ne by lia. repeat split; [done..|lia]. }
      assert (watched now x w1) as Hwx.
      { split; [rewrite E1; set_solver|]. split; [by rewrite E2, lookup_insert_eq|].
        exists (nextIntervalId (host w)). rewrite E3, E4, E5, !lookup_insert_eq.
        repeat split. lia. }
      destruct (IH w1) as (K1 & K2 & K3).
      { by rewrite E6. }
      { intros l Hl. rewrite E3. rewrite E1 in Hl.
        rewrite lookup_insert_ne by set_solver. apply Hinv. set_solver. }
      cbv zeta in K1, K2, K3. unfold processUnseen in K1, K2, K3.
      split; [by intros l Hl; apply K1, Hkeep|]. split.
      * intros l [->|Hl]%elem_of_cons Hn; [by apply K1|].
        destruct (decide (l = x)) as [->|Hne]; [by apply K1|].
        apply K2; [done|]. rewrite E1. set_solver.
      * intros l. rewrite K3, E1, elem_of_cons. set_unfold. naive_solver.
Qed.

#[local] Hint Extern 1 (keeps (watched _ _) ?w (on_plugin _ ?w)) =>
  (unfold keeps, watched; cbn; by auto) : frames.
#[local] Hint Extern 1 (keeps (watched _ _) ?w (on_host _ ?w)) =>
  (unfold keeps, watched; cbn; by auto) : frames.
#[local] Hint Extern 1 (keeps (watched _ _) ?w (setTimeout _ _ ?w)) =>
  (unfold keeps, watched; cbn; by auto) : frames.

Lemma isInMainArea_watched t l0 l w b w' :
  isInMainArea l w = (b, w') -> keeps (watched t l0) w w'.
Proof. unfold isInMainArea. case_match; intros [= <- <-]; frame. Qed.
#[local] Hint Resolve isInMainArea_watched : frames.
Lemma monitorLeafViewState_watched t l0 l w : keeps (watched t l0) w (monitorLeafViewState l w).
Proof. unfold monitorLeafViewState. frame. Qed.
#[local] Hint Resolve monitorLeafViewState_watched : frames.
Lemma monitorSidebarLeaves_watched t l0 w : keeps (watched t l0) w (monitorSidebarLeaves w).
Proof. unfold monitorSidebarLeaves. apply fold_left_frame; [apply _..|]. frame. Qed.
#[local] Hint Resolve monitorSidebarLeaves_watched : frames.
Lemma setupViewStateMonitoring_watched t l0 w :
  keeps (watched t l0) w (setupViewStateMonitoring w).
Proof. unfold setupViewStateMonitoring. frame. Qed.
Lemma setupCommandInterception_watched t l0 w :
  keeps (watched t l0) w (setupCommandInterception w).
Proof. unfold setupCommandInterception. frame. Qed.
Lemma setupStartupCleanup_watched t l0 w : keeps (watched t l0) w (setupStartupCleanup w).
Proof. unfold setupStartupCleanup. frame. Qed.
#[local] Hint Resolve setupViewStateMonitoring_watched setupCommandInterception_watched
  setupStartupCleanup_watched : frames.

(** X25: at load every search view gets tracked.  When a fresh instance
    (nothing processed, no timer recorded) is loaded with redirection on,
    every attached search leaf, in the main area or not, is marked
    processed with the load time as its creation time and gets a live
    polling timer of its own; exactly the attached search leaves are marked,
    and the initial-load flag is cleared only at the end. *)
Theorem onload_tracks_every_search_leaf (now : Z) (w : World) :
  isInitialLoad (plugin w) = true ->
  processedLeaves (plugin w) = ∅ ->
  leafWatchIntervals (plugin w) = ∅ ->
  Settings.openBookmarksInMainArea (Settings.assign_defaults (storage (host w))) = true ->
  let w' := onload now w in
  (forall l, l ∈ getLeavesOfType "search" w -> watched now l w')
  /\ (forall l, l ∈ processedLeaves (plugin w') <-> l ∈ getLeavesOfType "search" w)
  /\ isInitialLoad (plugin w') = false
  /\ initializationCompleteTime (plugin w') = now.
Proof.
  intros Hi Hp Hw Hflag w'.
  set (w2 := on_plugin (p_loaded true) (loadSettings w)).
  set (w3 := clearLocationCache w2).
  set (ls := getLeavesOfType "search" w).
  assert (handleLayoutChanges now w2 = processUnseen now ls w3) as Hlc.
  { unfold handleLayoutChanges. cbv zeta. fold w3.
    assert (Settings.openBookmarksInMainArea (the_settings w3) = true) as -> by done.
    done. }
  destruct (processUnseen_tracks now ls w3) as (_ & K2 & K3).
  { done. }
  { intros l _. unfold w3, w2. cbn. by rewrite Hw. }
  cbv zeta in K2, K3. rewrite <- Hlc in K2, K3.
  set (w4 := handleLayoutChanges now w2) in *.
  assert (forall l, keeps (watched now l) w4 w') as Hk.
  { intros l. unfold w', onload. cbv zeta. fold w2. fold w4. clearbody w4. frame. }
  assert (processedLeaves (plugin w') = processedLeaves (plugin w4)) as Hsame.
  { unfold w', onload. cbv zeta. fold w2. fold w4. clearbody w4.
    assert (forall v, processedLeaves (plugin (setupViewStateMonitoring v))
                      = processedLeaves (plugin v)) as Hv.
    { intros v. unfold setupViewStateMonitoring, monitorSidebarLeaves.
      destruct (monitorSidebarLeaves_fold (leaves (host v)) v) as (_ & _ & _ & H4).
      cbv zeta in H4. apply (f_equal (fun x => processedLeaves (plugin x))) in H4.
      cbn in H4. cbn. exact H4. }
    set (w5 := if Settings.openBookmarksInMainArea (the_settings w4)
               then setupViewStateMonitoring w4 else w4).
    assert (processedLeaves (plugin w5) = processedLeaves (plugin w4)) as H5
      by (unfold w5; case_match; [apply Hv|done]).
    clearbody w5.
    set (w6 := if Settings.openBookmarksInMainArea (the_settings w5)
               then setupCommandInterception w5 else w5).
    assert (processedLeaves (plugin w6) = processedLeaves (plugin w5)) as H6
      by (unfold w6, setupCommandInterception; by repeat case_match).
    clearbody w6.
    set (w7 := if Settings.clearSidebarSearchOnStartup (the_settings w6)
               then setupStartupCleanup w6 else w6).
    assert (processedLeaves (plugin w7) = processedLeaves (plugin w6)) as H7
      by (unfold w7; by case_match).
    clearbody w7. cbn. congruence. }
  assert (isInitialLoad (plugin w') = false /\ initializationCompleteTime (plugin w') = now)
    as [Hf Ht] by (by unfold w', onload).
  assert (processedLeaves (plugin w3) = ∅) as Hp3 by (by rewrite <- Hp).
  clearbody w' w4. clear Hlc. clearbody w3.
  split; [|split; [|by split]].
  - intros l Hl. pose proof (Hk l) as Hkl. unfold keeps in Hkl. apply Hkl.
    apply K2; [exact Hl|]. rewrite Hp3. apply not_elem_of_empty.
  - intros l. rewrite Hsame, K3, Hp3. split; [|by right].
    intros [Hl|Hl]; [by apply elem_of_empty in Hl|done].
Qed.

Lemma onload_tracks_every_search_leaf_witness :
  watched 1000000 12%nat (onload 1000000 Example.two_sidebars).
Proof.
  assert (isInitialLoad (plugin Example.two_sidebars) = true) as H1
    by (vm_compute; reflexivity).
  assert (processedLeaves (plugin Example.two_sidebars) = ∅) as H2
    by (vm_compute; reflexivity).
  assert (leafWatchIntervals (plugin Example.two_sidebars) = ∅) as H3
    by (vm_compute; reflexivity).
  assert (Settings.openBookmarksInMainArea
            (Settings.assign_defaults (storage (host Example.two_sidebars))) = true) as H4
    by (vm_compute; reflexivity).
  assert (getLeavesOfType "search" Example.two_sidebars = [10%nat; 12%nat]) as H5
    by (vm_compute; reflexivity).
  pose proof (onload_tracks_every_search_leaf 1000000 Example.two_sidebars H1 H2 H3 H4)
    as H.
  cbv zeta in H. destruct H as [H _]. apply H. rewrite H5.
  apply list_elem_of_further, list_elem_of_here.
Defined.

(** ** Activation of a search leaf *)

(** X26: what an [active-leaf-change] can do.  The handler only ever looks
    at the active leaf.  It queues one redirection pass (delay 10) and
    records the trigger time exactly when the active leaf shows a search
    view, redirection is on, the leaf is classified as peripheral and is
    marked processed, the grace period is over and the last accepted
    trigger is at least 500 ms old.  In every other case, and besides that
    in this one, nothing changes but the location cache: no leaf is marked,
    no state is applied, nothing is saved, no host call is made. *)
Theorem activation_only_triggers (now : Z) (w : World) :
  let w' := handleActiveLeafChanges now w in
  let fires :=
    match activeLeaf (host w) with
    | Some a =>
        String.eqb (getViewType w a) "search"
        && Settings.openBookmarksInMainArea (the_settings w)
        && negb (classify a w)
        && bool_decide (a ∈ processedLeaves (plugin w))
        && negb (isInInitializationGracePeriod now w)
        && negb (shouldPreventDuplicateRedirection now w)
    | None => false
    end in
  if fires
  then exists v, cache_only w v
                 /\ w' = setTimeout TRedirectionPass 10
                           (on_plugin (p_lastRedirectionTriggerTime now) v)
  else cache_only w w'.
Proof.
  intros w' fires. unfold w', fires, handleActiveLeafChanges.
  destruct (activeLeaf (host w)) as [a|]; [|reflexivity].
  destruct (String.eqb (getViewType w a) "search"); cbn [negb orb andb]; [|reflexivity].
  destruct (Settings.openBookmarksInMainArea (the_settings w)) eqn:Hflag;
    cbn [negb orb andb]; [|reflexivity].
  destruct (isInMainArea a w) as [b w1] eqn:E.
  destruct (isInMainArea_cache_only _ _ _ _ E) as [-> H1].
  pose proof H1 as (Hh & [c Hp] & Hc).
  destruct (classify a w) eqn:Hcl; cbn [negb andb]; [done|].
  rewrite Hp. cbn [processedLeaves p_leafLocationCache].
  case_bool_decide as Hm; cbn [andb]; [|done].
  unfold handleExistingSearchLeafActivation.
  assert (isInInitializationGracePeriod now w1 = isInInitializationGracePeriod now w) as ->.
  { unfold isInInitializationGracePeriod. by rewrite Hp. }
  destruct (isInInitializationGracePeriod now w); cbn [negb andb]; [done|].
  destruct (isInMainArea a w1) as [b2 w2] eqn:E2.
  destruct (isInMainArea_cache_only _ _ _ _ E2) as [-> H2].
  pose proof H2 as (Hh2 & [c2 Hp2] & Hc2).
  assert (cache_only w w2) as H12 by (by etrans).
  assert (the_settings w2 = the_settings w) as ->.
  { unfold the_settings. by rewrite Hp2, Hp. }
  rewrite Hflag, Hc, Hcl. cbn [negb andb].
  unfold triggerRedirection.
  assert (shouldPreventDuplicateRedirection now w2 = shouldPreventDuplicateRedirection now w)
    as ->.
  { unfold shouldPreventDuplicateRedirection. by rewrite Hp2, Hp. }
  destruct (shouldPreventDuplicateRedirection now w); cbn [negb]; [done|].
  by exists w2.
Qed.
